(** * bless-net: node session orchestrator

    A shallow embedding of the three JavaScript sources of the repository
    and the properties of its retrying request executor, of the per-node
    lifecycle and of the orchestrating loop.

    The repository holds three variants of one program:
    - [Part000] (src/unnamed/part_000): requests go through [retryFetch];
      the lifecycles run inside the [for] loop of [runAll], one after the
      other, with a 5000 ms pause before a lifecycle is tried again;
    - [Part001] (src/unnamed/part_001): requests are plain [fetch] calls;
      [runAll] calls [processNode] for every entry without awaiting it;
    - [Bless] (src/bless.js): plain [fetch] calls, one attempt per node.

    Conventions of the embedding.
    - An [async] function is a tree of type [Async A]: each node is one
      interaction with the runtime (a request, a file read, a console line,
      a timer), each leaf a returned value, a thrown error, or [Spin].
    - [while (true)] loops and the self-call of [fetchIpAddress] take a
      budget [fuel]; [Spin] stands for a loop that is still going when the
      budget is used up.
    - The runtime is a [World]: a fixed environment that decides how every
      request, file read and question is answered, and the history of what
      the program did so far. [exec] follows one task to its end; the
      callbacks given to [setInterval] and the tasks started without
      [await] are kept in the world, and [resume] lets started tasks take
      turns in any order. When an interval fires, its callback joins the
      tasks ([fire]); when the runtime fires an interval, and what it does
      with a callback whose promise is rejected, is not part of the
      embedding. The handler that part_001 registers for [uncaughtException]
      is a function of the error it is handed
      ([Part001.onUncaughtException]).
    - JavaScript strings are sequences of code units below 256; numbers that
      the code computes with (retry counters, delays) are integers.
    - Module loading ([import('node-fetch')], [import('chalk')]) and the time
      stamps of the console lines are left out; the interactive file setup
      ([setupFiles], [createIdFile], [createUserFile]) is embedded apart,
      over a store of files (module [Setup]); [displayHeader] is left out. *)

From Stdlib Require Import ZArith String Ascii Bool Arith Lia List.
Import ListNotations.
Local Open Scope string_scope.
Local Open Scope Z_scope.

Set Warnings "-register-all".
#[local] Unset Elimination Schemes.

(* ================================================================== *)
(** * JavaScript values, errors, responses                              *)
(* ================================================================== *)

(** A value as [JSON.parse] or a property access may produce it. *)
Inductive JsVal : Type :=
| JUndefined
| JNull
| JBool (b : bool)
| JNum (n : Z)
| JStr (s : string)
| JArr (items : list JsVal)
| JObj (fields : list (string * JsVal)).
#[local] Set Elimination Schemes.

(** An [Error] object; the code only ever reads [message]. *)
Record JsError : Type := mkError { name : string; message : string }.

(** How an awaited promise settles. *)
Inductive Settled (X : Type) : Type :=
| Fulfilled (x : X)
| Rejected (e : JsError).
Arguments Fulfilled {X} x.
Arguments Rejected {X} e.

(** The second argument of [fetch]. [body] holds the value that the code
    hands to [JSON.stringify]. *)
Record Options : Type := mkOptions {
  method : option string;
  headers : list (string * string);
  body : option JsVal;
  timeout : option Z
}.

(** What the code reads of a [Response]: [ok], [statusText], the outcome of
    [json()], and the outcome of [text()] once [json()] has failed. *)
Record Response : Type := mkResponse {
  ok : bool;
  statusText : string;
  json : Settled JsVal;
  text : Settled string
}.

(** One entry of [os.networkInterfaces()]. *)
Record Iface : Type := mkIface {
  internal : bool;
  family : string;
  address : string
}.

Inductive Stream : Type := Stdout | Stderr.

(* ================================================================== *)
(** * Async programs                                                    *)
(* ================================================================== *)

Inductive Async (A : Type) : Type :=
| Ret (a : A)
| Throw (e : JsError)
| Spin
| Fetch (url : string) (o : Options) (k : Settled Response -> Async A)
| ReadFile (path : string) (k : Settled string -> Async A)
| Question (prompt : string) (k : string -> Async A)
| Console (s : Stream) (template : string) (args : list JsVal) (k : Async A)
| Timeout (ms : Z) (k : Async A)
| SetInterval (callback : Async unit) (ms : Z) (k : Async A)
| Detach (task : Async unit) (k : Async A)
| NetworkInterfaces (k : list (string * list Iface) -> Async A).

Arguments Ret {A} a.
Arguments Throw {A} e.
Arguments Spin {A}.
Arguments Fetch {A} url o k.
Arguments ReadFile {A} path k.
Arguments Question {A} prompt k.
Arguments Console {A} s template args k.
Arguments Timeout {A} ms k.
Arguments SetInterval {A} callback ms k.
Arguments Detach {A} task k.
Arguments NetworkInterfaces {A} k.

(** [await p] followed by the rest of the function. *)
Fixpoint bind {A B : Type} (p : Async A) (f : A -> Async B) : Async B :=
  match p with
  | Ret a => f a
  | Throw e => Throw e
  | Spin => Spin
  | Fetch url o k => Fetch url o (fun r => bind (k r) f)
  | ReadFile path k => ReadFile path (fun r => bind (k r) f)
  | Question q k => Question q (fun r => bind (k r) f)
  | Console s t args k => Console s t args (bind k f)
  | Timeout ms k => Timeout ms (bind k f)
  | SetInterval cb ms k => SetInterval cb ms (bind k f)
  | Detach t k => Detach t (bind k f)
  | NetworkInterfaces k => NetworkInterfaces (fun r => bind (k r) f)
  end.

(** [try { p } catch (error) { h error }]. *)
Fixpoint try_catch {A : Type} (p : Async A) (h : JsError -> Async A) : Async A :=
  match p with
  | Ret a => Ret a
  | Throw e => h e
  | Spin => Spin
  | Fetch url o k => Fetch url o (fun r => try_catch (k r) h)
  | ReadFile path k => ReadFile path (fun r => try_catch (k r) h)
  | Question q k => Question q (fun r => try_catch (k r) h)
  | Console s t args k => Console s t args (try_catch k h)
  | Timeout ms k => Timeout ms (try_catch k h)
  | SetInterval cb ms k => SetInterval cb ms (try_catch k h)
  | Detach t k => Detach t (try_catch k h)
  | NetworkInterfaces k => NetworkInterfaces (fun r => try_catch (k r) h)
  end.

Declare Scope async_scope.
Delimit Scope async_scope with async.
Bind Scope async_scope with Async.
Notation "x <- p ;; q" := (bind p (fun x => q))
  (at level 61, p at next level, right associativity) : async_scope.
Notation "p ;; q" := (bind p (fun _ => q))
  (at level 61, right associativity) : async_scope.
Local Open Scope async_scope.

(** An awaited promise: its value, or its rejection thrown. *)
Definition await {X : Type} (r : Settled X) : Async X :=
  match r with
  | Fulfilled x => Ret x
  | Rejected e => Throw e
  end.

Definition fetch (url : string) (o : Options) : Async Response :=
  Fetch url o await.
Definition readFile (path : string) : Async string :=
  ReadFile path await.
Definition console_log (template : string) (args : list JsVal) : Async unit :=
  Console Stdout template args (Ret tt).
Definition console_error (template : string) (args : list JsVal) : Async unit :=
  Console Stderr template args (Ret tt).
(** [await new Promise(resolve => setTimeout(resolve, ms))]. *)
Definition sleep (ms : Z) : Async unit :=
  Timeout ms (Ret tt).
Definition setInterval (callback : Async unit) (ms : Z) : Async unit :=
  SetInterval callback ms (Ret tt).
(** A call of an async function whose promise is dropped. *)
Definition detach (task : Async unit) : Async unit :=
  Detach task (Ret tt).
(** [response.json()]. *)
Definition response_json (r : Response) : Async JsVal :=
  await (json r).

(* ================================================================== *)
(** * The runtime                                                       *)
(* ================================================================== *)

(** What a task can be seen to do. *)
Inductive Event : Type :=
| EvFetch (url : string) (o : Options)
| EvReadFile (path : string)
| EvQuestion (prompt : string)
| EvConsole (s : Stream) (template : string) (args : list JsVal)
| EvTimeout (ms : Z)
| EvSetInterval (ms : Z)
| EvDetach
| EvNetworkInterfaces.

(** The environment answers the [n]-th request to a URL, the [n]-th read of
    a file and the [n]-th question (counting from 0). *)
Record Env : Type := mkEnv {
  fetch_reply : string -> nat -> Settled Response;
  file_reply : string -> nat -> Settled string;
  answer : nat -> string;
  networkInterfaces : list (string * list Iface)
}.

(** [trace] is the history, newest event first; [timers] the intervals that
    were set, newest first; [detached] the tasks started and not awaited. *)
Record World : Type := mkWorld {
  env : Env;
  trace : list Event;
  timers : list (Z * Async unit);
  detached : list (Async unit)
}.

Definition is_fetch_to (url : string) (ev : Event) : bool :=
  match ev with
  | EvFetch u _ => String.eqb u url
  | _ => false
  end.
Definition is_read_of (path : string) (ev : Event) : bool :=
  match ev with
  | EvReadFile p => String.eqb p path
  | _ => false
  end.
Definition is_question (ev : Event) : bool :=
  match ev with
  | EvQuestion _ => true
  | _ => false
  end.

(** How many events of a history are of the kind [f]. *)
Definition count (f : Event -> bool) (t : list Event) : nat :=
  length (filter f t).

Definition fetches_to (url : string) (t : list Event) : nat := count (is_fetch_to url) t.
Definition reads_of (path : string) (t : list Event) : nat := count (is_read_of path) t.
Definition questions (t : list Event) : nat := count is_question t.

(** The world with one more event in its history. *)
Definition record (ev : Event) (w : World) : World :=
  mkWorld (env w) (ev :: trace w) (timers w) (detached w).

(** How a task ends: with a value, with an error, or not within the
    budget of its loops. *)
Inductive Outcome (A : Type) : Type :=
| Returned (a : A)
| Raised (e : JsError)
| Running.
Arguments Returned {A} a.
Arguments Raised {A} e.
Arguments Running {A}.

(** One interaction of a task with the runtime. *)
Definition step {A : Type} (p : Async A) (w : World) : Async A * World :=
  match p with
  | Ret _ | Throw _ | Spin => (p, w)
  | Fetch url o k =>
      (k (fetch_reply (env w) url (fetches_to url (trace w))), record (EvFetch url o) w)
  | ReadFile path k =>
      (k (file_reply (env w) path (reads_of path (trace w))), record (EvReadFile path) w)
  | Question q k =>
      (k (answer (env w) (questions (trace w))), record (EvQuestion q) w)
  | Console s t args k => (k, record (EvConsole s t args) w)
  | Timeout ms k => (k, record (EvTimeout ms) w)
  | SetInterval cb ms k =>
      (k, mkWorld (env w) (EvSetInterval ms :: trace w) ((ms, cb) :: timers w) (detached w))
  | Detach t k =>
      (k, mkWorld (env w) (EvDetach :: trace w) (timers w) (detached w ++ [t]))
  | NetworkInterfaces k =>
      (k (networkInterfaces (env w)), record EvNetworkInterfaces w)
  end.

(** A task followed to its end. *)
Fixpoint exec {A : Type} (p : Async A) (w : World) : Outcome A * World :=
  match p with
  | Ret a => (Returned a, w)
  | Throw e => (Raised e, w)
  | Spin => (Running, w)
  | Fetch url o k =>
      exec (k (fetch_reply (env w) url (fetches_to url (trace w)))) (record (EvFetch url o) w)
  | ReadFile path k =>
      exec (k (file_reply (env w) path (reads_of path (trace w)))) (record (EvReadFile path) w)
  | Question q k =>
      exec (k (answer (env w) (questions (trace w)))) (record (EvQuestion q) w)
  | Console s t args k => exec k (record (EvConsole s t args) w)
  | Timeout ms k => exec k (record (EvTimeout ms) w)
  | SetInterval cb ms k =>
      exec k (mkWorld (env w) (EvSetInterval ms :: trace w) ((ms, cb) :: timers w) (detached w))
  | Detach t k =>
      exec k (mkWorld (env w) (EvDetach :: trace w) (timers w) (detached w ++ [t]))
  | NetworkInterfaces k =>
      exec (k (networkInterfaces (env w))) (record EvNetworkInterfaces w)
  end.

(** The history in the order things happened. *)
Definition history (w : World) : list Event := rev (trace w).

(** A world in which nothing has happened yet. *)
Definition boot (e : Env) : World := mkWorld e [] [] [].

(* ================================================================== *)
(** * The JavaScript library functions the sources use                  *)
(* ================================================================== *)

(** White space as [String.prototype.trim] sees it, among code units
    below 256: TAB, LF, VT, FF, CR, space and no-break space. *)
Definition is_space (c : ascii) : bool :=
  let n := nat_of_ascii c in
  ((9 <=? n)%nat && (n <=? 13)%nat) || (n =? 32)%nat || (n =? 160)%nat.

Fixpoint trimStart (s : string) : string :=
  match s with
  | EmptyString => EmptyString
  | String c s' => if is_space c then trimStart s' else s
  end.

Fixpoint trimEnd (s : string) : string :=
  match s with
  | EmptyString => EmptyString
  | String c s' =>
      match trimEnd s' with
      | EmptyString => if is_space c then EmptyString else String c EmptyString
      | r => String c r
      end
  end.

(** [s.trim()]. *)
Definition trim (s : string) : string := trimEnd (trimStart s).

(** [s.split(sep)] for a one-character separator: never empty. *)
Fixpoint split (sep : ascii) (s : string) : list string :=
  match s with
  | EmptyString => [EmptyString]
  | String c s' =>
      if Ascii.eqb c sep then EmptyString :: split sep s'
      else match split sep s' with
           | piece :: pieces => String c piece :: pieces
           | [] => [String c EmptyString]
           end
  end.

Definition newline : ascii := ascii_of_nat 10.

(** [!s] for a string. *)
Definition str_falsy (s : string) : bool :=
  match s with
  | EmptyString => true
  | _ => false
  end.

(** [!v] for a value that is a string or [undefined]. *)
Definition opt_falsy (v : option string) : bool :=
  match v with
  | None => true
  | Some s => str_falsy s
  end.

(** A string or [undefined] inside a template literal. *)
Definition show (v : option string) : string :=
  match v with
  | None => "undefined"
  | Some s => s
  end.

Definition opt_val (v : option string) : JsVal :=
  match v with
  | None => JUndefined
  | Some s => JStr s
  end.

(** The truth value of [v] in a condition. *)
Definition truthy (v : JsVal) : bool :=
  match v with
  | JUndefined | JNull => false
  | JBool b => b
  | JNum n => negb (n =? 0)
  | JStr s => negb (str_falsy s)
  | JArr _ | JObj _ => true
  end.

Fixpoint lookup (key : string) (fields : list (string * JsVal)) : JsVal :=
  match fields with
  | [] => JUndefined
  | (k, v) :: rest => if String.eqb k key then v else lookup key rest
  end.

(** [v.key] for a key that is no built-in property: a [TypeError] on
    [undefined] and [null], [undefined] on anything that is not an object. *)
Definition get_prop (v : JsVal) (key : string) : Async JsVal :=
  match v with
  | JUndefined | JNull =>
      Throw (mkError "TypeError" ("Cannot read properties (reading '" ++ key ++ "')"))
  | JObj fields => Ret (lookup key fields)
  | _ => Ret JUndefined
  end.

(** One line of id.txt: [const [nodeId, hardwareId] = line.split(':')].
    [nodeId] is always a string; [hardwareId] is [undefined] when the line
    has no colon. *)
Record Entry : Type := mkEntry { nodeId : string; hardwareId : option string }.

Definition parse_entry (line : string) : Entry :=
  match split ":" line with
  | n :: h :: _ => mkEntry n (Some h)
  | [n] => mkEntry n None
  | [] => mkEntry EmptyString None
  end.

(** [!nodeId || !hardwareId]. *)
Definition invalid_entry (e : Entry) : bool :=
  str_falsy (nodeId e) || opt_falsy (hardwareId e).

(* ------------------------------------------------------------------ *)
(** ** Regular expressions (the fragment [isValidIP] uses)              *)
(* ------------------------------------------------------------------ *)

Inductive Regex : Type :=
| Lit (c : ascii)
| Range (lo hi : ascii)
| Cat (r1 r2 : Regex)
| Alt (r1 r2 : Regex)
| Opt (r : Regex).

Definition in_range (lo hi c : ascii) : bool :=
  (nat_of_ascii lo <=? nat_of_ascii c)%nat && (nat_of_ascii c <=? nat_of_ascii hi)%nat.

(** Backtracking match of [r] at the front of [s]; [k] tries the rest. *)
Fixpoint rmatch (r : Regex) (s : string) (k : string -> bool) : bool :=
  match r with
  | Lit c =>
      match s with
      | String a s' => Ascii.eqb a c && k s'
      | EmptyString => false
      end
  | Range lo hi =>
      match s with
      | String a s' => in_range lo hi a && k s'
      | EmptyString => false
      end
  | Cat r1 r2 => rmatch r1 s (fun s' => rmatch r2 s' k)
  | Alt r1 r2 => rmatch r1 s k || rmatch r2 s k
  | Opt r1 => rmatch r1 s k || k s
  end.

(** [/^r$/.test(s)]. *)
Definition regex_test (r : Regex) (s : string) : bool :=
  rmatch r s str_falsy.

(** [25[0-5]|2[0-4][0-9]|[01]?[0-9][0-9]?]. *)
Definition octetRegex : Regex :=
  Alt (Cat (Lit "2") (Cat (Lit "5") (Range "0" "5")))
      (Alt (Cat (Lit "2") (Cat (Range "0" "4") (Range "0" "9")))
           (Cat (Opt (Range "0" "1")) (Cat (Range "0" "9") (Opt (Range "0" "9"))))).

(** [/^(octet)\.(octet)\.(octet)\.(octet)$/]. *)
Definition ipRegex : Regex :=
  Cat octetRegex (Cat (Lit ".")
    (Cat octetRegex (Cat (Lit ".")
      (Cat octetRegex (Cat (Lit ".") octetRegex))))).

(** The same in all three sources. *)
Definition isValidIP (ip : string) : bool := regex_test ipRegex ip.

(* ------------------------------------------------------------------ *)
(** ** Shared pieces of the three sources                               *)
(* ------------------------------------------------------------------ *)

Definition apiBaseUrl : string := "https://gateway-run.bls.dev/api/v1".
Definition ipServiceUrl : string := "https://tight-block-2413.txlabs.workers.dev".

(** [promptInput]: the answer to the question, trimmed. *)
Definition promptInput (promptMessage : string) : Async string :=
  Question promptMessage (fun answer => Ret (trim answer)).

Definition usable (details : Iface) : bool :=
  negb (internal details) && String.eqb (family details) "IPv4".

(** [getLocalIpAddress]: the first address, in the order of the two nested
    loops, that is not internal and is IPv4. *)
Fixpoint firstUsable (interfaces : list (string * list Iface)) : option string :=
  match interfaces with
  | [] => None
  | (_, details) :: rest =>
      match find usable details with
      | Some d => Some (address d)
      | None => firstUsable rest
      end
  end.

Definition getLocalIpAddress : Async string :=
  NetworkInterfaces (fun interfaces =>
    match firstUsable interfaces with
    | Some a => Ret a
    | None => Ret "127.0.0.1"
    end).

Definition bearer (authToken : string) : string := "Bearer " ++ authToken.

Definition no_options : Options := mkOptions None [] None None.

(** [{ ...options, timeout: ms }]. *)
Definition with_timeout (o : Options) (ms : Z) : Options :=
  mkOptions (method o) (headers o) (body o) (Some ms).

Definition registerUrl (nodeId : string) : string := apiBaseUrl ++ "/nodes/" ++ nodeId.
Definition sessionUrl (nodeId : string) : string :=
  apiBaseUrl ++ "/nodes/" ++ nodeId ++ "/start-session".
Definition pingUrl (nodeId : string) : string := apiBaseUrl ++ "/nodes/" ++ nodeId ++ "/ping".

(** The options of the three requests. *)
Definition registerOptions (authToken : string) (ipAddress hardwareId : JsVal) : Options :=
  mkOptions (Some "POST")
    [("Content-Type", "application/json"); ("Authorization", bearer authToken)]
    (Some (JObj [("ipAddress", ipAddress); ("hardwareId", hardwareId)]))
    None.

Definition authOptions (authToken : string) : Options :=
  mkOptions (Some "POST") [("Authorization", bearer authToken)] None None.

(* ================================================================== *)
(** * src/unnamed/part_000: the variant with [retryFetch]               *)
(* ================================================================== *)

Module Part000.

(** The default values of [retries] and [delay]. *)
Definition default_retries : Z := 3.
Definition default_delay : Z := 1000.

(** [retryFetch(url, options, infiniteRetry, retries, delay)]: the
    [while (true)] loop with its [try]/[catch]. *)
Fixpoint retryFetch (fuel : nat) (url : string) (options : Options)
    (infiniteRetry : bool) (retries delay : Z) : Async Response :=
  match fuel with
  | O => Spin
  | S fuel' =>
      try_catch
        (response <- fetch url (with_timeout options 30000) ;;
         if negb (ok response)
         then Throw (mkError "Error" ("HTTP Error: " ++ statusText response))
         else Ret response)
        (fun error =>
           if negb infiniteRetry && (retries =? 0)
           then Throw error
           else
             console_error "Retrying request to ${url} due to error: ${error.message}"
               [JStr url; JStr (message error)] ;;
             sleep delay ;;
             retryFetch fuel' url options infiniteRetry
               (if infiniteRetry then retries else retries - 1) delay)
  end.

(** [retryFetch(ipServiceUrl, {}, true).then(r => r.json()).then(d => d.ip)]. *)
Definition lookupIp (fuel : nat) : Async JsVal :=
  response <- retryFetch fuel ipServiceUrl no_options true default_retries default_delay ;;
  data <- response_json response ;;
  get_prop data "ip".

(** The two statements after the [switch]. *)
Definition useIp (ipAddress : JsVal) : Async JsVal :=
  console_log "Using IP address: ${ipAddress}" [ipAddress] ;;
  Ret ipAddress.

(** The two questions of [fetchIpAddress]. *)
Definition choicePrompt : string :=
  "Choose IP option: (1) Manual, (2) Fetch from Service, (3) Local network IP (1/2/3): ".
Definition ipPrompt : string := "Enter your IP address: ".

Fixpoint fetchIpAddress (fuel : nat) : Async JsVal :=
  match fuel with
  | O => Spin
  | S fuel' =>
      choice <- promptInput choicePrompt ;;
      if String.eqb choice "1" then
        ipAddress <- promptInput ipPrompt ;;
        if negb (isValidIP ipAddress) then
          console_error "Invalid IP address. Please try again." [] ;;
          fetchIpAddress fuel'
        else useIp (JStr ipAddress)
      else if String.eqb choice "2" then
        ipAddress <- lookupIp fuel ;;
        useIp ipAddress
      else if String.eqb choice "3" then
        ipAddress <- getLocalIpAddress ;;
        useIp (JStr ipAddress)
      else
        console_error "Invalid choice. Defaulting to external IP service." [] ;;
        ipAddress <- lookupIp fuel ;;
        useIp ipAddress
  end.

(** The closure [pingNode] of one lifecycle attempt. *)
Definition pingNode (fuel : nat) (nodeId authToken : string) : Async unit :=
  pingResponse <- retryFetch fuel (pingUrl nodeId) (authOptions authToken)
                    false default_retries default_delay ;;
  pingData <- response_json pingResponse ;;
  console_log "Ping response for ${nodeId}:" [JStr nodeId; pingData] ;;
  connected <- get_prop pingData "isB7SConnected" ;;
  if truthy connected
  then console_log "Node ${nodeId} is now connected to B7S." [JStr nodeId]
  else Ret tt.

(** The body of the [try] block: one attempt at bringing a node up. *)
Definition attempt (fuel : nat) (nodeId hardwareId : string) (ipAddress : JsVal)
    : Async unit :=
  content <- readFile "user.txt" ;;
  let authToken := trim content in
  regResponse <- retryFetch fuel (registerUrl nodeId)
                   (registerOptions authToken ipAddress (JStr hardwareId))
                   true default_retries default_delay ;;
  regData <- response_json regResponse ;;
  console_log "Registration response for ${nodeId}:" [JStr nodeId; regData] ;;
  sessionResponse <- retryFetch fuel (sessionUrl nodeId) (authOptions authToken)
                       true default_retries default_delay ;;
  sessionData <- response_json sessionResponse ;;
  console_log "Session started for ${nodeId}:" [JStr nodeId; sessionData] ;;
  pingNode fuel nodeId authToken ;;
  setInterval (pingNode fuel nodeId authToken) 60000.

(** The inner [while (true)] of [runAll]: [break] after a full attempt,
    otherwise the [catch] block and once more. *)
Fixpoint lifecycle (fuel budget : nat) (nodeId hardwareId : string) (ipAddress : JsVal)
    : Async unit :=
  match fuel with
  | O => Spin
  | S fuel' =>
      try_catch (attempt budget nodeId hardwareId ipAddress)
        (fun error =>
           console_error "Error processing node ${nodeId}. Retrying: ${error.message}"
             [JStr nodeId; JStr (message error)] ;;
           sleep 5000 ;;
           lifecycle fuel' budget nodeId hardwareId ipAddress)
  end.

(** The [for (const { nodeId, hardwareId } of ids)] loop of [runAll]. *)
Fixpoint forEachId (fuel : nat) (ipAddress : JsVal) (ids : list Entry) : Async unit :=
  match ids with
  | [] => Ret tt
  | e :: rest =>
      if invalid_entry e then
        console_error "Invalid ID entry: nodeId=${nodeId}, hardwareId=${hardwareId}"
          [JStr (nodeId e); opt_val (hardwareId e)] ;;
        forEachId fuel ipAddress rest
      else
        lifecycle fuel fuel (nodeId e) (show (hardwareId e)) ipAddress ;;
        forEachId fuel ipAddress rest
  end.

(** [idsContent.trim().split('\n').map(...)]. *)
Definition parseIds (idsContent : string) : list Entry :=
  map parse_entry (split newline (trim idsContent)).

(** [runAll], from the read of id.txt on. *)
Definition runAll (fuel : nat) : Async unit :=
  idsContent <- readFile "id.txt" ;;
  let ids := parseIds idsContent in
  ipAddress <- fetchIpAddress fuel ;;
  forEachId fuel ipAddress ids.

End Part000.

(* ================================================================== *)
(** * src/unnamed/part_001: the variant with [processNode]              *)
(* ================================================================== *)

Module Part001.

(** [data.trim().split('\n').filter(id => id).map(...)]. *)
Definition readNodeAndHardwareIds : Async (list Entry) :=
  data <- readFile "id.txt" ;;
  Ret (map parse_entry
         (filter (fun id => negb (str_falsy id)) (split newline (trim data)))).

Definition readAuthToken : Async string :=
  data <- readFile "user.txt" ;;
  Ret (trim data).

(** [fetch(ipServiceUrl)] and [data.ip], with the console line of option 2
    when [announce] is set. *)
Definition lookupIp (announce : bool) : Async JsVal :=
  response <- fetch ipServiceUrl no_options ;;
  data <- response_json response ;;
  (if announce then console_log "IP fetch response:" [data] else Ret tt) ;;
  get_prop data "ip".

Fixpoint fetchIpAddress (fuel : nat) : Async JsVal :=
  match fuel with
  | O => Spin
  | S fuel' =>
      choice <- promptInput
        "Would you like to (1) Enter your IP address manually, (2) Fetch IP from service, or (3) Use local network IP? (1/2/3): " ;;
      if String.eqb choice "1" then
        ipAddress <- promptInput "Please enter your IP address: " ;;
        if negb (isValidIP ipAddress) then
          console_log "Invalid IP address format. Please enter a valid IPv4 address." [] ;;
          fetchIpAddress fuel'
        else Ret (JStr ipAddress)
      else if String.eqb choice "2" then
        lookupIp true
      else if String.eqb choice "3" then
        ipAddress <- getLocalIpAddress ;;
        console_log "Local network IP:" [JStr ipAddress] ;;
        Ret (JStr ipAddress)
      else
        console_log "Invalid option. Defaulting to fetching IP from the external service." [] ;;
        lookupIp false
  end.

Definition registerNode (nodeId : string) (hardwareId : option string) (ipAddress : JsVal)
    : Async JsVal :=
  authToken <- readAuthToken ;;
  console_log "Registering node with IP: ${ipAddress}, Hardware ID: ${hardwareId}"
    [ipAddress; opt_val hardwareId] ;;
  response <- fetch (registerUrl nodeId)
                (registerOptions authToken ipAddress (opt_val hardwareId)) ;;
  data <- try_catch (response_json response)
            (fun error =>
               body <- await (text response) ;;
               console_error "Failed to parse JSON. Response text:" [JStr body] ;;
               Throw error) ;;
  console_log "Registration response:" [data] ;;
  Ret data.

Definition startSession (nodeId : string) : Async JsVal :=
  authToken <- readAuthToken ;;
  console_log "Starting session for node ${nodeId}, it might take a while..." [JStr nodeId] ;;
  response <- fetch (sessionUrl nodeId) (authOptions authToken) ;;
  data <- response_json response ;;
  console_log "Start session response:" [data] ;;
  Ret data.

Definition pingNode (nodeId : string) (ipAddress : JsVal) : Async JsVal :=
  authToken <- readAuthToken ;;
  console_log "Pinging node ${nodeId} with IP: ${ipAddress}" [JStr nodeId; ipAddress] ;;
  response <- fetch (pingUrl nodeId) (authOptions authToken) ;;
  data <- response_json response ;;
  status <- get_prop data "status" ;;
  console_log "Ping response, NodeID: ${nodeId}, Status: ${status}, IP: ${ipAddress}"
    [JStr nodeId; status; ipAddress] ;;
  Ret data.

(** The callback that [processNode] hands to [setInterval]. *)
Definition heartbeat (nodeId : string) (ipAddress : JsVal) : Async unit :=
  try_catch
    (console_log "Sending ping for nodeId: ${nodeId}" [JStr nodeId] ;;
     pingNode nodeId ipAddress ;;
     Ret tt)
    (fun error =>
       console_error "Error during ping: ${error.message}" [JStr (message error)] ;;
       Throw error).

(** The body of the [try] block of [processNode]. *)
Definition attempt (nodeId : string) (hardwareId : option string) (ipAddress : JsVal)
    : Async unit :=
  console_log "Processing nodeId: ${nodeId}, hardwareId: ${hardwareId}, IP: ${ipAddress}"
    [JStr nodeId; opt_val hardwareId; ipAddress] ;;
  registrationResponse <- registerNode nodeId hardwareId ipAddress ;;
  console_log "Node registration completed for nodeId: ${nodeId}. Response:"
    [JStr nodeId; registrationResponse] ;;
  startSessionResponse <- startSession nodeId ;;
  console_log "Session started for nodeId: ${nodeId}. Response:"
    [JStr nodeId; startSessionResponse] ;;
  console_log "Sending initial ping for nodeId: ${nodeId}" [JStr nodeId] ;;
  pingNode nodeId ipAddress ;;
  setInterval (heartbeat nodeId ipAddress) 60000.

Fixpoint processNode (fuel : nat) (nodeId : string) (hardwareId : option string)
    (ipAddress : JsVal) : Async unit :=
  match fuel with
  | O => Spin
  | S fuel' =>
      try_catch (attempt nodeId hardwareId ipAddress)
        (fun error =>
           console_error "Error occurred for nodeId: ${nodeId}, restarting process: ${error.message}"
             [JStr nodeId; JStr (message error)] ;;
           processNode fuel' nodeId hardwareId ipAddress)
  end.

(** The [for] loop of [runAll]: [processNode] is called and not awaited. *)
Fixpoint launchAll (fuel : nat) (ipAddress : JsVal) (ids : list Entry) : Async unit :=
  match ids with
  | [] => Ret tt
  | e :: rest =>
      detach (processNode fuel (nodeId e) (hardwareId e) ipAddress) ;;
      launchAll fuel ipAddress rest
  end.

(** [runAll(false)]: the file creation of the first run is left out. *)
Definition runAll (fuel : nat) : Async unit :=
  try_catch
    (ids <- readNodeAndHardwareIds ;;
     ipAddress <- fetchIpAddress fuel ;;
     launchAll fuel ipAddress ids)
    (fun error =>
       console_error "An error occurred: ${error.message}" [JStr (message error)]).

(** The hook [process.on('uncaughtException', ...)]: it writes one line and
    calls [runAll(false)], which it does not await. *)
Definition onUncaughtException (fuel : nat) (error : JsError) : Async unit :=
  console_error "Uncaught exception: ${error.message}" [JStr (message error)] ;;
  detach (runAll fuel).

End Part001.

(* ================================================================== *)
(** * src/bless.js: the variant without retries                         *)
(* ================================================================== *)

Module Bless.

(** [(await (await fetch(ipServiceUrl)).json()).ip]. *)
Definition lookupIp : Async JsVal :=
  response <- fetch ipServiceUrl no_options ;;
  data <- response_json response ;;
  get_prop data "ip".

Definition useIp (ipAddress : JsVal) : Async JsVal :=
  console_log "Using IP address: ${ipAddress}" [ipAddress] ;;
  Ret ipAddress.

Fixpoint fetchIpAddress (fuel : nat) : Async JsVal :=
  match fuel with
  | O => Spin
  | S fuel' =>
      choice <- promptInput
        "Choose IP option: (1) Manual, (2) Fetch from Service, (3) Local network IP (1/2/3): " ;;
      if String.eqb choice "1" then
        ipAddress <- promptInput "Enter your IP address: " ;;
        if negb (isValidIP ipAddress) then
          console_error "Invalid IP address. Please try again." [] ;;
          fetchIpAddress fuel'
        else useIp (JStr ipAddress)
      else if String.eqb choice "2" then
        ipAddress <- lookupIp ;;
        useIp ipAddress
      else if String.eqb choice "3" then
        ipAddress <- getLocalIpAddress ;;
        useIp (JStr ipAddress)
      else
        console_error "Invalid choice. Defaulting to external IP service." [] ;;
        ipAddress <- lookupIp ;;
        useIp ipAddress
  end.

Definition pingNode (nodeId authToken : string) : Async unit :=
  pingResponse <- fetch (pingUrl nodeId) (authOptions authToken) ;;
  pingData <- response_json pingResponse ;;
  console_log "Ping response for ${nodeId}:" [JStr nodeId; pingData] ;;
  connected <- get_prop pingData "isB7SConnected" ;;
  if truthy connected
  then console_log "Node ${nodeId} is now connected to B7S." [JStr nodeId]
  else console_log "Node ${nodeId} is NOT connected to B7S." [JStr nodeId].

(** The body of the [try] block. *)
Definition attempt (nodeId hardwareId : string) (ipAddress : JsVal) : Async unit :=
  content <- readFile "user.txt" ;;
  let authToken := trim content in
  regResponse <- fetch (registerUrl nodeId)
                   (registerOptions authToken ipAddress (JStr hardwareId)) ;;
  regData <- response_json regResponse ;;
  console_log "Registration response for ${nodeId}:" [JStr nodeId; regData] ;;
  sessionResponse <- fetch (sessionUrl nodeId) (authOptions authToken) ;;
  sessionData <- response_json sessionResponse ;;
  console_log "Session started for ${nodeId}:" [JStr nodeId; sessionData] ;;
  pingNode nodeId authToken ;;
  setInterval (pingNode nodeId authToken) 60000.

(** The [for (const { nodeId, hardwareId } of ids)] loop of [runAll]. *)
Fixpoint forEachId (ipAddress : JsVal) (ids : list Entry) : Async unit :=
  match ids with
  | [] => Ret tt
  | e :: rest =>
      if invalid_entry e then
        console_error "Invalid ID entry: nodeId=${nodeId}, hardwareId=${hardwareId}"
          [JStr (nodeId e); opt_val (hardwareId e)] ;;
        forEachId ipAddress rest
      else
        try_catch (attempt (nodeId e) (show (hardwareId e)) ipAddress)
          (fun error =>
             console_error "Error processing node ${nodeId}: ${error.message}"
               [JStr (nodeId e); JStr (message error)]) ;;
        forEachId ipAddress rest
  end.

Definition parseIds (idsContent : string) : list Entry :=
  map parse_entry (split newline (trim idsContent)).

(** [runAll], from the read of id.txt on. *)
Definition runAll (fuel : nat) : Async unit :=
  idsContent <- readFile "id.txt" ;;
  let ids := parseIds idsContent in
  ipAddress <- fetchIpAddress fuel ;;
  forEachId ipAddress ids.

End Bless.

(* ================================================================== *)
(** * The event loop: tasks that take turns                             *)
(* ================================================================== *)

(** The tasks that were started and the world they share. A task that is
    resumed performs its next interaction; which task is resumed next is
    up to the runtime. *)
Record Loop : Type := mkLoop { tasks : list (Async unit); world : World }.

Fixpoint replace_nth (i : nat) (p : Async unit) (l : list (Async unit))
    : list (Async unit) :=
  match l, i with
  | [], _ => []
  | _ :: rest, O => p :: rest
  | q :: rest, S i' => q :: replace_nth i' p rest
  end.

(** Task [i] takes one turn; the tasks it starts join the others. *)
Definition resume (i : nat) (l : Loop) : Loop :=
  match nth_error (tasks l) i with
  | None => l
  | Some p =>
      let (p', w') := step p (world l) in
      mkLoop (replace_nth i p' (tasks l) ++ detached w')
             (mkWorld (env w') (trace w') (timers w') [])
  end.

(** The turns of a schedule, first to last. *)
Fixpoint run_schedule (s : list nat) (l : Loop) : Loop :=
  match s with
  | [] => l
  | i :: rest => run_schedule rest (resume i l)
  end.

(** The loop as a finished task leaves it: the tasks it started, waiting. *)
Definition started_by (w : World) : Loop :=
  mkLoop (detached w) (mkWorld (env w) (trace w) (timers w) []).

(** How often task [i] gets a turn in a schedule. *)
Definition turns (i : nat) (s : list nat) : nat := count_occ Nat.eq_dec s i.

(* ================================================================== *)
(** * Sample environments                                               *)
(* ================================================================== *)

Module Scenarios.

Definition refused : JsError := mkError "FetchError" "connect ECONNREFUSED".

Definition okResponse (data : JsVal) : Response :=
  mkResponse true "OK" (Fulfilled data) (Rejected (mkError "TypeError" "body used already")).

Definition unavailable : Response :=
  mkResponse false "Service Unavailable"
    (Rejected (mkError "SyntaxError" "Unexpected token < in JSON"))
    (Fulfilled "<html>503</html>").

Definition pong : JsVal := JObj [("status", JStr "ok"); ("isB7SConnected", JBool true)].

(** Every request is refused; user.txt holds a token. *)
Definition env_down : Env :=
  mkEnv (fun _ _ => Rejected refused)
        (fun _ _ => Fulfilled "secret")
        (fun _ => EmptyString)
        [].

(** The first request to any URL is refused, the second answered with
    503, every later one succeeds. *)
Definition env_flaky : Env :=
  mkEnv (fun _ n => match n with
                    | O => Rejected refused
                    | S O => Fulfilled unavailable
                    | _ => Fulfilled (okResponse pong)
                    end)
        (fun _ _ => Fulfilled "secret")
        (fun _ => EmptyString)
        [].

(** Every request succeeds. *)
Definition env_up : Env :=
  mkEnv (fun _ _ => Fulfilled (okResponse pong))
        (fun _ _ => Fulfilled "secret")
        (fun _ => EmptyString)
        [].

(** The first registration of node A is refused; everything else succeeds. *)
Definition env_register_refused_once : Env :=
  mkEnv (fun url n => if String.eqb url (registerUrl "A") && (n =? 0)%nat
                      then Rejected refused
                      else Fulfilled (okResponse pong))
        (fun _ _ => Fulfilled "secret")
        (fun _ => EmptyString)
        [].

(** The first ping of node A is refused; everything else succeeds. *)
Definition env_ping_refused_once : Env :=
  mkEnv (fun url n => if String.eqb url (pingUrl "A") && (n =? 0)%nat
                      then Rejected refused
                      else Fulfilled (okResponse pong))
        (fun _ _ => Fulfilled "secret")
        (fun _ => EmptyString)
        [].

(** The first two registrations of node A are refused; everything else
    succeeds. *)
Definition env_register_refused_twice : Env :=
  mkEnv (fun url n => if String.eqb url (registerUrl "A") && (n <? 2)%nat
                      then Rejected refused
                      else Fulfilled (okResponse pong))
        (fun _ _ => Fulfilled "secret")
        (fun _ => EmptyString)
        [].


Definition missing : JsError := mkError "Error" "ENOENT: no such file or directory".

(** user.txt cannot be read the first time; everything else succeeds. *)
Definition env_token_missing_once : Env :=
  mkEnv (fun _ _ => Fulfilled (okResponse pong))
        (fun _ n => match n with
                    | O => Rejected missing
                    | _ => Fulfilled "secret"
                    end)
        (fun _ => EmptyString)
        [].


(** Every registration of node A is refused; everything else succeeds. *)
Definition env_A_down : Env :=
  mkEnv (fun url _ => if String.eqb url (registerUrl "A")
                      then Rejected refused
                      else Fulfilled (okResponse pong))
        (fun _ _ => Fulfilled "secret")
        (fun _ => EmptyString)
        [].

(** Tasks 0 and 1 take turns, 17 turns each. *)
Definition taking_turns : list nat := flat_map (fun _ => [0; 1]%nat) (seq 0 17).

(** A reply with status 200 whose body is not JSON. *)
Definition garbled : Response :=
  mkResponse true "OK" (Rejected (mkError "SyntaxError" "Unexpected end of JSON input"))
    (Fulfilled "pong").

(** Every request is answered 200 with a body that is not JSON. *)
Definition env_garbled : Env :=
  mkEnv (fun _ _ => Fulfilled garbled)
        (fun _ _ => Fulfilled "secret")
        (fun _ => EmptyString)
        [].

Definition nodeA : Entry := mkEntry "A" (Some "hwA").
Definition nodeB : Entry := mkEntry "B" (Some "hwB").
Definition sampleIp : JsVal := JStr "10.0.0.7".

(** A user who picks manual entry, types 999.1.1.1, is asked again, picks
    manual entry again and types 10.0.0.7 with blanks around it. *)
Definition env_typing : Env :=
  mkEnv (fun _ _ => Fulfilled (okResponse pong))
        (fun _ _ => Fulfilled "secret")
        (fun n => match n with
                  | O => "1"
                  | S O => "999.1.1.1"
                  | S (S O) => " 1 "
                  | S (S (S O)) => " 10.0.0.7 "
                  | _ => "1"
                  end)
        [].

End Scenarios.

Module MoreScenarios.

(** The address service answers with a value that is no IPv4 address. *)
Definition env_odd_service : Env :=
  mkEnv (fun _ n => match n with
                    | O => Rejected Scenarios.refused
                    | _ => Fulfilled (Scenarios.okResponse
                                        (JObj [("ip", JStr "not-an-ip")]))
                    end)
        (fun _ _ => Fulfilled "secret")
        (fun _ => "2")
        [].

(** A user who always picks manual entry and first types two bad
    addresses. *)
Definition env_two_typos : Env :=
  mkEnv (fun _ _ => Fulfilled (Scenarios.okResponse Scenarios.pong))
        (fun _ _ => Fulfilled "secret")
        (fun n => match n with
                  | 1 => "300.1.1.1"
                  | 3 => "1.2.3"
                  | 5 => " 172.16.0.9"
                  | _ => "1"
                  end%nat)
        [].

(** A reply with an HTTP error status and a JSON body. *)
Definition serverError : Response :=
  mkResponse false "Internal Server Error"
    (Fulfilled (JObj [("error", JStr "boom")]))
    (Rejected (mkError "TypeError" "body used already")).

(** Every request is answered with that reply. *)
Definition env_server_errors : Env :=
  mkEnv (fun _ _ => Fulfilled serverError)
        (fun _ _ => Fulfilled "secret")
        (fun _ => EmptyString)
        [].

(** A reply whose body is no JSON and can be read only once. *)
Definition spent : Response :=
  mkResponse true "OK"
    (Rejected (mkError "SyntaxError" "Unexpected token < in JSON"))
    (Rejected (mkError "TypeError" "body used already")).

Definition env_spent : Env :=
  mkEnv (fun _ _ => Fulfilled spent)
        (fun _ _ => Fulfilled "secret")
        (fun _ => EmptyString)
        [].

End MoreScenarios.

Module FiringScenarios.

(** The first ping of node A is answered, every later one with a body that
    is not JSON; everything else succeeds. *)
Definition env_later_pings_garbled : Env :=
  mkEnv (fun url n => if String.eqb url (pingUrl "A") && negb (n =? 0)%nat
                      then Fulfilled MoreScenarios.spent
                      else Fulfilled (Scenarios.okResponse Scenarios.pong))
        (fun _ _ => Fulfilled "secret")
        (fun _ => EmptyString)
        [].

(** Every ping of node A is answered with a body that is not JSON;
    everything else succeeds. *)
Definition env_pings_garbled : Env :=
  mkEnv (fun url _ => if String.eqb url (pingUrl "A")
                      then Fulfilled MoreScenarios.spent
                      else Fulfilled (Scenarios.okResponse Scenarios.pong))
        (fun _ _ => Fulfilled "secret")
        (fun _ => EmptyString)
        [].

(** id.txt holds three lines, the second without a colon; the user picks
    the local address, and there is no interface. *)
Definition env_one_line_without_colon : Env :=
  mkEnv (fun _ _ => Fulfilled (Scenarios.okResponse Scenarios.pong))
        (fun path _ => if String.eqb path "id.txt"
                       then Fulfilled ("A:hwA" ++ String newline
                                         ("nocolon" ++ String newline "B:hwB"))
                       else Fulfilled "secret")
        (fun _ => "3")
        [].

(** id.txt holds node A alone; the second ping of node A is answered with
    a body that is not JSON, everything else succeeds; the user picks the
    local address, and there is no interface. *)
Definition env_second_ping_garbled : Env :=
  mkEnv (fun url n => if String.eqb url (pingUrl "A") && (n =? 1)%nat
                      then Fulfilled MoreScenarios.spent
                      else Fulfilled (Scenarios.okResponse Scenarios.pong))
        (fun path _ => if String.eqb path "id.txt"
                       then Fulfilled "A:hwA"
                       else Fulfilled "secret")
        (fun _ => "3")
        [].

End FiringScenarios.

(* ================================================================== *)
(** * Dotted quads, as the specification words them                     *)
(* ================================================================== *)

Module DottedQuad.

Definition is_digit (c : ascii) : bool := in_range "0" "9" c.

Definition digit_val (c : ascii) : nat := (nat_of_ascii c - 48)%nat.

Fixpoint all_digits (s : string) : bool :=
  match s with
  | EmptyString => true
  | String c s' => is_digit c && all_digits s'
  end.

(** The number a string of digits denotes, read from the left. *)
Fixpoint decimal (acc : nat) (s : string) : nat :=
  match s with
  | EmptyString => acc
  | String c s' => decimal (10 * acc + digit_val c)%nat s'
  end.

(** An octet in text: one to three decimal digits with a value in 0-255. *)
Definition octet_text (s : string) : Prop :=
  (1 <= String.length s <= 3)%nat /\ all_digits s = true /\ (decimal 0 s <= 255)%nat.

(** Four octets separated by dots. *)
Definition dotted_quad (s : string) : Prop :=
  exists a b c d,
    s = a ++ "." ++ b ++ "." ++ c ++ "." ++ d /\
    octet_text a /\ octet_text b /\ octet_text c /\ octet_text d.

(** The strings a regular expression denotes. *)
Fixpoint lang (r : Regex) (s : string) : Prop :=
  match r with
  | Lit c => s = String c EmptyString
  | Range lo hi => exists a, s = String a EmptyString /\ in_range lo hi a = true
  | Cat r1 r2 => exists s1 s2, s = s1 ++ s2 /\ lang r1 s1 /\ lang r2 s2
  | Alt r1 r2 => lang r1 s \/ lang r2 s
  | Opt r1 => lang r1 s \/ s = EmptyString
  end.

End DottedQuad.

(* ================================================================== *)
(** * What a task may send                                              *)
(* ================================================================== *)

(** [Sends allowed P p]: every request that [p] sends while it runs
    satisfies [P], as long as every file read is answered within
    [allowed]. *)
Inductive Sends (allowed : string -> Settled string -> Prop)
    (P : string -> Options -> Prop) {A : Type} : Async A -> Prop :=
| Sends_Ret (a : A) : Sends allowed P (Ret a)
| Sends_Throw (e : JsError) : Sends allowed P (Throw e)
| Sends_Spin : Sends allowed P Spin
| Sends_Fetch url o k :
    P url o -> (forall r, Sends allowed P (k r)) -> Sends allowed P (Fetch url o k)
| Sends_ReadFile path k :
    (forall r, allowed path r -> Sends allowed P (k r)) -> Sends allowed P (ReadFile path k)
| Sends_Question q k :
    (forall r, Sends allowed P (k r)) -> Sends allowed P (Question q k)
| Sends_Console s t args k :
    Sends allowed P k -> Sends allowed P (Console s t args k)
| Sends_Timeout ms k :
    Sends allowed P k -> Sends allowed P (Timeout ms k)
| Sends_SetInterval cb ms k :
    Sends allowed P k -> Sends allowed P (SetInterval cb ms k)
| Sends_Detach t k :
    Sends allowed P k -> Sends allowed P (Detach t k)
| Sends_NetworkInterfaces k :
    (forall r, Sends allowed P (k r)) -> Sends allowed P (NetworkInterfaces k).






(* ================================================================== *)
(** * Progress of one task among others                                 *)
(* ================================================================== *)

(** [Reaches e Q m p]: in the environment [e], whatever has happened
    before and whatever happens in between, the task [p] returns with its
    [m]-th turn, and the world right after that turn satisfies [Q]. *)
Inductive Reaches (e : Env) (Q : World -> Prop) : nat -> Async unit -> Prop :=
| Reaches_last p :
    (forall w, env w = e -> fst (step p w) = Ret tt /\ Q (snd (step p w))) ->
    Reaches e Q 1 p
| Reaches_next m p :
    (forall w, env w = e -> Reaches e Q m (fst (step p w))) ->
    Reaches e Q (S m) p.

(** A property of the world that no turn of any task undoes. *)
Definition Lasting (Q : World -> Prop) : Prop :=
  (forall (p : Async unit) w, Q w -> Q (snd (step p w))) /\
  (forall w, Q w -> Q (mkWorld (env w) (trace w) (timers w) [])).

(** The waits, in ms, that a history holds before its first request to
    [url]. *)
Fixpoint waited_before (url : string) (h : list Event) : Z :=
  match h with
  | [] => 0
  | EvFetch u _ :: rest => if String.eqb u url then 0 else waited_before url rest
  | EvTimeout ms :: rest => ms + waited_before url rest
  | _ :: rest => waited_before url rest
  end.

(** The heartbeat of node [n] has been scheduled (part_001). *)
Definition beating (n : string) (ip : JsVal) (w : World) : Prop :=
  In (60000, Part001.heartbeat n ip) (timers w).

(* ================================================================== *)
(** * Reading a history                                                 *)
(* ================================================================== *)

(** The kinds of events that get counted. *)
Definition is_fetch (ev : Event) : bool :=
  match ev with
  | EvFetch _ _ => true
  | _ => false
  end.
Definition is_timeout (ms : Z) (ev : Event) : bool :=
  match ev with
  | EvTimeout m => m =? ms
  | _ => false
  end.

(** All requests, and all waits, of a history. *)
Definition fetches (t : list Event) : nat := count is_fetch t.
Definition waits (ms : Z) (t : list Event) : nat := count (is_timeout ms) t.
Definition any_wait (ev : Event) : bool :=
  match ev with
  | EvTimeout _ => true
  | _ => false
  end.

(** The error an attempt ends in, if it fails: the rejection of [fetch]
    (a network error) or the error made from a response that is not ok
    (an HTTP status outside 2xx). *)
Definition failure (r : Settled Response) : option JsError :=
  match r with
  | Rejected e => Some e
  | Fulfilled response =>
      if ok response then None
      else Some (mkError "Error" ("HTTP Error: " ++ statusText response))
  end.

(** The reply to the next request to [url]. *)
Definition next_reply (url : string) (w : World) : Settled Response :=
  fetch_reply (env w) url (fetches_to url (trace w)).

(** The world after one failed attempt that is retried. *)
Definition after_retry (url : string) (options : Options) (delay : Z) (e : JsError)
    (w : World) : World :=
  record (EvTimeout delay)
    (record (EvConsole Stderr "Retrying request to ${url} due to error: ${error.message}"
               [JStr url; JStr (message e)])
       (record (EvFetch url (with_timeout options 30000)) w)).

(** The world after a manual entry that was turned down. *)
Definition reprompted (w : World) : World :=
  record (EvConsole Stderr "Invalid IP address. Please try again." [])
    (record (EvQuestion Part000.ipPrompt) (record (EvQuestion Part000.choicePrompt) w)).

(** The world after the [catch] block of part_000's lifecycle. *)
Definition recovered (nodeId : string) (e : JsError) (w : World) : World :=
  record (EvTimeout 5000)
    (record (EvConsole Stderr "Error processing node ${nodeId}. Retrying: ${error.message}"
               [JStr nodeId; JStr (message e)]) w).

(** The world after the [catch] block of [processNode]. *)
Definition reported (nodeId : string) (e : JsError) (w : World) : World :=
  record (EvConsole Stderr
            "Error occurred for nodeId: ${nodeId}, restarting process: ${error.message}"
            [JStr nodeId; JStr (message e)]) w.

(** The world after the [console.error] for an entry that is turned down. *)
Definition flagged (e : Entry) (w : World) : World :=
  record (EvConsole Stderr "Invalid ID entry: nodeId=${nodeId}, hardwareId=${hardwareId}"
            [JStr (nodeId e); opt_val (hardwareId e)]) w.

(** [s.includes(c)] for a character. *)
Fixpoint has_char (c : ascii) (s : string) : bool :=
  match s with
  | EmptyString => false
  | String a s' => Ascii.eqb a c || has_char c s'
  end.

(** What part_000's [pingNode] does with the response. *)
Definition reportPing (n : string) (pingResponse : Response) : Async unit :=
  bind (response_json pingResponse) (fun pingData =>
  bind (console_log "Ping response for ${nodeId}:" [JStr n; pingData]) (fun _ =>
  bind (get_prop pingData "isB7SConnected") (fun connected =>
  if truthy connected
  then console_log "Node ${nodeId} is now connected to B7S." [JStr n]
  else Ret tt))).

(* ================================================================== *)
(** * More ways to read a history                                       *)
(* ================================================================== *)

(** A line written with [console.error]. *)
Definition is_stderr (ev : Event) : bool :=
  match ev with
  | EvConsole Stderr _ _ => true
  | _ => false
  end.

(** The lines written with [console.error] in a history. *)
Definition error_lines (t : list Event) : nat := count is_stderr t.

(** Whether a task is over, by a value or by an error. *)
Definition finished {A : Type} (o : Outcome A) : bool :=
  match o with
  | Running => false
  | _ => true
  end.

Definition same_stream (a b : Stream) : bool :=
  match a, b with
  | Stdout, Stdout | Stderr, Stderr => true
  | _, _ => false
  end.

(** A console line of a given stream and text. *)
Definition is_line (s : Stream) (template : string) (ev : Event) : bool :=
  match ev with
  | EvConsole s' t _ => same_stream s' s && String.eqb t template
  | _ => false
  end.

Definition lines (s : Stream) (template : string) (t : list Event) : nat :=
  count (is_line s template) t.

(** The world after a refused manual entry in part_001. *)
Definition plain_reprompted (w : World) : World :=
  record (EvConsole Stdout "Invalid IP address format. Please enter a valid IPv4 address." [])
    (record (EvQuestion "Please enter your IP address: ")
       (record (EvQuestion
          "Would you like to (1) Enter your IP address manually, (2) Fetch IP from service, or (3) Use local network IP? (1/2/3): ")
          w)).

(** What a task is able to do: every event it causes passes [ok], and it
    holds a loop that can still be running only when [loops] is set. The
    callback of an interval and a task that is started without [await] are
    not part of the task. *)
Inductive Only {A : Type} (loops : bool) (ok : Event -> bool) : Async A -> Prop :=
| Only_Ret (a : A) : Only loops ok (Ret a)
| Only_Throw (e : JsError) : Only loops ok (Throw e)
| Only_Spin : loops = true -> Only loops ok Spin
| Only_Fetch url o k :
    ok (EvFetch url o) = true -> (forall r, Only loops ok (k r)) ->
    Only loops ok (Fetch url o k)
| Only_ReadFile path k :
    ok (EvReadFile path) = true -> (forall r, Only loops ok (k r)) ->
    Only loops ok (ReadFile path k)
| Only_Question q k :
    ok (EvQuestion q) = true -> (forall r, Only loops ok (k r)) ->
    Only loops ok (Question q k)
| Only_Console s t args k :
    ok (EvConsole s t args) = true -> Only loops ok k ->
    Only loops ok (Console s t args k)
| Only_Timeout ms k :
    ok (EvTimeout ms) = true -> Only loops ok k ->
    Only loops ok (Timeout ms k)
| Only_SetInterval cb ms k :
    ok (EvSetInterval ms) = true -> Only loops ok k ->
    Only loops ok (SetInterval cb ms k)
| Only_Detach t k :
    ok EvDetach = true -> Only loops ok k ->
    Only loops ok (Detach t k)
| Only_NetworkInterfaces k :
    ok EvNetworkInterfaces = true -> (forall r, Only loops ok (k r)) ->
    Only loops ok (NetworkInterfaces k).

(** What one attempt of [processNode] can be seen to do before it sets the
    interval: reads, requests, lines on standard output, and the one line
    of [registerNode] on standard error. *)
Definition plain_attempt_event (ev : Event) : bool :=
  match ev with
  | EvFetch _ _ | EvReadFile _ | EvConsole Stdout _ _ => true
  | EvConsole Stderr t _ => String.eqb t "Failed to parse JSON. Response text:"
  | _ => false
  end.


(** The same for part_000, where the requests go through [retryFetch]:
    its line on standard error and its wait of one second come on top. *)
Definition retry_attempt_event (ev : Event) : bool :=
  match ev with
  | EvFetch _ _ | EvReadFile _ | EvConsole Stdout _ _ => true
  | EvConsole Stderr t _ =>
      String.eqb t "Retrying request to ${url} due to error: ${error.message}"
  | EvTimeout ms => ms =? 1000
  | _ => false
  end.

Definition is_interval (ev : Event) : bool :=
  match ev with
  | EvSetInterval _ => true
  | _ => false
  end.

(** What [fetchIpAddress] of part_001 can be seen to do. *)
Definition asking_event (ev : Event) : bool :=
  match ev with
  | EvQuestion _ | EvFetch _ _ | EvNetworkInterfaces | EvConsole Stdout _ _ => true
  | _ => false
  end.

(** What the inner loop of part_000 can be seen to do: its attempts, and
    its own line and wait after a failed one. *)
Definition lifecycle_event (ev : Event) : bool :=
  retry_attempt_event ev || is_interval ev ||
  is_line Stderr "Error processing node ${nodeId}. Retrying: ${error.message}" ev ||
  is_timeout 5000 ev.

(** The entries that [readNodeAndHardwareIds] makes of the text of id.txt. *)
Definition plain_entries (data : string) : list Entry :=
  map parse_entry (filter (fun id => negb (str_falsy id)) (split newline (trim data))).

(* ================================================================== *)
(** * Firings, and what a task and its callbacks are able to do         *)
(* ================================================================== *)

(** The [i]-th interval fires: its callback joins the tasks, to take its
    turns among them. The interval stays. *)
Definition fire (i : nat) (l : Loop) : Loop :=
  match nth_error (timers (world l)) i with
  | Some (_, callback) => mkLoop (tasks l ++ [callback]) (world l)
  | None => l
  end.

(** What the runtime does next: it resumes a task, or an interval fires. *)
Inductive Turn : Type :=
| Resume (i : nat)
| Fire (i : nat).

Fixpoint run_turns (s : list Turn) (l : Loop) : Loop :=
  match s with
  | [] => l
  | Resume i :: rest => run_turns rest (resume i l)
  | Fire i :: rest => run_turns rest (fire i l)
  end.

(** [Confined allowed ok p]: as long as every file read is answered within
    [allowed], every event that [p] causes passes [ok], and so does every
    event of a callback that it hands to [setInterval] and of a task that it
    starts without [await]. *)
Inductive Confined (allowed : string -> Settled string -> Prop) (ok : Event -> Prop)
    : forall A : Type, Async A -> Prop :=
| Confined_Ret A (a : A) : Confined allowed ok A (Ret a)
| Confined_Throw A (e : JsError) : Confined allowed ok A (Throw e)
| Confined_Spin A : Confined allowed ok A Spin
| Confined_Fetch A url o (k : Settled Response -> Async A) :
    ok (EvFetch url o) -> (forall r, Confined allowed ok A (k r)) ->
    Confined allowed ok A (Fetch url o k)
| Confined_ReadFile A path (k : Settled string -> Async A) :
    ok (EvReadFile path) -> (forall r, allowed path r -> Confined allowed ok A (k r)) ->
    Confined allowed ok A (ReadFile path k)
| Confined_Question A q (k : string -> Async A) :
    ok (EvQuestion q) -> (forall r, Confined allowed ok A (k r)) ->
    Confined allowed ok A (Question q k)
| Confined_Console A s t args (k : Async A) :
    ok (EvConsole s t args) -> Confined allowed ok A k ->
    Confined allowed ok A (Console s t args k)
| Confined_Timeout A ms (k : Async A) :
    ok (EvTimeout ms) -> Confined allowed ok A k ->
    Confined allowed ok A (Timeout ms k)
| Confined_SetInterval A callback ms (k : Async A) :
    ok (EvSetInterval ms) -> Confined allowed ok unit callback -> Confined allowed ok A k ->
    Confined allowed ok A (SetInterval callback ms k)
| Confined_Detach A task (k : Async A) :
    ok EvDetach -> Confined allowed ok unit task -> Confined allowed ok A k ->
    Confined allowed ok A (Detach task k)
| Confined_NetworkInterfaces A (k : list (string * list Iface) -> Async A) :
    ok EvNetworkInterfaces -> (forall r, Confined allowed ok A (k r)) ->
    Confined allowed ok A (NetworkInterfaces k).
Arguments Confined allowed ok {A} _.



(** A firing for node [n]: requests go to the ping address of the node
    and to nothing else, no interval is set and no task is started. *)
Definition only_pings (n : string) (ev : Event) : Prop :=
  match ev with
  | EvFetch url _ => url = pingUrl n
  | EvSetInterval _ | EvDetach => False
  | _ => True
  end.

(** No assumption on what the files hold. *)
Definition any_file (path : string) (r : Settled string) : Prop := True.

(* ================================================================== *)
(** * Replies that make a ping fail                                     *)
(* ================================================================== *)

(** How reading the body of a reply, and then its property [key], fails if
    it does: [json()] is rejected, or the body is [null] or [undefined]. *)
Definition body_failure (key : string) (response : Response) : option JsError :=
  match json response with
  | Rejected e => Some e
  | Fulfilled data =>
      match get_prop data key with
      | Throw e => Some e
      | _ => None
      end
  end.

(** How the one request of part_001's [pingNode] fails if it does: [fetch]
    is rejected, or the body cannot be read. The status of the reply plays
    no part. *)
Definition plain_ping_failure (r : Settled Response) : option JsError :=
  match r with
  | Rejected e => Some e
  | Fulfilled response => body_failure "status" response
  end.

(** The world after the request of part_001's [pingNode]. *)
Definition pinged (n : string) (ip : JsVal) (content : string) (w : World) : World :=
  record (EvFetch (pingUrl n) (authOptions (trim content)))
    (record (EvConsole Stdout "Pinging node ${nodeId} with IP: ${ipAddress}" [JStr n; ip])
       (record (EvReadFile "user.txt") w)).

(** The world in which part_001's attempt sends its first ping. *)
Definition before_first_ping (n : string) (sess : JsVal) (w : World) : World :=
  record (EvConsole Stdout "Sending initial ping for nodeId: ${nodeId}" [JStr n])
    (record (EvConsole Stdout "Session started for nodeId: ${nodeId}. Response:"
               [JStr n; sess]) w).

(** The world in which a firing of part_001's heartbeat sends its ping. *)
Definition before_ping (n : string) (w : World) : World :=
  record (EvConsole Stdout "Sending ping for nodeId: ${nodeId}" [JStr n]) w.

(** The world after the line of the heartbeat's [catch] block. *)
Definition ping_reported (e : JsError) (w : World) : World :=
  record (EvConsole Stderr "Error during ping: ${error.message}" [JStr (message e)]) w.

(* ================================================================== *)
(** * Sample runs with firings                                          *)
(* ================================================================== *)

Module Runs.





End Runs.

(** part_001 with node A alone, when the second ping fails and the error of
    the firing is handed to the hook of [uncaughtException]. *)
Module Restart.

Definition localIp : JsVal := JStr "127.0.0.1".

Definition parseError : JsError := mkError "SyntaxError" "Unexpected token < in JSON".

(** [runAll()] has returned. *)
Definition launched : World :=
  snd (exec (Part001.runAll 3) (boot FiringScenarios.env_second_ping_garbled)).

(** The lifecycle of node A has returned. *)
Definition scheduled : World :=
  snd (exec (Part001.processNode 3 "A" (Some "hwA") localIp) launched).

(** The interval has fired once and its callback has ended. *)
Definition fired : World :=
  snd (exec (Part001.heartbeat "A" localIp) scheduled).

(** The hook has run on the error of the callback. *)
Definition hooked : World :=
  snd (exec (Part001.onUncaughtException 3 parseError) fired).

(** The [runAll(false)] that the hook started has returned. *)
Definition relaunched : World :=
  snd (exec (Part001.runAll 3) hooked).

(** The lifecycle that it started has returned. *)
Definition rescheduled : World :=
  snd (exec (Part001.processNode 3 "A" (Some "hwA") localIp) relaunched).

End Restart.

(* ================================================================== *)
(** * The interactive file setup                                        *)
(* ================================================================== *)

(** [setupFiles] (part_000, bless.js), [createIdFile] and [createUserFile]
    (part_001) write files. They are embedded over a store of files that
    they read and change, in a state and error monad of their own. *)

Module Setup.

(** The files by path ([None]: the file cannot be read), the paths that
    cannot be written with the error of the attempt, what the user types
    (the [n]-th answer, counting from 0), and what was asked and printed so
    far, newest first. *)
Record Desk : Type := mkDesk {
  files : string -> option string;
  write_error : string -> option JsError;
  typed : nat -> string;
  screen : list Event
}.

Definition Script (A : Type) : Type := Desk -> Outcome A * Desk.

Definition ret {A : Type} (a : A) : Script A := fun d => (Returned a, d).
Definition throw {A : Type} (e : JsError) : Script A := fun d => (Raised e, d).
Definition spin {A : Type} : Script A := fun d => (Running, d).

Definition bind {A B : Type} (p : Script A) (f : A -> Script B) : Script B :=
  fun d =>
    match p d with
    | (Returned a, d') => f a d'
    | (Raised e, d') => (Raised e, d')
    | (Running, d') => (Running, d')
    end.

Definition try_catch {A : Type} (p : Script A) (h : JsError -> Script A) : Script A :=
  fun d =>
    match p d with
    | (Raised e, d') => h e d'
    | other => other
    end.

Declare Scope script_scope.
Delimit Scope script_scope with script.
Notation "x <- p ;; q" := (bind p (fun x => q))
  (at level 61, p at next level, right associativity) : script_scope.
Notation "p ;; q" := (bind p (fun _ => q))
  (at level 61, right associativity) : script_scope.
Local Open Scope script_scope.

Definition show_on_screen (ev : Event) (d : Desk) : Desk :=
  mkDesk (files d) (write_error d) (typed d) (ev :: screen d).

(** [fs.readFile(path, 'utf-8')]. *)
Definition readFile (path : string) : Script string :=
  fun d =>
    match files d path with
    | Some content => (Returned content, d)
    | None => (Raised (mkError "Error" ("ENOENT: no such file or directory, open '"
                                          ++ path ++ "'")), d)
    end.

(** [fs.writeFile(path, content, 'utf-8')]; a write that fails leaves the
    file as it was. *)
Definition writeFile (path content : string) : Script unit :=
  fun d =>
    match write_error d path with
    | Some e => (Raised e, d)
    | None =>
        (Returned tt,
         mkDesk (fun p => if String.eqb p path then Some content else files d p)
                (write_error d) (typed d) (screen d))
    end.

(** [promptInput]: one line from the user, trimmed. *)
Definition promptInput (promptMessage : string) : Script string :=
  fun d =>
    (Returned (trim (typed d (questions (screen d)))),
     show_on_screen (EvQuestion promptMessage) d).

Definition console_log (template : string) (args : list JsVal) : Script unit :=
  fun d => (Returned tt, show_on_screen (EvConsole Stdout template args) d).
Definition console_error (template : string) (args : list JsVal) : Script unit :=
  fun d => (Returned tt, show_on_screen (EvConsole Stderr template args) d).

(** [p.catch(() => null)]. *)
Definition or_null {A : Type} (p : Script A) : Script (option A) :=
  try_catch (a <- p ;; ret (Some a)) (fun _ => ret None).

(** [setupFiles], the same in part_000 and bless.js. *)
Definition setupFiles : Script unit :=
  try_catch
    (userContent <- or_null (readFile "user.txt") ;;
     (if opt_falsy userContent then
        userContent <- promptInput "Enter your authentication token for user.txt: " ;;
        writeFile "user.txt" (trim userContent) ;;
        console_log "user.txt has been updated." []
      else ret tt) ;;
     idContent <- or_null (readFile "id.txt") ;;
     if opt_falsy idContent then
       console_log
         "Enter node IDs and hardware IDs in the format 'nodeId:hardwareId', one per line."
         [] ;;
       idContent <- promptInput "Enter IDs for id.txt: " ;;
       writeFile "id.txt" (trim idContent) ;;
       console_log "id.txt has been updated." []
     else ret tt)
    (fun error =>
       console_error "Error during file setup: ${error.message}" [JStr (message error)] ;;
       throw error).

(** [c.toLowerCase()] for a code unit below 256. *)
Definition lower (c : ascii) : ascii :=
  let n := nat_of_ascii c in
  if ((65 <=? n)%nat && (n <=? 90)%nat)
     || ((192 <=? n)%nat && (n <=? 222)%nat && negb (n =? 215)%nat)
  then ascii_of_nat (n + 32)
  else c.

Fixpoint toLowerCase (s : string) : string :=
  match s with
  | EmptyString => EmptyString
  | String c s' => String (lower c) (toLowerCase s')
  end.

(** [l.join(sep)]. *)
Fixpoint join (sep : ascii) (l : list string) : string :=
  match l with
  | [] => EmptyString
  | [s] => s
  | s :: rest => s ++ String sep (join sep rest)
  end.

(** The [while (true)] of [createIdFile], with the array [ids]. *)
Fixpoint collectIds (fuel : nat) (ids : list string) : Script (list string) :=
  match fuel with
  | O => spin
  | S fuel' =>
      input <- promptInput "Node ID and Hardware ID: " ;;
      if String.eqb (toLowerCase input) "done" then ret ids
      else if has_char ":" input then collectIds fuel' (ids ++ [input])
      else
        console_log "Invalid format. Please use nodeId:hardwareId." [] ;;
        collectIds fuel' ids
  end.

(** [createIdFile] of part_001. *)
Definition createIdFile (fuel : nat) : Script unit :=
  console_log
    "Enter node IDs and hardware IDs in the format nodeId:hardwareId. Type 'done' to finish."
    [] ;;
  ids <- collectIds fuel [] ;;
  writeFile "id.txt" (join newline ids) ;;
  console_log "id.txt has been created." [].

(** [createUserFile] of part_001. *)
Definition createUserFile : Script unit :=
  authToken <- promptInput "Enter your user auth bearer token: " ;;
  writeFile "user.txt" authToken ;;
  console_log "user.txt has been created." [].

(** Whether [setupFiles] finds a file missing or empty. *)
Definition wanting (d : Desk) (path : string) : bool := opt_falsy (files d path).

(** The lines that [createIdFile] keeps of what was typed before the word
    that ends the entry. *)
Definition kept (inputs : list string) : list string :=
  filter (has_char ":") (map trim inputs).

End Setup.

Module SetupScenarios.

(** An empty directory and a user who types a token and one entry. *)
Definition fresh : Setup.Desk :=
  Setup.mkDesk (fun _ => None) (fun _ => None)
    (fun n => match n with
              | O => "  secret-token "
              | _ => "node1:hw1"
              end)
    [].

(** A directory that cannot be written. *)
Definition readonly : Setup.Desk :=
  Setup.mkDesk (fun _ => None)
    (fun _ => Some (mkError "Error" "EACCES: permission denied"))
    (fun _ => "secret") [].

(** A user who types two entries, one line that is none, and the word that
    ends the entry. *)
Definition entering : Setup.Desk :=
  Setup.mkDesk (fun _ => None) (fun _ => None)
    (fun n => match n with
              | 0 => "node1:hw1"
              | 1 => "oops"
              | 2 => " node2:hw2 "
              | 3 => "DONE"
              | _ => "tok"
              end%nat)
    [].

End SetupScenarios.

(* ================================================================== *)
(** * Running programs: general facts                                   *)
(* ================================================================== *)

Section ExecFacts.

Context {A B : Type}.

(** Running [p] and then [f] is running [p], then [f] on its value. *)
Lemma exec_bind (p : Async A) (f : A -> Async B) (w : World) :
  exec (bind p f) w =
  match exec p w with
  | (Returned a, w') => exec (f a) w'
  | (Raised e, w') => (Raised e, w')
  | (Running, w') => (Running, w')
  end.
Proof.
  revert w; induction p; intros w; simpl; auto.
Qed.

(** The handler runs exactly when the block raised. *)
Lemma exec_try_catch (p : Async A) (h : JsError -> Async A) (w : World) :
  exec (try_catch p h) w =
  match exec p w with
  | (Raised e, w') => exec (h e) w'
  | other => other
  end.
Proof.
  revert w; induction p; intros w; simpl; auto.
Qed.

End ExecFacts.

(** The environment is never changed by a program. *)
Lemma exec_env {A : Type} (p : Async A) (w : World) :
  env (snd (exec p w)) = env w.
Proof.
  revert w; induction p; intros w; simpl; auto;
    try (rewrite H; reflexivity); try (rewrite IHp; reflexivity).
  - rewrite IHp2; reflexivity.
  - rewrite IHp2; reflexivity.
Qed.

Lemma count_cons (f : Event -> bool) (ev : Event) (t : list Event) :
  count f (ev :: t) = ((if f ev then 1 else 0) + count f t)%nat.
Proof.
  unfold count; simpl; destruct (f ev); reflexivity.
Qed.

Lemma count_app (f : Event -> bool) (t1 t2 : list Event) :
  count f (t1 ++ t2) = (count f t1 + count f t2)%nat.
Proof.
  unfold count; rewrite filter_app, length_app; reflexivity.
Qed.

(* ================================================================== *)
(** * [retryFetch]                                                      *)
(* ================================================================== *)

Module RetryFacts.
Import Part000.

Lemma retry_step_fail fuel url options inf retries delay w e :
  failure (next_reply url w) = Some e ->
  exec (retryFetch (S fuel) url options inf retries delay) w =
  if negb inf && (retries =? 0)
  then (Raised e, record (EvFetch url (with_timeout options 30000)) w)
  else exec (retryFetch fuel url options inf (if inf then retries else retries - 1) delay)
         (after_retry url options delay e w).
Proof.
  intros Hf. unfold next_reply in Hf.
  cbn [retryFetch]. rewrite exec_try_catch. unfold fetch. cbn [bind exec].
  destruct (fetch_reply (env w) url (fetches_to url (trace w))) as [resp | err];
    cbn [failure] in Hf; cbn [await bind].
  - destruct (ok resp); [discriminate |]. injection Hf as <-. cbn [negb exec].
    destruct (negb inf && (retries =? 0)); [reflexivity |].
    cbn [bind console_error sleep exec]. reflexivity.
  - injection Hf as <-. cbn [exec].
    destruct (negb inf && (retries =? 0)); [reflexivity |].
    cbn [bind console_error sleep exec]. reflexivity.
Qed.

Lemma retry_step_ok fuel url options inf retries delay w :
  failure (next_reply url w) = None ->
  exists response,
    next_reply url w = Fulfilled response /\ ok response = true /\
    exec (retryFetch (S fuel) url options inf retries delay) w =
    (Returned response, record (EvFetch url (with_timeout options 30000)) w).
Proof.
  intros Hf. unfold next_reply in *.
  cbn [retryFetch]. rewrite exec_try_catch. unfold fetch. cbn [bind exec].
  destruct (fetch_reply (env w) url (fetches_to url (trace w))) as [resp | err];
    cbn [failure] in Hf; [| discriminate].
  exists resp. destruct (ok resp) eqn:Hok; [| discriminate].
  repeat split. cbn [await bind]. rewrite Hok. reflexivity.
Qed.

Lemma fetches_to_after_retry url options delay e w :
  fetches_to url (trace (after_retry url options delay e w)) = S (fetches_to url (trace w)).
Proof.
  unfold after_retry, fetches_to. cbn [record trace].
  rewrite !count_cons. cbn [is_fetch_to]. rewrite String.eqb_refl. reflexivity.
Qed.

Lemma fetches_after_retry url options delay e w :
  fetches (trace (after_retry url options delay e w)) = S (fetches (trace w)).
Proof.
  unfold after_retry, fetches. cbn [record trace]. rewrite !count_cons. reflexivity.
Qed.

Lemma env_after_retry url options delay e w :
  env (after_retry url options delay e w) = env w.
Proof. reflexivity. Qed.

Lemma waits_after_retry url options delay e w :
  waits delay (trace (after_retry url options delay e w)) = S (waits delay (trace w)).
Proof.
  unfold after_retry, waits. cbn [record trace]. rewrite !count_cons.
  cbn [is_timeout]. rewrite Z.eqb_refl. reflexivity.
Qed.

Lemma any_wait_after_retry url options delay e w :
  count any_wait (trace (after_retry url options delay e w)) = S (count any_wait (trace w)).
Proof.
  unfold after_retry. cbn [record trace]. rewrite !count_cons. reflexivity.
Qed.

Lemma fetches_record_fetch url o w :
  fetches (trace (record (EvFetch url o) w)) = S (fetches (trace w)).
Proof. unfold fetches; cbn [record trace]; rewrite count_cons; reflexivity. Qed.

(** The bounded loop, with the counter a natural number. *)
Lemma exhausts_after n :
  forall fuel url options delay w,
    (n < fuel)%nat ->
    (forall k, (k <= n)%nat ->
       failure (fetch_reply (env w) url (fetches_to url (trace w) + k)) <> None) ->
    exists e w',
      exec (retryFetch fuel url options false (Z.of_nat n) delay) w = (Raised e, w') /\
      failure (fetch_reply (env w) url (fetches_to url (trace w) + n)) = Some e /\
      fetches (trace w') = (fetches (trace w) + n + 1)%nat /\
      waits delay (trace w') = (waits delay (trace w) + n)%nat.
Proof.
  induction n as [| n IH]; intros fuel url options delay w Hfuel Hfail;
    (destruct fuel as [| fuel]; [lia |]).
  - pose proof (Hfail 0%nat (Nat.le_refl _)) as H0.
    rewrite Nat.add_0_r in *.
    destruct (failure (fetch_reply (env w) url (fetches_to url (trace w)))) as [e |] eqn:He;
      [| congruence].
    exists e, (record (EvFetch url (with_timeout options 30000)) w).
    rewrite (retry_step_fail fuel url options false (Z.of_nat 0) delay w _ He).
    cbn [negb andb Z.eqb Z.of_nat].
    repeat split.
    + rewrite fetches_record_fetch. lia.
    + unfold waits. cbn [record trace]. rewrite count_cons. cbn [is_timeout]. lia.
  - pose proof (Hfail 0%nat (Nat.le_0_l _)) as H0. rewrite Nat.add_0_r in H0.
    destruct (failure (fetch_reply (env w) url (fetches_to url (trace w)))) as [e0 |] eqn:He;
      [| congruence].
    rewrite (retry_step_fail fuel url options false (Z.of_nat (S n)) delay w _ He).
    replace (negb false && (Z.of_nat (S n) =? 0)) with false
      by (symmetry; apply andb_false_intro2, Z.eqb_neq; lia).
    replace (Z.of_nat (S n) - 1) with (Z.of_nat n) by lia.
    destruct (IH fuel url options delay (after_retry url options delay e0 w))
      as (e & w' & Hrun & Hlast & Hfetches & Hwaits).
    + lia.
    + intros k Hk. rewrite fetches_to_after_retry, env_after_retry.
      replace (S (fetches_to url (trace w)) + k)%nat
        with (fetches_to url (trace w) + S k)%nat by lia.
      apply Hfail. lia.
    + exists e, w'. rewrite Hrun. split; [reflexivity |].
      rewrite fetches_to_after_retry, env_after_retry in Hlast.
      rewrite fetches_after_retry in Hfetches. rewrite waits_after_retry in Hwaits.
      replace (fetches_to url (trace w) + S n)%nat
        with (S (fetches_to url (trace w)) + n)%nat by lia.
      repeat split; [exact Hlast | lia | lia].
Qed.

(** With [infiniteRetry] the loop never takes the [throw] branch. *)
Lemma infinite_never_raises fuel :
  forall url options retries delay w e,
    fst (exec (retryFetch fuel url options true retries delay) w) <> Raised e.
Proof.
  induction fuel as [| fuel IH]; intros url options retries delay w e.
  - cbn. discriminate.
  - destruct (failure (next_reply url w)) as [e0 |] eqn:He.
    + rewrite (retry_step_fail fuel url options true retries delay w _ He).
      cbn [negb andb]. apply IH.
    + destruct (retry_step_ok fuel url options true retries delay w He)
        as (resp & _ & _ & Hrun).
      rewrite Hrun. cbn. discriminate.
Qed.

(** [k] failures and then a success, with [infiniteRetry] set or with a
    counter of at least [k]: [k] waits of [delay] and the successful
    response. *)
Lemma returns_first_success k :
  forall fuel url options inf retries delay w,
    (k < fuel)%nat ->
    inf = true \/ Z.of_nat k <= retries ->
    (forall j, (j < k)%nat ->
       failure (fetch_reply (env w) url (fetches_to url (trace w) + j)) <> None) ->
    failure (fetch_reply (env w) url (fetches_to url (trace w) + k)) = None ->
    exists response w',
      exec (retryFetch fuel url options inf retries delay) w = (Returned response, w') /\
      fetch_reply (env w) url (fetches_to url (trace w) + k) = Fulfilled response /\
      fetches (trace w') = (fetches (trace w) + k + 1)%nat /\
      waits delay (trace w') = (waits delay (trace w) + k)%nat /\
      count any_wait (trace w') = (count any_wait (trace w) + k)%nat.
Proof.
  induction k as [| k IH]; intros fuel url options inf retries delay w Hfuel Hleft Hfail Hok;
    (destruct fuel as [| fuel]; [lia |]).
  - rewrite Nat.add_0_r in *.
    destruct (retry_step_ok fuel url options inf retries delay w Hok)
      as (resp & Hreply & _ & Hrun).
    exists resp, (record (EvFetch url (with_timeout options 30000)) w).
    rewrite Hrun. repeat split.
    + exact Hreply.
    + rewrite fetches_record_fetch. lia.
    + unfold waits. cbn [record trace]. rewrite count_cons. cbn [is_timeout]. lia.
    + cbn [record trace]. rewrite count_cons. cbn [any_wait]. lia.
  - pose proof (Hfail 0%nat (Nat.lt_0_succ _)) as H0. rewrite Nat.add_0_r in H0.
    destruct (failure (fetch_reply (env w) url (fetches_to url (trace w)))) as [e0 |] eqn:He;
      [| congruence].
    rewrite (retry_step_fail fuel url options inf retries delay w _ He).
    replace (negb inf && (retries =? 0)) with false.
    2:{ symmetry. destruct Hleft as [-> | Hle]; [reflexivity |].
        apply andb_false_intro2, Z.eqb_neq. lia. }
    destruct (IH fuel url options inf (if inf then retries else retries - 1) delay
                (after_retry url options delay e0 w))
      as (resp & w' & Hrun & Hreply & Hfetches & Hwaits & Hany).
    + lia.
    + destruct Hleft as [-> | Hle]; [left; reflexivity |].
      destruct inf; [left; reflexivity | right; lia].
    + intros j Hj. rewrite fetches_to_after_retry, env_after_retry.
      replace (S (fetches_to url (trace w)) + j)%nat
        with (fetches_to url (trace w) + S j)%nat by lia.
      apply Hfail. lia.
    + rewrite fetches_to_after_retry, env_after_retry.
      replace (S (fetches_to url (trace w)) + k)%nat
        with (fetches_to url (trace w) + S k)%nat by lia.
      exact Hok.
    + exists resp, w'. rewrite Hrun. split; [reflexivity |].
      rewrite fetches_to_after_retry, env_after_retry in Hreply.
      rewrite fetches_after_retry in Hfetches. rewrite waits_after_retry in Hwaits.
      rewrite any_wait_after_retry in Hany.
      replace (fetches_to url (trace w) + S k)%nat
        with (S (fetches_to url (trace w)) + k)%nat by lia.
      repeat split; [exact Hreply | lia | lia | lia].
Qed.

Lemma infinite_returns_first_success k :
  forall fuel url options retries delay w,
    (k < fuel)%nat ->
    (forall j, (j < k)%nat ->
       failure (fetch_reply (env w) url (fetches_to url (trace w) + j)) <> None) ->
    failure (fetch_reply (env w) url (fetches_to url (trace w) + k)) = None ->
    exists response w',
      exec (retryFetch fuel url options true retries delay) w = (Returned response, w') /\
      fetch_reply (env w) url (fetches_to url (trace w) + k) = Fulfilled response /\
      fetches (trace w') = (fetches (trace w) + k + 1)%nat /\
      waits delay (trace w') = (waits delay (trace w) + k)%nat /\
      count any_wait (trace w') = (count any_wait (trace w) + k)%nat.
Proof.
  intros fuel url options retries delay w Hfuel Hfail Hok.
  apply returns_first_success; auto.
Qed.

(** With [infiniteRetry] and nothing but failures the loop is still going
    after any number of rounds, one request and one wait per round. *)
Lemma infinite_keeps_trying fuel :
  forall url options retries delay w,
    (forall j, failure (fetch_reply (env w) url (fetches_to url (trace w) + j)) <> None) ->
    exists w',
      exec (retryFetch fuel url options true retries delay) w = (Running, w') /\
      fetches (trace w') = (fetches (trace w) + fuel)%nat /\
      waits delay (trace w') = (waits delay (trace w) + fuel)%nat.
Proof.
  induction fuel as [| fuel IH]; intros url options retries delay w Hfail.
  - exists w. cbn. repeat split; lia.
  - pose proof (Hfail 0%nat) as H0. rewrite Nat.add_0_r in H0.
    destruct (failure (fetch_reply (env w) url (fetches_to url (trace w)))) as [e0 |] eqn:He;
      [| congruence].
    rewrite (retry_step_fail fuel url options true retries delay w _ He). cbn [negb andb].
    destruct (IH url options retries delay (after_retry url options delay e0 w))
      as (w' & Hrun & Hfetches & Hwaits).
    + intros j. rewrite fetches_to_after_retry, env_after_retry.
      replace (S (fetches_to url (trace w)) + j)%nat
        with (fetches_to url (trace w) + S j)%nat by lia.
      apply Hfail.
    + exists w'. rewrite Hrun. split; [reflexivity |].
      rewrite fetches_after_retry in Hfetches. rewrite waits_after_retry in Hwaits.
      split; lia.
Qed.

(** Whatever [retryFetch] returns is the reply to its last request, and
    that reply is ok. *)
Lemma returned_is_ok fuel :
  forall url options inf retries delay w response w',
    exec (retryFetch fuel url options inf retries delay) w = (Returned response, w') ->
    ok response = true.
Proof.
  induction fuel as [| fuel IH]; intros url options inf retries delay w response w' Hrun.
  - cbn in Hrun. discriminate.
  - destruct (failure (next_reply url w)) as [e0 |] eqn:He.
    + rewrite (retry_step_fail fuel url options inf retries delay w _ He) in Hrun.
      destruct (negb inf && (retries =? 0)); [discriminate |].
      eapply IH; eassumption.
    + destruct (retry_step_ok fuel url options inf retries delay w He)
        as (resp & _ & Hok & Hrun').
      rewrite Hrun' in Hrun. injection Hrun as <- _. exact Hok.
Qed.

(** C1. With [infiniteRetry = false] and a counter of [N >= 0], when every
    attempt fails ([fetch] rejects, or the response is not ok), [retryFetch]
    makes exactly [N + 1] requests, waits [N] times, and then throws the
    error of the last attempt. *)
Theorem retryFetch_bounded_exhausts
    (fuel : nat) (url : string) (options : Options) (N delay : Z) (w : World) :
  0 <= N ->
  (Z.to_nat N < fuel)%nat ->
  (forall k, (k <= Z.to_nat N)%nat ->
     failure (fetch_reply (env w) url (fetches_to url (trace w) + k)) <> None) ->
  exists lastError w',
    exec (retryFetch fuel url options false N delay) w = (Raised lastError, w') /\
    failure (fetch_reply (env w) url (fetches_to url (trace w) + Z.to_nat N)) = Some lastError /\
    fetches (trace w') = (fetches (trace w) + Z.to_nat N + 1)%nat /\
    waits delay (trace w') = (waits delay (trace w) + Z.to_nat N)%nat.
Proof.
  intros HN Hfuel Hfail.
  pose proof (exhausts_after (Z.to_nat N) fuel url options delay w Hfuel Hfail) as H.
  rewrite (Z2Nat.id N HN) in H. exact H.
Qed.

Lemma retryFetch_bounded_exhausts_witness :
  exists lastError w',
    exec (retryFetch 4%nat "https://x" no_options false default_retries default_delay)
      (boot Scenarios.env_down) = (Raised lastError, w') /\
    failure (fetch_reply Scenarios.env_down "https://x" 3%nat) = Some lastError /\
    fetches (trace w') = 4%nat /\
    waits default_delay (trace w') = 3%nat.
Proof.
  apply (retryFetch_bounded_exhausts 4%nat "https://x" no_options default_retries default_delay
           (boot Scenarios.env_down)).
  - unfold default_retries; lia.
  - unfold default_retries; simpl; lia.
  - intros k _. simpl. discriminate.
Defined.

(** C3. With [infiniteRetry = true], [retryFetch] never throws, whatever
    the replies; when the first [k] attempts fail and the next one
    succeeds it returns that response after exactly [k] waits, each of
    [delay] ms (1000 by default); and when every attempt fails it is still
    retrying after any number of rounds. *)
Theorem retryFetch_infinite_never_raises
    (url : string) (options : Options) (retries delay : Z) (w : World) :
  (forall fuel e,
     fst (exec (retryFetch fuel url options true retries delay) w) <> Raised e) /\
  (forall k fuel,
     (k < fuel)%nat ->
     (forall j, (j < k)%nat ->
        failure (fetch_reply (env w) url (fetches_to url (trace w) + j)) <> None) ->
     failure (fetch_reply (env w) url (fetches_to url (trace w) + k)) = None ->
     exists response w',
       exec (retryFetch fuel url options true retries delay) w = (Returned response, w') /\
       fetch_reply (env w) url (fetches_to url (trace w) + k) = Fulfilled response /\
       fetches (trace w') = (fetches (trace w) + k + 1)%nat /\
       waits delay (trace w') = (waits delay (trace w) + k)%nat /\
       count any_wait (trace w') = (count any_wait (trace w) + k)%nat) /\
  ((forall j, failure (fetch_reply (env w) url (fetches_to url (trace w) + j)) <> None) ->
   forall fuel, exists w',
     exec (retryFetch fuel url options true retries delay) w = (Running, w') /\
     fetches (trace w') = (fetches (trace w) + fuel)%nat /\
     waits delay (trace w') = (waits delay (trace w) + fuel)%nat).
Proof.
  split; [| split].
  - intros fuel e. apply infinite_never_raises.
  - intros k fuel. apply infinite_returns_first_success.
  - intros Hfail fuel. apply infinite_keeps_trying. exact Hfail.
Qed.

Lemma retryFetch_infinite_never_raises_witness :
  (exists response w',
     exec (retryFetch 5%nat "https://x" no_options true default_retries default_delay)
       (boot Scenarios.env_flaky) = (Returned response, w') /\
     fetch_reply Scenarios.env_flaky "https://x" 2%nat = Fulfilled response /\
     fetches (trace w') = 3%nat /\
     waits default_delay (trace w') = 2%nat /\
     count any_wait (trace w') = 2%nat) /\
  (exists w',
     exec (retryFetch 7%nat "https://x" no_options true default_retries default_delay)
       (boot Scenarios.env_down) = (Running, w') /\
     fetches (trace w') = 7%nat /\
     waits default_delay (trace w') = 7%nat).
Proof.
  split.
  - apply (proj1 (proj2 (retryFetch_infinite_never_raises "https://x" no_options
             default_retries default_delay (boot Scenarios.env_flaky))) 2%nat 5%nat).
    + lia.
    + intros j Hj. destruct j as [| [| j]]; simpl; [discriminate | discriminate | lia].
    + reflexivity.
  - apply (proj2 (proj2 (retryFetch_infinite_never_raises "https://x" no_options
             default_retries default_delay (boot Scenarios.env_down)))).
    intros j. simpl. discriminate.
Defined.

(** C10. A response that [retryFetch] returns has [ok = true], whatever
    the flag and the counter: a response that is not ok is retried or
    thrown as an error, never returned. *)
Theorem retryFetch_returns_only_ok
    (fuel : nat) (url : string) (options : Options) (infiniteRetry : bool)
    (retries delay : Z) (w : World) (response : Response) (w' : World) :
  exec (retryFetch fuel url options infiniteRetry retries delay) w = (Returned response, w') ->
  ok response = true.
Proof.
  apply returned_is_ok.
Qed.

Lemma retryFetch_returns_only_ok_witness :
  fst (exec (retryFetch 5%nat "https://x" no_options false default_retries default_delay)
         (boot Scenarios.env_flaky)) = Returned (Scenarios.okResponse Scenarios.pong) /\
  ok (Scenarios.okResponse Scenarios.pong) = true.
Proof.
  split.
  - reflexivity.
  - apply (retryFetch_returns_only_ok 5%nat "https://x" no_options false default_retries
             default_delay (boot Scenarios.env_flaky) (Scenarios.okResponse Scenarios.pong)
             (snd (exec (retryFetch 5%nat "https://x" no_options false default_retries
                           default_delay) (boot Scenarios.env_flaky)))).
    reflexivity.
Defined.

End RetryFacts.

(* ================================================================== *)
(** * The library functions on small inputs                             *)
(* ================================================================== *)

Module Samples.

Example trim_blanks : trim "  10.0.0.7 " = "10.0.0.7".
Proof. reflexivity. Qed.

Example trim_inner_blank_stays : trim " a b " = "a b".
Proof. reflexivity. Qed.

Example split_three : split ":" "n1:h1:x" = ["n1"; "h1"; "x"].
Proof. reflexivity. Qed.

Example split_empty : split ":" EmptyString = [EmptyString].
Proof. reflexivity. Qed.

Example entry_full : parse_entry "node7:hw7" = mkEntry "node7" (Some "hw7").
Proof. reflexivity. Qed.

Example entry_extra_field : parse_entry "node7:hw7:more" = mkEntry "node7" (Some "hw7").
Proof. reflexivity. Qed.

Example entry_no_colon : parse_entry "node7" = mkEntry "node7" None.
Proof. reflexivity. Qed.

(** Three lines, the second without a colon; part_000 keeps all three,
    part_001 too (it only drops empty lines). *)
Example ids_of_three_lines :
  Part000.parseIds ("A:hwA" ++ String newline ("oops" ++ String newline "B:hwB")) =
  [mkEntry "A" (Some "hwA"); mkEntry "oops" None; mkEntry "B" (Some "hwB")].
Proof. reflexivity. Qed.

Example ip_plain : isValidIP "192.168.1.1" = true.
Proof. reflexivity. Qed.

Example ip_leading_zeros : isValidIP "010.001.0.255" = true.
Proof. reflexivity. Qed.

Example ip_octet_too_big : isValidIP "256.1.1.1" = false.
Proof. reflexivity. Qed.

Example ip_three_octets : isValidIP "1.2.3" = false.
Proof. reflexivity. Qed.

Example ip_four_digits : isValidIP "0001.2.3.4" = false.
Proof. reflexivity. Qed.

Example local_address_skips_loopback :
  firstUsable [("lo", [mkIface true "IPv4" "127.0.0.1"]);
               ("eth0", [mkIface false "IPv6" "fe80::1"; mkIface false "IPv4" "10.0.0.7"])]
  = Some "10.0.0.7".
Proof. reflexivity. Qed.

(** Node A alone on a network where everything works: one read of the
    token, three requests, no wait, and the heartbeat scheduled. *)
Example one_node_comes_up :
  let run := exec (Part000.forEachId 3 Scenarios.sampleIp [Scenarios.nodeA])
               (boot Scenarios.env_up) in
  fst run = Returned tt /\
  reads_of "user.txt" (trace (snd run)) = 1%nat /\
  fetches (trace (snd run)) = 3%nat /\
  count any_wait (trace (snd run)) = 0%nat /\
  List.length (timers (snd run)) = 1%nat.
Proof. repeat split; reflexivity. Qed.

(** part_001 has no check of the entries: a line without a colon is
    launched like any other, with [hardwareId] undefined. *)
Example part001_launches_any_entry :
  detached (snd (exec (Part001.launchAll 2 Scenarios.sampleIp [mkEntry "oops" None])
                   (boot Scenarios.env_up)))
  = [Part001.processNode 2 "oops" None Scenarios.sampleIp].
Proof. reflexivity. Qed.

End Samples.

(* ================================================================== *)
(** * [isValidIP] and the manual entry of [fetchIpAddress]              *)
(* ================================================================== *)

Module IpFacts.
Import DottedQuad.

Lemma append_nil_r (s : string) : s ++ EmptyString = s.
Proof. induction s; simpl; congruence. Qed.

Lemma append_assoc (a b c : string) : (a ++ b) ++ c = a ++ (b ++ c).
Proof. induction a; simpl; congruence. Qed.

Lemma str_falsy_true (s : string) : str_falsy s = true <-> s = EmptyString.
Proof. destruct s; simpl; split; congruence. Qed.

(** The backtracking matcher finds exactly the splits that the denotation
    allows. *)
Lemma rmatch_lang (r : Regex) :
  forall s k,
    rmatch r s k = true <->
    exists s1 s2, s = s1 ++ s2 /\ lang r s1 /\ k s2 = true.
Proof.
  induction r as [c | lo hi | r1 IH1 r2 IH2 | r1 IH1 r2 IH2 | r1 IH1]; intros s k; simpl.
  - destruct s as [| a s'].
    + split; [discriminate |]. intros (s1 & s2 & Hs & -> & _). discriminate.
    + rewrite andb_true_iff, Ascii.eqb_eq. split.
      * intros [-> Hk]. exists (String c EmptyString), s'. auto.
      * intros (s1 & s2 & Hs & -> & Hk). simpl in Hs. injection Hs as -> ->. auto.
  - destruct s as [| a s'].
    + split; [discriminate |]. intros (s1 & s2 & Hs & (b & -> & _) & _). discriminate.
    + rewrite andb_true_iff. split.
      * intros [Hr Hk]. exists (String a EmptyString), s'. repeat split; eauto.
      * intros (s1 & s2 & Hs & (b & -> & Hr) & Hk). simpl in Hs.
        injection Hs as -> ->. auto.
  - rewrite IH1. split.
    + intros (s1 & s2 & -> & H1 & H2). apply IH2 in H2.
      destruct H2 as (t1 & t2 & -> & H2 & Hk).
      exists (s1 ++ t1), t2. rewrite append_assoc. repeat split; eauto.
    + intros (s12 & s3 & -> & (s1 & s2 & -> & H1 & H2) & Hk).
      exists s1, (s2 ++ s3). rewrite append_assoc. repeat split; auto.
      apply IH2. eauto.
  - rewrite orb_true_iff, IH1, IH2. split.
    + intros [(s1 & s2 & -> & H & Hk) | (s1 & s2 & -> & H & Hk)]; exists s1, s2; auto.
    + intros (s1 & s2 & -> & [H | H] & Hk); [left | right]; eauto.
  - rewrite orb_true_iff, IH1. split.
    + intros [(s1 & s2 & -> & H & Hk) | Hk].
      * exists s1, s2. auto.
      * exists EmptyString, s. auto.
    + intros (s1 & s2 & -> & [H | ->] & Hk); [left; eauto | right; exact Hk].
Qed.

Lemma regex_test_lang (r : Regex) (s : string) :
  regex_test r s = true <-> lang r s.
Proof.
  unfold regex_test. rewrite rmatch_lang. split.
  - intros (s1 & s2 & -> & H & Hk). apply str_falsy_true in Hk. subst s2.
    rewrite append_nil_r. exact H.
  - intros H. exists s, EmptyString. rewrite append_nil_r. auto.
Qed.

Lemma in_range_spec (lo hi c : ascii) :
  in_range lo hi c = true <->
  (nat_of_ascii lo <= nat_of_ascii c <= nat_of_ascii hi)%nat.
Proof.
  unfold in_range. rewrite andb_true_iff, !Nat.leb_le. tauto.
Qed.

Lemma ascii_of_code (c : ascii) (n : nat) :
  nat_of_ascii c = n -> c = ascii_of_nat n.
Proof. intros <-. symmetry. apply ascii_nat_embedding. Qed.

Ltac consts :=
  change (nat_of_ascii "0") with 48%nat in *;
  change (nat_of_ascii "1") with 49%nat in *;
  change (nat_of_ascii "2") with 50%nat in *;
  change (nat_of_ascii "4") with 52%nat in *;
  change (nat_of_ascii "5") with 53%nat in *;
  change (nat_of_ascii "9") with 57%nat in *.

Ltac codes :=
  repeat match goal with
         | H : in_range _ _ _ = true |- _ => apply in_range_spec in H
         end;
  consts.

(** What [octetRegex] denotes is an octet in text. *)
Lemma octet_lang_text (s : string) : lang octetRegex s -> octet_text s.
Proof.
  unfold octetRegex. cbn [lang].
  intros [H | [H | H]].
  - destruct H as (s1 & s2 & -> & -> & (t1 & t2 & -> & -> & (a & -> & Ha))).
    codes. unfold octet_text. cbn [append String.length all_digits decimal].
    unfold is_digit, digit_val. rewrite !andb_true_r.
    repeat split; try lia.
    + apply andb_true_iff; split; [reflexivity |].
      apply andb_true_iff; split; [reflexivity |]. apply in_range_spec; consts; lia.
    + consts. lia.
  - destruct H as (s1 & s2 & -> & -> & (t1 & t2 & -> & (a & -> & Ha) & (b & -> & Hb))).
    codes. unfold octet_text. cbn [append String.length all_digits decimal].
    unfold is_digit, digit_val. rewrite !andb_true_r.
    repeat split; try lia.
    + apply andb_true_iff; split; [reflexivity |].
      apply andb_true_iff; split; apply in_range_spec; consts; lia.
    + consts. lia.
  - destruct H as (s1 & s2 & -> & Hopt & (t1 & t2 & -> & (a & -> & Ha) & Hopt2)).
    destruct Hopt as [(h & -> & Hh) | ->]; destruct Hopt2 as [(b & -> & Hb) | ->];
      codes; unfold octet_text; cbn [append String.length all_digits decimal];
      unfold is_digit, digit_val; rewrite ?andb_true_r;
      (repeat split; [lia | lia | | lia]);
      rewrite ?andb_true_iff; repeat split; apply in_range_spec; consts; lia.
Qed.

(** An octet in text is matched by [octetRegex]. *)
Lemma octet_text_lang (s : string) : octet_text s -> lang octetRegex s.
Proof.
  unfold octet_text. intros (Hlen & Hdig & Hval).
  destruct s as [| c1 [| c2 [| c3 [| c4 s]]]]; cbn [String.length] in Hlen; try lia.
  - (* one digit *)
    cbn [all_digits] in Hdig. rewrite andb_true_r in Hdig.
    unfold octetRegex. cbn [lang]. right. right.
    exists EmptyString, (String c1 EmptyString). split; [reflexivity |].
    split; [right; reflexivity |].
    exists (String c1 EmptyString), EmptyString. split; [reflexivity |].
    split; [exists c1; auto | right; reflexivity].
  - (* two digits *)
    cbn [all_digits] in Hdig. rewrite andb_true_r in Hdig.
    apply andb_true_iff in Hdig. destruct Hdig as [H1 H2].
    unfold octetRegex. cbn [lang]. right. right.
    exists EmptyString, (String c1 (String c2 EmptyString)). split; [reflexivity |].
    split; [right; reflexivity |].
    exists (String c1 EmptyString), (String c2 EmptyString). split; [reflexivity |].
    split; [exists c1; auto | left; exists c2; auto].
  - (* three digits *)
    cbn [all_digits] in Hdig. rewrite andb_true_r in Hdig.
    apply andb_true_iff in Hdig. destruct Hdig as [H1 Hdig].
    apply andb_true_iff in Hdig. destruct Hdig as [H2 H3].
    cbn [decimal] in Hval. unfold digit_val in Hval.
    pose proof H1 as B1. pose proof H2 as B2. pose proof H3 as B3.
    unfold is_digit in B1, B2, B3.
    apply in_range_spec in B1, B2, B3. consts.
    unfold octetRegex. cbn [lang].
    destruct (Nat.le_gt_cases (nat_of_ascii c1) 49) as [Hlow | Hhigh].
    + right. right.
      exists (String c1 EmptyString), (String c2 (String c3 EmptyString)).
      split; [reflexivity |]. split.
      * left. exists c1. split; [reflexivity |]. apply in_range_spec; consts; lia.
      * exists (String c2 EmptyString), (String c3 EmptyString). split; [reflexivity |].
        split; [exists c2; auto | left; exists c3; auto].
    + assert (E1 : c1 = "2"%char) by (apply (ascii_of_code c1 50); lia).
      subst c1. consts.
      destruct (Nat.le_gt_cases (nat_of_ascii c2) 52) as [Hlow2 | Hhigh2].
      * right. left.
        exists (String "2" EmptyString), (String c2 (String c3 EmptyString)).
        split; [reflexivity |]. split; [reflexivity |].
        exists (String c2 EmptyString), (String c3 EmptyString). split; [reflexivity |].
        split.
        -- exists c2. split; [reflexivity |]. apply in_range_spec; consts; lia.
        -- exists c3. auto.
      * assert (E2 : c2 = "5"%char) by (apply (ascii_of_code c2 53); lia).
        subst c2. consts.
        left.
        exists (String "2" EmptyString), (String "5" (String c3 EmptyString)).
        split; [reflexivity |]. split; [reflexivity |].
        exists (String "5" EmptyString), (String c3 EmptyString). split; [reflexivity |].
        split; [reflexivity |].
        exists c3. split; [reflexivity |]. apply in_range_spec; consts; lia.
Qed.

Lemma octet_lang_iff (s : string) : lang octetRegex s <-> octet_text s.
Proof. split; [apply octet_lang_text | apply octet_text_lang]. Qed.

Lemma dot_lang (s : string) : lang (Lit ".") s <-> s = ".".
Proof. reflexivity. Qed.

(** [isValidIP] accepts exactly the dotted quads. *)
Lemma isValidIP_iff (ip : string) : isValidIP ip = true <-> dotted_quad ip.
Proof.
  unfold isValidIP. rewrite regex_test_lang. unfold ipRegex, dotted_quad.
  cbn [lang]. split.
  - intros (a & r1 & -> & Ha & (d1 & r2 & -> & -> & (b & r3 & -> & Hb &
            (d2 & r4 & -> & -> & (c & r5 & -> & Hc & (d3 & d & -> & -> & Hd)))))).
    exists a, b, c, d. rewrite <- !octet_lang_iff. auto.
  - intros (a & b & c & d & -> & Ha & Hb & Hc & Hd).
    rewrite <- octet_lang_iff in Ha, Hb, Hc, Hd.
    exists a, ("." ++ b ++ "." ++ c ++ "." ++ d). repeat split; auto.
    exists ".", (b ++ "." ++ c ++ "." ++ d). repeat split; auto.
    exists b, ("." ++ c ++ "." ++ d). repeat split; auto.
    exists ".", (c ++ "." ++ d). repeat split; auto.
    exists c, ("." ++ d). repeat split; auto.
    exists ".", d. repeat split; auto.
Qed.

Import Part000.

Lemma questions_reprompted (w : World) :
  questions (trace (reprompted w)) = S (S (questions (trace w))).
Proof.
  unfold reprompted, questions. cbn [record trace]. rewrite !count_cons. reflexivity.
Qed.

(** A manual entry that is not valid: an error line, and the function
    asks again from the start. *)
Lemma manual_invalid_reprompts (fuel : nat) (w : World) :
  trim (answer (env w) (questions (trace w))) = "1" ->
  isValidIP (trim (answer (env w) (S (questions (trace w))))) = false ->
  exec (fetchIpAddress (S fuel)) w = exec (fetchIpAddress fuel) (reprompted w).
Proof.
  intros Hchoice Hbad.
  cbn [fetchIpAddress promptInput bind exec]. rewrite Hchoice.
  cbn [String.eqb Ascii.eqb Bool.eqb bind exec].
  replace (questions (trace (record (EvQuestion choicePrompt) w)))
    with (S (questions (trace w)))
    by (unfold questions; cbn [record trace]; rewrite count_cons; reflexivity).
  cbn [env record]. rewrite Hbad. cbn [negb bind console_error exec]. reflexivity.
Qed.

(** A manual entry that is valid is what the function returns. *)
Lemma manual_valid_returns (fuel : nat) (w : World) :
  trim (answer (env w) (questions (trace w))) = "1" ->
  isValidIP (trim (answer (env w) (S (questions (trace w))))) = true ->
  fst (exec (fetchIpAddress (S fuel)) w) =
  Returned (JStr (trim (answer (env w) (S (questions (trace w)))))).
Proof.
  intros Hchoice Hgood.
  cbn [fetchIpAddress promptInput bind exec]. rewrite Hchoice.
  cbn [String.eqb Ascii.eqb Bool.eqb bind exec].
  replace (questions (trace (record (EvQuestion choicePrompt) w)))
    with (S (questions (trace w)))
    by (unfold questions; cbn [record trace]; rewrite count_cons; reflexivity).
  cbn [env record]. rewrite Hgood. cbn [negb useIp bind console_log exec fst]. reflexivity.
Qed.

(** As long as the user keeps choosing manual entry, whatever
    [fetchIpAddress] returns is one of the typed answers, and it is valid. *)
Lemma manual_returns_valid (fuel : nat) :
  forall w v w',
    (forall j, trim (answer (env w) (questions (trace w) + 2 * j)) = "1") ->
    exec (fetchIpAddress fuel) w = (Returned v, w') ->
    exists j,
      v = JStr (trim (answer (env w) (questions (trace w) + 2 * j + 1))) /\
      isValidIP (trim (answer (env w) (questions (trace w) + 2 * j + 1))) = true.
Proof.
  induction fuel as [| fuel IH]; intros w v w' Hchoice Hrun.
  - cbn in Hrun. discriminate.
  - pose proof (Hchoice 0%nat) as H0. rewrite Nat.mul_0_r, Nat.add_0_r in H0.
    destruct (isValidIP (trim (answer (env w) (S (questions (trace w)))))) eqn:Hvalid.
    + pose proof (manual_valid_returns fuel w H0 Hvalid) as Hret.
      rewrite Hrun in Hret. cbn [fst] in Hret. injection Hret as ->.
      exists 0%nat. rewrite Nat.mul_0_r, Nat.add_0_r, Nat.add_1_r. auto.
    + rewrite (manual_invalid_reprompts fuel w H0 Hvalid) in Hrun.
      destruct (IH (reprompted w) v w') as (j & Hv & Hok).
      * intros j. rewrite questions_reprompted. cbn [reprompted record env].
        replace (S (S (questions (trace w))) + 2 * j)%nat
          with (questions (trace w) + 2 * S j)%nat by lia.
        apply Hchoice.
      * exact Hrun.
      * rewrite questions_reprompted in Hv, Hok. cbn [reprompted record env] in Hv, Hok.
        exists (S j).
        replace (questions (trace w) + 2 * S j + 1)%nat
          with (S (S (questions (trace w))) + 2 * j + 1)%nat by lia.
        auto.
Qed.

(** C9. [isValidIP] is false exactly on the strings that are not four
    dot-separated octets (one to three decimal digits, value 0-255), as
    999.1.1.1 and abc; a manual entry that fails it is not returned:
    [fetchIpAddress] prints an error and asks again; and whatever it returns
    from manual entry is valid. *)
Theorem manual_ip_is_validated :
  (forall ip, isValidIP ip = false <-> ~ dotted_quad ip) /\
  isValidIP "999.1.1.1" = false /\
  isValidIP "abc" = false /\
  (forall fuel w,
     trim (answer (env w) (questions (trace w))) = "1" ->
     isValidIP (trim (answer (env w) (S (questions (trace w))))) = false ->
     exec (fetchIpAddress (S fuel)) w = exec (fetchIpAddress fuel) (reprompted w)) /\
  (forall fuel w v w',
     (forall j, trim (answer (env w) (questions (trace w) + 2 * j)) = "1") ->
     exec (fetchIpAddress fuel) w = (Returned v, w') ->
     exists j,
       v = JStr (trim (answer (env w) (questions (trace w) + 2 * j + 1))) /\
       isValidIP (trim (answer (env w) (questions (trace w) + 2 * j + 1))) = true).
Proof.
  split; [| split; [| split; [| split]]].
  - intros ip. rewrite <- isValidIP_iff. destruct (isValidIP ip); split; congruence.
  - reflexivity.
  - reflexivity.
  - apply manual_invalid_reprompts.
  - intros fuel. apply manual_returns_valid.
Qed.

Lemma manual_ip_is_validated_witness :
  exec (fetchIpAddress 3) (boot Scenarios.env_typing) =
  exec (fetchIpAddress 2) (reprompted (boot Scenarios.env_typing)) /\
  fst (exec (fetchIpAddress 3) (boot Scenarios.env_typing)) = Returned (JStr "10.0.0.7") /\
  exists j,
    JStr "10.0.0.7" =
    JStr (trim (answer Scenarios.env_typing (0 + 2 * j + 1))) /\
    isValidIP (trim (answer Scenarios.env_typing (0 + 2 * j + 1))) = true.
Proof.
  split; [| split].
  - apply (proj1 (proj2 (proj2 (proj2 manual_ip_is_validated))) 2%nat
             (boot Scenarios.env_typing)); reflexivity.
  - reflexivity.
  - apply (proj2 (proj2 (proj2 (proj2 manual_ip_is_validated))) 3%nat
             (boot Scenarios.env_typing) (JStr "10.0.0.7")
             (snd (exec (fetchIpAddress 3) (boot Scenarios.env_typing)))).
    + intros j. cbn [boot trace questions count filter List.length Nat.add env].
      destruct j as [| [| j]]; try reflexivity.
      replace (2 * S (S j))%nat with (S (S (S (S (2 * j))))) by lia. reflexivity.
    + reflexivity.
Defined.

End IpFacts.

(* ================================================================== *)
(** * The lifecycle of one node                                         *)
(* ================================================================== *)

Module LifecycleFacts.
Import RetryFacts.

(** part_000: an attempt that raises is followed by the error line, a wait
    of 5000 ms, and the loop once more. *)
Lemma lifecycle_restarts fuel budget n h ip w e w1 :
  exec (Part000.attempt budget n h ip) w = (Raised e, w1) ->
  exec (Part000.lifecycle (S fuel) budget n h ip) w =
  exec (Part000.lifecycle fuel budget n h ip) (recovered n e w1).
Proof.
  intros Hraise. cbn [Part000.lifecycle]. rewrite exec_try_catch, Hraise.
  cbn [bind console_error sleep exec]. reflexivity.
Qed.

(** part_000: an attempt that returns ends the loop ([break]). *)
Lemma lifecycle_breaks fuel budget n h ip w w1 :
  exec (Part000.attempt budget n h ip) w = (Returned tt, w1) ->
  exec (Part000.lifecycle (S fuel) budget n h ip) w = (Returned tt, w1).
Proof.
  intros Hret. cbn [Part000.lifecycle]. rewrite exec_try_catch, Hret. reflexivity.
Qed.

(** part_000: every turn of the loop starts with the read of user.txt and,
    when that succeeds, goes on to register the same node. *)
Lemma lifecycle_starts_over fuel budget n h ip :
  exists k,
    Part000.lifecycle (S fuel) (S budget) n h ip = ReadFile "user.txt" k /\
    forall content, exists k',
      k (Fulfilled content) =
      Fetch (registerUrl n)
        (with_timeout (registerOptions (trim content) ip (JStr h)) 30000) k'.
Proof.
  eexists. split.
  - cbn [Part000.lifecycle Part000.attempt readFile bind try_catch]. reflexivity.
  - intros content. eexists.
    cbn [await bind try_catch Part000.retryFetch fetch]. reflexivity.
Qed.

(** part_001: an attempt that raises is followed by the error line and,
    at once, the loop once more. *)
Lemma processNode_restarts fuel n h ip w e w1 :
  exec (Part001.attempt n h ip) w = (Raised e, w1) ->
  exec (Part001.processNode (S fuel) n h ip) w =
  exec (Part001.processNode fuel n h ip) (reported n e w1).
Proof.
  intros Hraise. cbn [Part001.processNode]. rewrite exec_try_catch, Hraise.
  cbn [bind console_error exec]. reflexivity.
Qed.

Lemma processNode_breaks fuel n h ip w w1 :
  exec (Part001.attempt n h ip) w = (Returned tt, w1) ->
  exec (Part001.processNode (S fuel) n h ip) w = (Returned tt, w1).
Proof.
  intros Hret. cbn [Part001.processNode]. rewrite exec_try_catch, Hret. reflexivity.
Qed.

(** part_001: every turn of the loop starts over with the same node. *)
Lemma processNode_starts_over fuel n h ip :
  exists k,
    Part001.processNode (S fuel) n h ip =
    Console Stdout "Processing nodeId: ${nodeId}, hardwareId: ${hardwareId}, IP: ${ipAddress}"
      [JStr n; opt_val h; ip] (ReadFile "user.txt" k) /\
    forall content, exists k',
      k (Fulfilled content) =
      Console Stdout "Registering node with IP: ${ipAddress}, Hardware ID: ${hardwareId}"
        [ip; opt_val h]
        (Fetch (registerUrl n) (registerOptions (trim content) ip (opt_val h)) k').
Proof.
  eexists. split.
  - cbn [Part001.processNode Part001.attempt Part001.registerNode Part001.readAuthToken
         readFile console_log bind try_catch]. reflexivity.
  - intros content. eexists.
    cbn [await bind try_catch console_log fetch]. reflexivity.
Qed.

(** C7, as the code has it. A lifecycle whose attempt raises (in the read
    of the token, in registration, in session start or in the initial ping)
    logs the error and starts over with the same node: in part_000 after a
    wait of 5000 ms, beginning again with the read of user.txt and the
    registration request; in part_001 at once, without any wait. *)
Theorem failed_lifecycle_starts_over :
  (forall fuel budget n h ip w e w1,
     exec (Part000.attempt budget n h ip) w = (Raised e, w1) ->
     exec (Part000.lifecycle (S fuel) budget n h ip) w =
     exec (Part000.lifecycle fuel budget n h ip) (recovered n e w1)) /\
  (forall fuel budget n h ip, exists k,
     Part000.lifecycle (S fuel) (S budget) n h ip = ReadFile "user.txt" k /\
     forall content, exists k',
       k (Fulfilled content) =
       Fetch (registerUrl n)
         (with_timeout (registerOptions (trim content) ip (JStr h)) 30000) k') /\
  (forall fuel n h ip w e w1,
     exec (Part001.attempt n h ip) w = (Raised e, w1) ->
     exec (Part001.processNode (S fuel) n h ip) w =
     exec (Part001.processNode fuel n h ip) (reported n e w1)) /\
  (forall fuel n h ip, exists k,
     Part001.processNode (S fuel) n h ip =
     Console Stdout "Processing nodeId: ${nodeId}, hardwareId: ${hardwareId}, IP: ${ipAddress}"
       [JStr n; opt_val h; ip] (ReadFile "user.txt" k) /\
     forall content, exists k',
       k (Fulfilled content) =
       Console Stdout "Registering node with IP: ${ipAddress}, Hardware ID: ${hardwareId}"
         [ip; opt_val h]
         (Fetch (registerUrl n) (registerOptions (trim content) ip (opt_val h)) k')).
Proof.
  split; [| split; [| split]].
  - apply lifecycle_restarts.
  - apply lifecycle_starts_over.
  - apply processNode_restarts.
  - apply processNode_starts_over.
Qed.

Lemma failed_lifecycle_starts_over_witness :
  exec (Part000.lifecycle 2 4 "A" "hwA" Scenarios.sampleIp)
    (boot Scenarios.env_token_missing_once) =
  exec (Part000.lifecycle 1 4 "A" "hwA" Scenarios.sampleIp)
    (recovered "A" Scenarios.missing
       (record (EvReadFile "user.txt") (boot Scenarios.env_token_missing_once))) /\
  exec (Part001.processNode 2 "A" (Some "hwA") Scenarios.sampleIp)
    (boot Scenarios.env_register_refused_once) =
  exec (Part001.processNode 1 "A" (Some "hwA") Scenarios.sampleIp)
    (reported "A" Scenarios.refused
       (snd (exec (Part001.attempt "A" (Some "hwA") Scenarios.sampleIp)
               (boot Scenarios.env_register_refused_once)))).
Proof.
  split.
  - apply (proj1 failed_lifecycle_starts_over 1%nat 4%nat "A" "hwA" Scenarios.sampleIp
             (boot Scenarios.env_token_missing_once)).
    reflexivity.
  - apply (proj1 (proj2 (proj2 failed_lifecycle_starts_over)) 1%nat "A" (Some "hwA")
             Scenarios.sampleIp (boot Scenarios.env_register_refused_once)).
    reflexivity.
Defined.

(** C7 as stated fails on part_001: the first registration of node A is
    refused, [processNode] logs the error and registers again, and the whole
    run contains no wait at all. *)
Lemma processNode_restarts_without_waiting :
  fst (exec (Part001.processNode 2 "A" (Some "hwA") Scenarios.sampleIp)
         (boot Scenarios.env_register_refused_once)) = Returned tt /\
  In (EvConsole Stderr
        "Error occurred for nodeId: ${nodeId}, restarting process: ${error.message}"
        [JStr "A"; JStr "connect ECONNREFUSED"])
     (trace (snd (exec (Part001.processNode 2 "A" (Some "hwA") Scenarios.sampleIp)
                    (boot Scenarios.env_register_refused_once)))) /\
  fetches_to (registerUrl "A")
    (trace (snd (exec (Part001.processNode 2 "A" (Some "hwA") Scenarios.sampleIp)
                   (boot Scenarios.env_register_refused_once)))) = 2%nat /\
  count any_wait
    (trace (snd (exec (Part001.processNode 2 "A" (Some "hwA") Scenarios.sampleIp)
                   (boot Scenarios.env_register_refused_once)))) = 0%nat.
Proof.
  split; [reflexivity |]. split; [| split; reflexivity].
  vm_compute. tauto.
Qed.

(* ------------------------------------------------------------------ *)
(** ** Entries without a node id or a hardware id                       *)
(* ------------------------------------------------------------------ *)

Lemma split_without_sep (sep : ascii) (s : string) :
  has_char sep s = false -> split sep s = [s].
Proof.
  induction s as [| a s IH]; cbn [has_char split]; intros H; [reflexivity |].
  apply orb_false_iff in H. destruct H as [Ha Hs].
  rewrite Ha, (IH Hs). reflexivity.
Qed.

Lemma split_at_sep (sep : ascii) (s rest : string) :
  has_char sep s = false ->
  split sep (s ++ String sep rest) = s :: split sep rest.
Proof.
  induction s as [| a s IH]; cbn [has_char split append]; intros H.
  - rewrite Ascii.eqb_refl. reflexivity.
  - apply orb_false_iff in H. destruct H as [Ha Hs].
    rewrite Ha, (IH Hs). reflexivity.
Qed.

(** A line without a colon has no hardware id. *)
Lemma line_without_colon (line : string) :
  has_char ":" line = false ->
  parse_entry line = mkEntry line None /\ invalid_entry (parse_entry line) = true.
Proof.
  intros H. unfold parse_entry. rewrite (split_without_sep ":" line H).
  split; [reflexivity |]. unfold invalid_entry. cbn. apply orb_true_r.
Qed.

(** A line that starts with a colon has an empty node id. *)
Lemma line_without_node (rest : string) :
  invalid_entry (parse_entry (String ":" rest)) = true.
Proof.
  unfold parse_entry. cbn [split]. rewrite Ascii.eqb_refl.
  destruct (split ":" rest); reflexivity.
Qed.

(** A line that ends at its first colon has an empty hardware id. *)
Lemma line_without_hardware (n : string) :
  has_char ":" n = false ->
  invalid_entry (parse_entry (n ++ ":")) = true.
Proof.
  intros H. unfold parse_entry. rewrite (split_at_sep ":" n EmptyString H).
  cbn [split]. unfold invalid_entry. cbn. apply orb_true_r.
Qed.

Lemma forEachId_skips fuel ip e rest w :
  invalid_entry e = true ->
  exec (Part000.forEachId fuel ip (e :: rest)) w =
  exec (Part000.forEachId fuel ip rest) (flagged e w).
Proof.
  intros H. cbn [Part000.forEachId]. rewrite H.
  cbn [bind console_error exec]. reflexivity.
Qed.

(** The loop over [l1 ++ l2] is the loop over [l1], then over [l2]. *)
Lemma forEachId_app fuel ip l1 l2 :
  forall w,
    exec (Part000.forEachId fuel ip (l1 ++ l2)) w =
    match exec (Part000.forEachId fuel ip l1) w with
    | (Returned _, w1) => exec (Part000.forEachId fuel ip l2) w1
    | (Raised e, w1) => (Raised e, w1)
    | (Running, w1) => (Running, w1)
    end.
Proof.
  induction l1 as [| e l1 IH]; intros w; cbn [app Part000.forEachId].
  - cbn [exec]. reflexivity.
  - destruct (invalid_entry e).
    + cbn [bind console_error exec]. apply IH.
    + rewrite !exec_bind.
      destruct (exec (Part000.lifecycle fuel fuel (nodeId e) (show (hardwareId e)) ip) w)
        as [[[] | err |] w1]; [apply IH | reflexivity | reflexivity].
Qed.

Lemma bless_forEachId_skips ip e rest w :
  invalid_entry e = true ->
  exec (Bless.forEachId ip (e :: rest)) w = exec (Bless.forEachId ip rest) (flagged e w).
Proof.
  intros H. cbn [Bless.forEachId]. rewrite H.
  cbn [bind console_error exec]. reflexivity.
Qed.

Lemma bless_forEachId_app ip l1 l2 :
  forall w,
    exec (Bless.forEachId ip (l1 ++ l2)) w =
    match exec (Bless.forEachId ip l1) w with
    | (Returned _, w1) => exec (Bless.forEachId ip l2) w1
    | (Raised e, w1) => (Raised e, w1)
    | (Running, w1) => (Running, w1)
    end.
Proof.
  induction l1 as [| e l1 IH]; intros w; cbn [app Bless.forEachId].
  - cbn [exec]. reflexivity.
  - destruct (invalid_entry e).
    + cbn [bind console_error exec]. apply IH.
    + rewrite !exec_bind.
      destruct (exec (try_catch (Bless.attempt (nodeId e) (show (hardwareId e)) ip)
                        (fun error =>
                           console_error "Error processing node ${nodeId}: ${error.message}"
                             [JStr (nodeId e); JStr (message error)])) w)
        as [[[] | err |] w1]; [apply IH | reflexivity | reflexivity].
Qed.

(* ------------------------------------------------------------------ *)
(** ** The initial ping                                                 *)
(* ------------------------------------------------------------------ *)

Lemma pingNode_through_retryFetch budget n tok :
  Part000.pingNode budget n tok =
  bind (Part000.retryFetch budget (pingUrl n) (authOptions tok) false
          Part000.default_retries Part000.default_delay)
       (reportPing n).
Proof. reflexivity. Qed.

(** part_000: four failed requests, three waits of 1000 ms, and only then
    the error leaves [pingNode]. *)
Lemma ping_raises_after_four budget n tok w :
  (3 < budget)%nat ->
  (forall k, (k <= 3)%nat ->
     failure (fetch_reply (env w) (pingUrl n) (fetches_to (pingUrl n) (trace w) + k)) <> None) ->
  exists e w',
    exec (Part000.pingNode budget n tok) w = (Raised e, w') /\
    failure (fetch_reply (env w) (pingUrl n) (fetches_to (pingUrl n) (trace w) + 3)) = Some e /\
    fetches (trace w') = (fetches (trace w) + 4)%nat /\
    waits 1000 (trace w') = (waits 1000 (trace w) + 3)%nat.
Proof.
  intros Hbudget Hfail.
  destruct (exhausts_after 3 budget (pingUrl n) (authOptions tok) 1000 w Hbudget Hfail)
    as (e & w' & Hrun & Hlast & Hfetches & Hwaits).
  exists e, w'. rewrite pingNode_through_retryFetch, exec_bind.
  unfold Part000.default_retries, Part000.default_delay.
  change 3 with (Z.of_nat 3). rewrite Hrun.
  repeat split; [exact Hlast | lia | lia].
Qed.

(** part_000: up to three failures followed by a success are absorbed; the
    successful response is what [pingNode] goes on with. *)
Lemma ping_absorbs_failures budget n tok w k :
  (k <= 3)%nat ->
  (k < budget)%nat ->
  (forall j, (j < k)%nat ->
     failure (fetch_reply (env w) (pingUrl n) (fetches_to (pingUrl n) (trace w) + j)) <> None) ->
  failure (fetch_reply (env w) (pingUrl n) (fetches_to (pingUrl n) (trace w) + k)) = None ->
  exists response w1,
    exec (Part000.pingNode budget n tok) w = exec (reportPing n response) w1 /\
    fetch_reply (env w) (pingUrl n) (fetches_to (pingUrl n) (trace w) + k) = Fulfilled response /\
    fetches (trace w1) = (fetches (trace w) + k + 1)%nat /\
    waits 1000 (trace w1) = (waits 1000 (trace w) + k)%nat.
Proof.
  intros Hk Hbudget Hfail Hok.
  destruct (returns_first_success k budget (pingUrl n) (authOptions tok) false
              Part000.default_retries Part000.default_delay w Hbudget)
    as (response & w1 & Hrun & Hreply & Hfetches & Hwaits & _); auto.
  { right. unfold Part000.default_retries. lia. }
  exists response, w1. rewrite pingNode_through_retryFetch, exec_bind, Hrun.
  repeat split; [exact Hreply | lia | exact Hwaits].
Qed.

(** part_000: after up to three failed requests and a reply that is ok,
    the body decides: read without error, the ping has gone through. *)
Lemma reportPing_succeeds n response w :
  body_failure "isB7SConnected" response = None ->
  exists w',
    exec (reportPing n response) w = (Returned tt, w') /\
    fetches (trace w') = fetches (trace w) /\
    count any_wait (trace w') = count any_wait (trace w) /\
    timers w' = timers w.
Proof.
  unfold body_failure, reportPing, response_json. intros H.
  destruct (json response) as [data | e]; [| discriminate].
  cbn [await bind console_log exec].
  destruct data; cbn [get_prop] in H |- *; try discriminate;
    cbn [bind exec truthy];
    try (destruct (truthy (lookup "isB7SConnected" fields)));
    cbn [console_log exec]; eexists; (split; [reflexivity |]);
    cbn [record trace timers]; unfold fetches; rewrite ?count_cons;
    repeat split; reflexivity.
Qed.

(** part_000: a body that cannot be read makes the ping fail, with no
    further request and no wait. *)
Lemma reportPing_fails n response e w :
  body_failure "isB7SConnected" response = Some e ->
  exists w',
    exec (reportPing n response) w = (Raised e, w') /\
    fetches (trace w') = fetches (trace w) /\
    count any_wait (trace w') = count any_wait (trace w) /\
    error_lines (trace w') = error_lines (trace w) /\
    timers w' = timers w.
Proof.
  unfold body_failure, reportPing, response_json. intros H.
  destruct (json response) as [data | e0].
  - cbn [await bind console_log exec].
    destruct data; cbn [get_prop] in H |- *; try discriminate;
      injection H as <-; cbn [bind exec]; eexists; (split; [reflexivity |]);
      cbn [record trace timers]; unfold fetches, error_lines; rewrite ?count_cons;
      repeat split; reflexivity.
  - injection H as <-. cbn [await bind exec]. exists w. repeat split; reflexivity.
Qed.

Lemma ping_succeeds_after_retries budget n tok w k response :
  (k <= 3)%nat ->
  (k < budget)%nat ->
  (forall j, (j < k)%nat ->
     failure (fetch_reply (env w) (pingUrl n) (fetches_to (pingUrl n) (trace w) + j)) <> None) ->
  fetch_reply (env w) (pingUrl n) (fetches_to (pingUrl n) (trace w) + k) = Fulfilled response ->
  ok response = true ->
  body_failure "isB7SConnected" response = None ->
  exists w',
    exec (Part000.pingNode budget n tok) w = (Returned tt, w') /\
    fetches (trace w') = (fetches (trace w) + k + 1)%nat /\
    waits 1000 (trace w') = (waits 1000 (trace w) + k)%nat /\
    count any_wait (trace w') = (count any_wait (trace w) + k)%nat.
Proof.
  intros Hk Hbudget Hfail Hreply Hok Hbody.
  destruct (returns_first_success k budget (pingUrl n) (authOptions tok) false
              Part000.default_retries Part000.default_delay w Hbudget)
    as (response' & w1 & Hrun & Hreply' & Hfetches & Hwaits & Hany); auto.
  { right. unfold Part000.default_retries. lia. }
  { rewrite Hreply. cbn [failure]. rewrite Hok. reflexivity. }
  rewrite Hreply in Hreply'. injection Hreply' as <-.
  destruct (reportPing_succeeds n response w1 Hbody) as (w' & Hrep & Hf & Ha & _).
  exists w'. rewrite pingNode_through_retryFetch, exec_bind, Hrun, Hrep.
  unfold waits in *. split; [reflexivity |]. split; [lia |].
  split; [| lia].
  assert (Hw : count (is_timeout 1000) (trace w') = count (is_timeout 1000) (trace w1)).
  { clear - Hrep. unfold reportPing, response_json in Hrep.
    destruct (json response) as [data | e]; cbn [await bind console_log exec] in Hrep;
      [| discriminate].
    destruct data; cbn [get_prop bind exec] in Hrep; try discriminate;
      repeat match type of Hrep with
             | context [if ?c then _ else _] => destruct c
             end;
      cbn [console_log exec] in Hrep; injection Hrep as <-;
      cbn [record trace]; rewrite ?count_cons; reflexivity. }
  rewrite Hw. exact Hwaits.
Qed.

Lemma ping_fails_on_body budget n tok w k response e :
  (k <= 3)%nat ->
  (k < budget)%nat ->
  (forall j, (j < k)%nat ->
     failure (fetch_reply (env w) (pingUrl n) (fetches_to (pingUrl n) (trace w) + j)) <> None) ->
  fetch_reply (env w) (pingUrl n) (fetches_to (pingUrl n) (trace w) + k) = Fulfilled response ->
  ok response = true ->
  body_failure "isB7SConnected" response = Some e ->
  exists w',
    exec (Part000.pingNode budget n tok) w = (Raised e, w') /\
    fetches (trace w') = (fetches (trace w) + k + 1)%nat /\
    count any_wait (trace w') = (count any_wait (trace w) + k)%nat.
Proof.
  intros Hk Hbudget Hfail Hreply Hok Hbody.
  destruct (returns_first_success k budget (pingUrl n) (authOptions tok) false
              Part000.default_retries Part000.default_delay w Hbudget)
    as (response' & w1 & Hrun & Hreply' & Hfetches & Hwaits & Hany); auto.
  { right. unfold Part000.default_retries. lia. }
  { rewrite Hreply. cbn [failure]. rewrite Hok. reflexivity. }
  rewrite Hreply in Hreply'. injection Hreply' as <-.
  destruct (reportPing_fails n response e w1 Hbody) as (w' & Hrep & Hf & Ha & _).
  exists w'. rewrite pingNode_through_retryFetch, exec_bind, Hrun, Hrep.
  split; [reflexivity |]. split; lia.
Qed.

Lemma fetches_to_pinging n ip w :
  fetches_to (pingUrl n)
    (trace (record (EvConsole Stdout "Pinging node ${nodeId} with IP: ${ipAddress}"
                      [JStr n; ip])
              (record (EvReadFile "user.txt") w))) =
  fetches_to (pingUrl n) (trace w).
Proof. reflexivity. Qed.

(** part_001: without the token there is no ping. *)
Lemma plain_ping_without_token n ip w e :
  file_reply (env w) "user.txt" (reads_of "user.txt" (trace w)) = Rejected e ->
  exec (Part001.pingNode n ip) w = (Raised e, record (EvReadFile "user.txt") w).
Proof.
  intros Hfile. cbn [Part001.pingNode Part001.readAuthToken readFile bind exec].
  rewrite Hfile. reflexivity.
Qed.

(** part_001: [pingNode] sends one request; when the request is rejected
    or the body cannot be read, the error leaves [pingNode] at once. *)
Lemma plain_ping_fails n ip w content e :
  file_reply (env w) "user.txt" (reads_of "user.txt" (trace w)) = Fulfilled content ->
  plain_ping_failure (next_reply (pingUrl n) w) = Some e ->
  exec (Part001.pingNode n ip) w = (Raised e, pinged n ip content w).
Proof.
  intros Hfile Hfail. unfold next_reply in Hfail.
  cbn [Part001.pingNode Part001.readAuthToken readFile bind exec].
  rewrite Hfile. cbn [await bind console_log fetch exec env record].
  rewrite fetches_to_pinging.
  destruct (fetch_reply (env w) (pingUrl n) (fetches_to (pingUrl n) (trace w)))
    as [response | e0]; cbn [plain_ping_failure] in Hfail.
  - unfold body_failure in Hfail. unfold response_json. cbn [await bind].
    destruct (json response) as [data | e0]; cbn [await bind exec].
    + destruct data; cbn [get_prop] in Hfail |- *; try discriminate;
        injection Hfail as <-; reflexivity.
    + injection Hfail as <-. reflexivity.
  - injection Hfail as <-. reflexivity.
Qed.

(** part_001: whatever the status of the reply, a body that can be read
    makes the ping go through. *)
Lemma plain_ping_succeeds n ip w content :
  file_reply (env w) "user.txt" (reads_of "user.txt" (trace w)) = Fulfilled content ->
  plain_ping_failure (next_reply (pingUrl n) w) = None ->
  exists response data status,
    next_reply (pingUrl n) w = Fulfilled response /\
    json response = Fulfilled data /\
    get_prop data "status" = Ret status /\
    exec (Part001.pingNode n ip) w =
    (Returned data,
     record (EvConsole Stdout
               "Ping response, NodeID: ${nodeId}, Status: ${status}, IP: ${ipAddress}"
               [JStr n; status; ip])
       (pinged n ip content w)).
Proof.
  intros Hfile Hfail. unfold next_reply in *.
  cbn [Part001.pingNode Part001.readAuthToken readFile bind exec].
  rewrite Hfile. cbn [await bind console_log fetch exec env record].
  rewrite fetches_to_pinging.
  destruct (fetch_reply (env w) (pingUrl n) (fetches_to (pingUrl n) (trace w)))
    as [response | e0]; cbn [plain_ping_failure] in Hfail; [| discriminate].
  unfold body_failure in Hfail. unfold response_json. cbn [await bind].
  destruct (json response) as [data | e0] eqn:Hjson; [| discriminate].
  exists response, data. cbn [await bind exec].
  destruct data; cbn [get_prop] in Hfail |- *; try discriminate;
    eexists; repeat split; first [reflexivity | assumption].
Qed.

(** part_001: when registration and session start have gone through, a
    first ping that fails takes [processNode] to its [catch]. *)
Lemma first_ping_to_catch fuel n h ip w reg w1 sess w2 e w3 :
  exec (Part001.registerNode n h ip)
    (record (EvConsole Stdout
               "Processing nodeId: ${nodeId}, hardwareId: ${hardwareId}, IP: ${ipAddress}"
               [JStr n; opt_val h; ip]) w) = (Returned reg, w1) ->
  exec (Part001.startSession n)
    (record (EvConsole Stdout "Node registration completed for nodeId: ${nodeId}. Response:"
               [JStr n; reg]) w1) = (Returned sess, w2) ->
  exec (Part001.pingNode n ip) (before_first_ping n sess w2) = (Raised e, w3) ->
  exec (Part001.processNode (S fuel) n h ip) w =
  exec (Part001.processNode fuel n h ip) (reported n e w3).
Proof.
  intros Hreg Hsess Hping. apply processNode_restarts.
  unfold Part001.attempt. cbn [console_log bind exec].
  rewrite exec_bind, Hreg. cbn [console_log bind exec].
  rewrite exec_bind, Hsess. cbn [console_log bind exec].
  unfold before_first_ping in Hping. rewrite exec_bind, Hping. reflexivity.
Qed.

(** part_000: the same for the lifecycle. *)
Lemma retried_ping_to_catch fuel budget n h ip w content r1 w1 d1 r2 w2 d2 e w3 :
  file_reply (env w) "user.txt" (reads_of "user.txt" (trace w)) = Fulfilled content ->
  exec (Part000.retryFetch budget (registerUrl n)
          (registerOptions (trim content) ip (JStr h)) true
          Part000.default_retries Part000.default_delay)
    (record (EvReadFile "user.txt") w) = (Returned r1, w1) ->
  json r1 = Fulfilled d1 ->
  exec (Part000.retryFetch budget (sessionUrl n) (authOptions (trim content)) true
          Part000.default_retries Part000.default_delay)
    (record (EvConsole Stdout "Registration response for ${nodeId}:" [JStr n; d1]) w1)
    = (Returned r2, w2) ->
  json r2 = Fulfilled d2 ->
  exec (Part000.pingNode budget n (trim content))
    (record (EvConsole Stdout "Session started for ${nodeId}:" [JStr n; d2]) w2)
    = (Raised e, w3) ->
  exec (Part000.lifecycle (S fuel) budget n h ip) w =
  exec (Part000.lifecycle fuel budget n h ip) (recovered n e w3).
Proof.
  intros Hfile Hreg Hd1 Hsess Hd2 Hping. apply lifecycle_restarts.
  unfold Part000.attempt, readFile. cbn [bind exec]. rewrite Hfile. cbn [await bind].
  rewrite exec_bind, Hreg. unfold response_json. rewrite Hd1.
  cbn [await bind console_log exec].
  rewrite exec_bind, Hsess, Hd2. cbn [await bind console_log exec].
  rewrite exec_bind, Hping. reflexivity.
Qed.

(** C4, as the code has it. In part_001 the initial ping is one request
    with no retry. It fails, and takes [processNode] to its [catch] at once,
    when user.txt cannot be read, when the request is rejected, or when the
    body of the reply cannot be read; the status of the reply is never
    looked at, so that a reply with an error status and a readable body is a
    ping that went through. In part_000 the request of the initial ping goes
    through [retryFetch] with the defaults: a rejected request or a reply
    that is not ok is retried, up to three times and 1000 ms apart, and only
    the fourth failure in a row reaches the lifecycle's [catch]; reading the
    body lies outside [retryFetch], so a reply that is ok with a body that
    cannot be read reaches the [catch] without any retry. *)
Theorem initial_ping_attempts :
  (forall n ip w e,
     file_reply (env w) "user.txt" (reads_of "user.txt" (trace w)) = Rejected e ->
     exec (Part001.pingNode n ip) w = (Raised e, record (EvReadFile "user.txt") w)) /\
  (forall n ip w content e,
     file_reply (env w) "user.txt" (reads_of "user.txt" (trace w)) = Fulfilled content ->
     plain_ping_failure (next_reply (pingUrl n) w) = Some e ->
     exec (Part001.pingNode n ip) w = (Raised e, pinged n ip content w)) /\
  (forall n ip w content,
     file_reply (env w) "user.txt" (reads_of "user.txt" (trace w)) = Fulfilled content ->
     plain_ping_failure (next_reply (pingUrl n) w) = None ->
     exists response data status,
       next_reply (pingUrl n) w = Fulfilled response /\
       json response = Fulfilled data /\
       get_prop data "status" = Ret status /\
       exec (Part001.pingNode n ip) w =
       (Returned data,
        record (EvConsole Stdout
                  "Ping response, NodeID: ${nodeId}, Status: ${status}, IP: ${ipAddress}"
                  [JStr n; status; ip])
          (pinged n ip content w))) /\
  (forall fuel n h ip w reg w1 sess w2 e w3,
     exec (Part001.registerNode n h ip)
       (record (EvConsole Stdout
                  "Processing nodeId: ${nodeId}, hardwareId: ${hardwareId}, IP: ${ipAddress}"
                  [JStr n; opt_val h; ip]) w) = (Returned reg, w1) ->
     exec (Part001.startSession n)
       (record (EvConsole Stdout
                  "Node registration completed for nodeId: ${nodeId}. Response:"
                  [JStr n; reg]) w1) = (Returned sess, w2) ->
     exec (Part001.pingNode n ip) (before_first_ping n sess w2) = (Raised e, w3) ->
     exec (Part001.processNode (S fuel) n h ip) w =
     exec (Part001.processNode fuel n h ip) (reported n e w3)) /\
  (forall budget n tok w,
     (3 < budget)%nat ->
     (forall k, (k <= 3)%nat ->
        failure (fetch_reply (env w) (pingUrl n) (fetches_to (pingUrl n) (trace w) + k))
        <> None) ->
     exists e w',
       exec (Part000.pingNode budget n tok) w = (Raised e, w') /\
       failure (fetch_reply (env w) (pingUrl n) (fetches_to (pingUrl n) (trace w) + 3))
       = Some e /\
       fetches (trace w') = (fetches (trace w) + 4)%nat /\
       waits 1000 (trace w') = (waits 1000 (trace w) + 3)%nat) /\
  (forall budget n tok w k response,
     (k <= 3)%nat ->
     (k < budget)%nat ->
     (forall j, (j < k)%nat ->
        failure (fetch_reply (env w) (pingUrl n) (fetches_to (pingUrl n) (trace w) + j))
        <> None) ->
     fetch_reply (env w) (pingUrl n) (fetches_to (pingUrl n) (trace w) + k)
       = Fulfilled response ->
     ok response = true ->
     body_failure "isB7SConnected" response = None ->
     exists w',
       exec (Part000.pingNode budget n tok) w = (Returned tt, w') /\
       fetches (trace w') = (fetches (trace w) + k + 1)%nat /\
       waits 1000 (trace w') = (waits 1000 (trace w) + k)%nat /\
       count any_wait (trace w') = (count any_wait (trace w) + k)%nat) /\
  (forall budget n tok w k response e,
     (k <= 3)%nat ->
     (k < budget)%nat ->
     (forall j, (j < k)%nat ->
        failure (fetch_reply (env w) (pingUrl n) (fetches_to (pingUrl n) (trace w) + j))
        <> None) ->
     fetch_reply (env w) (pingUrl n) (fetches_to (pingUrl n) (trace w) + k)
       = Fulfilled response ->
     ok response = true ->
     body_failure "isB7SConnected" response = Some e ->
     exists w',
       exec (Part000.pingNode budget n tok) w = (Raised e, w') /\
       fetches (trace w') = (fetches (trace w) + k + 1)%nat /\
       count any_wait (trace w') = (count any_wait (trace w) + k)%nat) /\
  (forall fuel budget n h ip w content r1 w1 d1 r2 w2 d2 e w3,
     file_reply (env w) "user.txt" (reads_of "user.txt" (trace w)) = Fulfilled content ->
     exec (Part000.retryFetch budget (registerUrl n)
             (registerOptions (trim content) ip (JStr h)) true
             Part000.default_retries Part000.default_delay)
       (record (EvReadFile "user.txt") w) = (Returned r1, w1) ->
     json r1 = Fulfilled d1 ->
     exec (Part000.retryFetch budget (sessionUrl n) (authOptions (trim content)) true
             Part000.default_retries Part000.default_delay)
       (record (EvConsole Stdout "Registration response for ${nodeId}:" [JStr n; d1]) w1)
       = (Returned r2, w2) ->
     json r2 = Fulfilled d2 ->
     exec (Part000.pingNode budget n (trim content))
       (record (EvConsole Stdout "Session started for ${nodeId}:" [JStr n; d2]) w2)
       = (Raised e, w3) ->
     exec (Part000.lifecycle (S fuel) budget n h ip) w =
     exec (Part000.lifecycle fuel budget n h ip) (recovered n e w3)).
Proof.
  split; [| split; [| split; [| split; [| split; [| split; [| split]]]]]].
  - apply plain_ping_without_token.
  - apply plain_ping_fails.
  - apply plain_ping_succeeds.
  - apply first_ping_to_catch.
  - apply ping_raises_after_four.
  - apply ping_succeeds_after_retries.
  - apply ping_fails_on_body.
  - apply retried_ping_to_catch.
Qed.

Lemma initial_ping_attempts_witness :
  exec (Part001.pingNode "A" Scenarios.sampleIp) (boot Scenarios.env_down) =
    (Raised Scenarios.refused, pinged "A" Scenarios.sampleIp "secret" (boot Scenarios.env_down)) /\
  (ok MoreScenarios.serverError = false /\
   exists response data status,
     next_reply (pingUrl "A") (boot MoreScenarios.env_server_errors) = Fulfilled response /\
     json response = Fulfilled data /\
     get_prop data "status" = Ret status /\
     exec (Part001.pingNode "A" Scenarios.sampleIp) (boot MoreScenarios.env_server_errors) =
     (Returned data,
      record (EvConsole Stdout
                "Ping response, NodeID: ${nodeId}, Status: ${status}, IP: ${ipAddress}"
                [JStr "A"; status; Scenarios.sampleIp])
        (pinged "A" Scenarios.sampleIp "secret" (boot MoreScenarios.env_server_errors)))) /\
  (let w := boot Scenarios.env_ping_refused_once in
   let w1 := snd (exec (Part001.registerNode "A" (Some "hwA") Scenarios.sampleIp)
                    (record (EvConsole Stdout
                       "Processing nodeId: ${nodeId}, hardwareId: ${hardwareId}, IP: ${ipAddress}"
                       [JStr "A"; opt_val (Some "hwA"); Scenarios.sampleIp]) w)) in
   let w2 := snd (exec (Part001.startSession "A")
                    (record (EvConsole Stdout
                       "Node registration completed for nodeId: ${nodeId}. Response:"
                       [JStr "A"; Scenarios.pong]) w1)) in
   let w3 := pinged "A" Scenarios.sampleIp "secret"
               (before_first_ping "A" Scenarios.pong w2) in
   exec (Part001.processNode 2 "A" (Some "hwA") Scenarios.sampleIp) w =
   exec (Part001.processNode 1 "A" (Some "hwA") Scenarios.sampleIp)
     (reported "A" Scenarios.refused w3)) /\
  (exists e w',
     exec (Part000.pingNode 4 "A" "secret") (boot Scenarios.env_down) = (Raised e, w') /\
     failure (fetch_reply Scenarios.env_down (pingUrl "A") 3) = Some e /\
     fetches (trace w') = 4%nat /\
     waits 1000 (trace w') = 3%nat) /\
  (exists w',
     exec (Part000.pingNode 4 "A" "secret") (boot Scenarios.env_ping_refused_once) =
     (Returned tt, w') /\
     fetches (trace w') = 2%nat /\
     waits 1000 (trace w') = 1%nat /\
     count any_wait (trace w') = 1%nat) /\
  (exists w',
     exec (Part000.pingNode 4 "A" "secret") (boot MoreScenarios.env_spent) =
     (Raised (mkError "SyntaxError" "Unexpected token < in JSON"), w') /\
     fetches (trace w') = 1%nat /\
     count any_wait (trace w') = 0%nat) /\
  (let w := boot FiringScenarios.env_pings_garbled in
   let w1 := record (EvFetch (registerUrl "A")
                       (with_timeout (registerOptions "secret" Scenarios.sampleIp (JStr "hwA"))
                          30000))
               (record (EvReadFile "user.txt") w) in
   let w2 := record (EvFetch (sessionUrl "A") (with_timeout (authOptions "secret") 30000))
               (record (EvConsole Stdout "Registration response for ${nodeId}:"
                          [JStr "A"; Scenarios.pong]) w1) in
   let w3 := record (EvFetch (pingUrl "A") (with_timeout (authOptions "secret") 30000))
               (record (EvConsole Stdout "Session started for ${nodeId}:"
                          [JStr "A"; Scenarios.pong]) w2) in
   exec (Part000.lifecycle 2 4 "A" "hwA" Scenarios.sampleIp) w =
   exec (Part000.lifecycle 1 4 "A" "hwA" Scenarios.sampleIp)
     (recovered "A" (mkError "SyntaxError" "Unexpected token < in JSON") w3)).
Proof.
  split; [| split; [| split; [| split; [| split; [| split]]]]].
  - apply (proj1 (proj2 initial_ping_attempts) "A" Scenarios.sampleIp
             (boot Scenarios.env_down) "secret" Scenarios.refused); reflexivity.
  - split; [reflexivity |].
    apply (proj1 (proj2 (proj2 initial_ping_attempts)) "A" Scenarios.sampleIp
             (boot MoreScenarios.env_server_errors) "secret"); reflexivity.
  - cbv zeta.
    eapply (proj1 (proj2 (proj2 (proj2 initial_ping_attempts))) 1%nat "A" (Some "hwA")
              Scenarios.sampleIp (boot Scenarios.env_ping_refused_once) Scenarios.pong _
              Scenarios.pong _ Scenarios.refused); reflexivity.
  - apply (proj1 (proj2 (proj2 (proj2 (proj2 initial_ping_attempts)))) 4%nat "A" "secret"
             (boot Scenarios.env_down)).
    + lia.
    + intros k _. cbn. discriminate.
  - apply (proj1 (proj2 (proj2 (proj2 (proj2 (proj2 initial_ping_attempts))))) 4%nat "A"
             "secret" (boot Scenarios.env_ping_refused_once) 1%nat
             (Scenarios.okResponse Scenarios.pong)).
    + lia.
    + lia.
    + intros j Hj. destruct j; [cbn; discriminate | lia].
    + reflexivity.
    + reflexivity.
    + reflexivity.
  - apply (proj1 (proj2 (proj2 (proj2 (proj2 (proj2 (proj2 initial_ping_attempts)))))) 4%nat
             "A" "secret" (boot MoreScenarios.env_spent) 0%nat MoreScenarios.spent).
    + lia.
    + lia.
    + intros j Hj. lia.
    + reflexivity.
    + reflexivity.
    + reflexivity.
  - cbv zeta.
    eapply (proj2 (proj2 (proj2 (proj2 (proj2 (proj2 (proj2 initial_ping_attempts)))))) 1%nat
              4%nat "A" "hwA" Scenarios.sampleIp (boot FiringScenarios.env_pings_garbled)
              "secret" (Scenarios.okResponse Scenarios.pong) _ Scenarios.pong
              (Scenarios.okResponse Scenarios.pong) _ Scenarios.pong); reflexivity.
Defined.

(** C4 as stated fails on part_000: the first ping of node A is refused,
    the second succeeds; the lifecycle sends two pings one second apart and
    completes without ever entering its [catch]. *)
Lemma initial_ping_is_retried :
  fst (exec (Part000.lifecycle 1 5 "A" "hwA" Scenarios.sampleIp)
         (boot Scenarios.env_ping_refused_once)) = Returned tt /\
  fetches_to (pingUrl "A")
    (trace (snd (exec (Part000.lifecycle 1 5 "A" "hwA" Scenarios.sampleIp)
                   (boot Scenarios.env_ping_refused_once)))) = 2%nat /\
  waits 1000
    (trace (snd (exec (Part000.lifecycle 1 5 "A" "hwA" Scenarios.sampleIp)
                   (boot Scenarios.env_ping_refused_once)))) = 1%nat /\
  waits 5000
    (trace (snd (exec (Part000.lifecycle 1 5 "A" "hwA" Scenarios.sampleIp)
                   (boot Scenarios.env_ping_refused_once)))) = 0%nat.
Proof.
  repeat split; reflexivity.
Qed.

(* ------------------------------------------------------------------ *)
(** ** One firing of the scheduled heartbeat                            *)
(* ------------------------------------------------------------------ *)

(** part_001: the callback logs the error of a failed ping and throws it
    again; its promise is rejected. What the runtime does with a rejected
    promise of a timer callback is outside the sources. *)
Lemma heartbeat_logs_and_rethrows n ip w e w1 :
  exec (Part001.pingNode n ip)
    (record (EvConsole Stdout "Sending ping for nodeId: ${nodeId}" [JStr n]) w)
  = (Raised e, w1) ->
  exec (Part001.heartbeat n ip) w =
  (Raised e, record (EvConsole Stderr "Error during ping: ${error.message}"
                       [JStr (message e)]) w1).
Proof.
  intros Hping. unfold Part001.heartbeat. rewrite exec_try_catch.
  cbn [bind console_log exec]. rewrite exec_bind, Hping.
  cbn [bind console_error exec]. reflexivity.
Qed.

(** part_000: the callback is [pingNode] itself; a reply whose body is not
    JSON makes it fail without any console line. *)
Example firing_fails_silently :
  exec (Part000.pingNode 4 "A" "secret") (boot Scenarios.env_garbled) =
  (Raised (mkError "SyntaxError" "Unexpected end of JSON input"),
   record (EvFetch (pingUrl "A") (with_timeout (authOptions "secret") 30000))
     (boot Scenarios.env_garbled)).
Proof. reflexivity. Qed.

End LifecycleFacts.

(* ================================================================== *)
(** * The requests of one task                                          *)
(* ================================================================== *)

Module SharedFacts.

Create HintDb sends.
#[local] Hint Constructors Sends : sends.

Section SendsFacts.

Variable allowed : string -> Settled string -> Prop.
Variable P : string -> Options -> Prop.

Lemma Sends_bind {A B : Type} (p : Async A) (f : A -> Async B) :
  Sends allowed P p -> (forall a, Sends allowed P (f a)) -> Sends allowed P (bind p f).
Proof.
  intros Hp Hf. induction Hp; cbn [bind]; try (constructor; auto); auto.
Qed.

Lemma Sends_try_catch {A : Type} (p : Async A) (h : JsError -> Async A) :
  Sends allowed P p -> (forall e, Sends allowed P (h e)) -> Sends allowed P (try_catch p h).
Proof.
  intros Hp Hh. induction Hp; cbn [try_catch]; try (constructor; auto); auto.
Qed.

Lemma Sends_await {X : Type} (r : Settled X) : Sends allowed P (await r).
Proof. destruct r; cbn; auto with sends. Qed.

Lemma Sends_get_prop (v : JsVal) (key : string) : Sends allowed P (get_prop v key).
Proof. destruct v; cbn; auto with sends. Qed.

(** What [Sends] promises holds of every request in the history. *)
Lemma Sends_sound {A : Type} (p : Async A) :
  Sends allowed P p ->
  forall w,
    (forall path n, allowed path (file_reply (env w) path n)) ->
    forall url o,
      In (EvFetch url o) (trace (snd (exec p w))) ->
      In (EvFetch url o) (trace w) \/ P url o.
Proof.
  induction 1 as [a | e | | url0 o0 k HP Hk IH | path k Hk IH | q k Hk IH
                 | s t args k Hk IH | ms k Hk IH | cb ms k Hk IH | t k Hk IH | k Hk IH];
    intros w Hfiles url o Hin; cbn [exec snd] in Hin; auto.
  - apply IH in Hin; [| exact Hfiles]. cbn [record trace] in Hin.
    destruct Hin as [[Heq | Hin] | HPo]; auto.
    injection Heq as <- <-. auto.
  - apply IH in Hin; [| apply Hfiles | exact Hfiles]. cbn [record trace] in Hin.
    destruct Hin as [[Heq | Hin] | HPo]; auto. discriminate.
  - apply IH in Hin; [| exact Hfiles]. cbn [record trace] in Hin.
    destruct Hin as [[Heq | Hin] | HPo]; auto. discriminate.
  - apply IH in Hin; [| exact Hfiles]. cbn [record trace] in Hin.
    destruct Hin as [[Heq | Hin] | HPo]; auto. discriminate.
  - apply IH in Hin; [| exact Hfiles]. cbn [record trace] in Hin.
    destruct Hin as [[Heq | Hin] | HPo]; auto. discriminate.
  - apply IH in Hin; [| exact Hfiles]. cbn [trace] in Hin.
    destruct Hin as [[Heq | Hin] | HPo]; auto. discriminate.
  - apply IH in Hin; [| exact Hfiles]. cbn [trace] in Hin.
    destruct Hin as [[Heq | Hin] | HPo]; auto. discriminate.
  - apply IH in Hin; [| exact Hfiles]. cbn [record trace] in Hin.
    destruct Hin as [[Heq | Hin] | HPo]; auto. discriminate.
Qed.

(** [retryFetch] sends nothing but its one request, over and over. *)
Lemma Sends_retryFetch fuel url options inf retries delay :
  P url (with_timeout options 30000) ->
  Sends allowed P (Part000.retryFetch fuel url options inf retries delay).
Proof.
  intros HP. revert retries.
  induction fuel as [| fuel IH]; intros retries; cbn [Part000.retryFetch].
  - constructor.
  - apply Sends_try_catch.
    + unfold fetch. cbn [bind]. constructor; [exact HP |].
      intros r. destruct r as [resp | e]; cbn [await bind]; [| constructor].
      destruct (negb (ok resp)); constructor.
    + intros e. destruct (negb inf && (retries =? 0)); [constructor |].
      cbn [bind console_error sleep]. constructor. constructor. apply IH.
Qed.

End SendsFacts.


End SharedFacts.

(* ================================================================== *)
(** * Many nodes: one after the other, or side by side                  *)
(* ================================================================== *)

Module LoopFacts.
Import RetryFacts.

Lemma step_env {A : Type} (p : Async A) (w : World) : env (snd (step p w)) = env w.
Proof. destruct p; reflexivity. Qed.

Lemma nth_error_replace_same i p l q :
  nth_error l i = Some q -> nth_error (replace_nth i p l) i = Some p.
Proof.
  revert i; induction l as [| a l IH]; intros [| i] H; cbn in *; try discriminate; auto.
Qed.

Lemma nth_error_replace_other i j p l :
  i <> j -> nth_error (replace_nth j p l) i = nth_error l i.
Proof.
  revert i j; induction l as [| a l IH]; intros [| i] [| j] H; cbn; auto; try congruence.
Qed.

Lemma nth_error_app_left {X : Type} (l l' : list X) i x :
  nth_error l i = Some x -> nth_error (l ++ l') i = Some x.
Proof.
  revert i; induction l as [| a l IH]; intros [| i] H; cbn in *; try discriminate; auto.
Qed.

Lemma resume_env j l : env (world (resume j l)) = env (world l).
Proof.
  unfold resume. destruct (nth_error (tasks l) j) as [p |]; [| reflexivity].
  destruct (step p (world l)) as [p' w'] eqn:Hstep. cbn.
  change w' with (snd (p', w')). rewrite <- Hstep. apply step_env.
Qed.

(** Another task's turn leaves task [i] as it is. *)
Lemma resume_other i j l p :
  i <> j -> nth_error (tasks l) i = Some p -> nth_error (tasks (resume j l)) i = Some p.
Proof.
  intros Hij Hi. unfold resume. destruct (nth_error (tasks l) j) as [q |]; [| exact Hi].
  destruct (step q (world l)) as [q' w']. cbn.
  apply nth_error_app_left. rewrite nth_error_replace_other; auto.
Qed.

(** Its own turn takes task [i] one step on. *)
Lemma resume_self i l p :
  nth_error (tasks l) i = Some p ->
  nth_error (tasks (resume i l)) i = Some (fst (step p (world l))).
Proof.
  intros Hi. unfold resume. rewrite Hi.
  destruct (step p (world l)) as [p' w']. cbn.
  apply nth_error_app_left. eapply nth_error_replace_same; eauto.
Qed.

Lemma resume_keeps Q j l :
  Lasting Q -> Q (world l) -> Q (world (resume j l)).
Proof.
  intros [Hstep Hclear] HQ. unfold resume.
  destruct (nth_error (tasks l) j) as [p |]; [| exact HQ].
  pose proof (Hstep p (world l) HQ) as H1.
  destruct (step p (world l)) as [p' w']. cbn in *.
  apply (Hclear w'). exact H1.
Qed.

Lemma resume_self_world i l p :
  nth_error (tasks l) i = Some p ->
  forall Q, Lasting Q -> Q (snd (step p (world l))) -> Q (world (resume i l)).
Proof.
  intros Hi Q [_ Hclear] HQ. unfold resume. rewrite Hi.
  destruct (step p (world l)) as [p' w']. cbn in *. apply (Hclear w'). exact HQ.
Qed.

(** A task that has returned stays so, and what lasts stays true. *)
Lemma returned_stays Q s :
  Lasting Q ->
  forall l i,
    nth_error (tasks l) i = Some (Ret tt) -> Q (world l) ->
    nth_error (tasks (run_schedule s l)) i = Some (Ret tt) /\ Q (world (run_schedule s l)).
Proof.
  intros HL. induction s as [| j s IH]; intros l i Hi HQ; cbn [run_schedule]; [auto |].
  apply IH.
  - destruct (Nat.eq_dec i j) as [<- | Hij].
    + rewrite (resume_self i l _ Hi). reflexivity.
    + apply resume_other; auto.
  - apply resume_keeps; auto.
Qed.

(** A task that needs [m] turns has returned once the schedule has given
    it [m] turns, whatever the other tasks did with theirs. *)
Lemma reaches_in_any_schedule e Q s :
  Lasting Q ->
  forall l i m p,
    env (world l) = e ->
    nth_error (tasks l) i = Some p ->
    Reaches e Q m p ->
    (m <= turns i s)%nat ->
    nth_error (tasks (run_schedule s l)) i = Some (Ret tt) /\ Q (world (run_schedule s l)).
Proof.
  intros HL. induction s as [| j s IH]; intros l i m p He Hi Hreach Hturns.
  - cbn in Hturns. inversion Hreach; subst; lia.
  - cbn [run_schedule]. unfold turns in Hturns. cbn [count_occ] in Hturns.
    destruct (Nat.eq_dec j i) as [-> | Hji].
    + inversion Hreach as [p0 Hlast | m' p0 Hnext]; subst.
      * destruct (Hlast (world l) eq_refl) as [Hret HQ].
        apply returned_stays; auto.
        -- rewrite (resume_self i l _ Hi), Hret. reflexivity.
        -- eapply resume_self_world; eauto.
      * apply (IH (resume i l) i m' (fst (step p (world l)))).
        -- apply resume_env.
        -- apply resume_self. exact Hi.
        -- apply Hnext. reflexivity.
        -- unfold turns. lia.
    + apply (IH (resume j l) i m p).
      * rewrite resume_env. exact He.
      * apply resume_other; auto.
      * exact Hreach.
      * exact Hturns.
Qed.

Lemma beating_lasts n ip : Lasting (beating n ip).
Proof.
  split.
  - intros p w H. unfold beating in *. destruct p; cbn; auto.
  - intros w H. exact H.
Qed.

Section Onboarding.

Variable e : Env.
Variable n : string.
Variable h : option string.
Variable ip : JsVal.
Variable content : string.
Variables r1 r2 r3 : Response.
Variables d1 d2 d3 status : JsVal.

Hypothesis Hfile : forall k, file_reply e "user.txt" k = Fulfilled content.
Hypothesis Hreg : forall k, fetch_reply e (registerUrl n) k = Fulfilled r1.
Hypothesis Hsess : forall k, fetch_reply e (sessionUrl n) k = Fulfilled r2.
Hypothesis Hping : forall k, fetch_reply e (pingUrl n) k = Fulfilled r3.
Hypothesis Hd1 : json r1 = Fulfilled d1.
Hypothesis Hd2 : json r2 = Fulfilled d2.
Hypothesis Hd3 : json r3 = Fulfilled d3.
Hypothesis Hstatus : get_prop d3 "status" = Ret status.

Ltac settle w Hw :=
  cbn [step fst snd bind try_catch await]; rewrite ?Hw;
  rewrite ?Hfile, ?Hreg, ?Hsess, ?Hping;
  cbn [bind try_catch await]; unfold response_json;
  rewrite ?Hd1, ?Hd2, ?Hd3; cbn [bind try_catch await];
  rewrite ?Hstatus; cbn [bind try_catch await].

Ltac turn :=
  apply Reaches_next;
  let w := fresh "w" in let Hw := fresh "Hw" in
  intros w Hw; settle w Hw; clear w Hw.

(** When its own three calls succeed, [processNode] has scheduled its
    heartbeat and returned after 17 turns. *)
Lemma processNode_reaches fuel :
  Reaches e (beating n ip) 17 (Part001.processNode (S fuel) n h ip).
Proof.
  cbn [Part001.processNode].
  unfold Part001.attempt, Part001.registerNode, Part001.startSession, Part001.pingNode,
    Part001.readAuthToken, readFile, fetch, console_log, console_error, setInterval.
  cbn [bind try_catch].
  do 16 turn.
  apply Reaches_last. intros w Hw. cbn [step fst snd]. split; [reflexivity |].
  unfold beating. cbn [timers]. left. reflexivity.
Qed.

End Onboarding.

Lemma repeat_shift {X : Type} (x : X) k (l : list X) :
  (repeat x k ++ x :: l = x :: repeat x k ++ l)%list.
Proof. induction k as [| k IH]; cbn; [reflexivity | rewrite IH; reflexivity]. Qed.

(** part_001: the loop of [runAll] only starts the lifecycles, one per
    entry and in order; it sends nothing and waits for nothing. *)
Lemma launchAll_launches fuel ip ids :
  forall w,
    exec (Part001.launchAll fuel ip ids) w =
    (Returned tt,
     mkWorld (env w) (repeat EvDetach (List.length ids) ++ trace w) (timers w)
       (detached w ++
        map (fun e => Part001.processNode fuel (nodeId e) (hardwareId e) ip) ids)).
Proof.
  induction ids as [| e rest IH]; intros w; cbn [Part001.launchAll].
  - cbn. rewrite app_nil_r. destruct w; reflexivity.
  - cbn [detach bind exec]. rewrite IH. cbn [env trace timers detached List.length map repeat].
    rewrite repeat_shift, <- app_assoc. reflexivity.
Qed.

(** part_000: the loop awaits the lifecycle of an entry before it looks at
    the next one. *)
Lemma forEachId_awaits fuel ip e rest w :
  invalid_entry e = false ->
  exec (Part000.forEachId fuel ip (e :: rest)) w =
  match exec (Part000.lifecycle fuel fuel (nodeId e) (show (hardwareId e)) ip) w with
  | (Returned _, w1) => exec (Part000.forEachId fuel ip rest) w1
  | (Raised x, w1) => (Raised x, w1)
  | (Running, w1) => (Running, w1)
  end.
Proof.
  intros H. cbn [Part000.forEachId]. rewrite H. apply exec_bind.
Qed.

(** part_000: while the registration of one node keeps failing, the loop is
    held at that node; it sends no request for any node after it. *)
Lemma forEachId_held fuel ip e rest w content :
  invalid_entry e = false ->
  file_reply (env w) "user.txt" (reads_of "user.txt" (trace w)) = Fulfilled content ->
  (forall j, failure (fetch_reply (env w) (registerUrl (nodeId e))
                        (fetches_to (registerUrl (nodeId e)) (trace w) + j)) <> None) ->
  exists w',
    exec (Part000.forEachId fuel ip (e :: rest)) w = (Running, w') /\
    forall url o,
      In (EvFetch url o) (trace w') ->
      In (EvFetch url o) (trace w) \/ url = registerUrl (nodeId e).
Proof.
  intros Hvalid Hfile Hfail. rewrite (forEachId_awaits fuel ip e rest w Hvalid).
  destruct fuel as [| fuel].
  - exists w. cbn. auto.
  - cbn [Part000.lifecycle]. rewrite exec_try_catch.
    unfold Part000.attempt, readFile. cbn [bind exec]. rewrite Hfile. cbn [await bind].
    rewrite exec_bind.
    set (w1 := record (EvReadFile "user.txt") w).
    set (opts := registerOptions (trim content) ip (JStr (show (hardwareId e)))).
    destruct (infinite_keeps_trying (S fuel) (registerUrl (nodeId e)) opts
                Part000.default_retries Part000.default_delay w1) as (w' & Hrun & _).
    { intros j. apply Hfail. }
    exists w'. rewrite Hrun. split; [reflexivity |].
    intros url o Hin.
    assert (Hs : Sends (fun _ _ => True) (fun u _ => u = registerUrl (nodeId e))
                   (Part000.retryFetch (S fuel) (registerUrl (nodeId e)) opts true
                      Part000.default_retries Part000.default_delay))
      by (apply SharedFacts.Sends_retryFetch; reflexivity).
    pose proof (@SharedFacts.Sends_sound _ _ _ _ Hs w1 (fun _ _ => I) url o) as Hsound.
    rewrite Hrun in Hsound. cbn [snd] in Hsound.
    destruct (Hsound Hin) as [[Heq | Hold] | Hnew]; [discriminate | auto | auto].
Qed.

(** C2, as the code has it. In part_001 [runAll] only starts the
    lifecycles: it calls [processNode] for every entry, in order, sends
    nothing and waits for nothing; and in every interleaving of the started
    tasks a node whose own three calls succeed has scheduled its heartbeat
    and returned after 17 turns of its own, whatever the other nodes' calls
    do. In part_000 the lifecycles run inside the loop one after the other:
    the next entry is looked at only when the lifecycle before it has
    returned, and while a node's registration keeps failing no request is
    sent for any node after it. *)
Theorem lifecycles_side_by_side_or_in_turn :
  (forall fuel ip ids w,
     exec (Part001.launchAll fuel ip ids) w =
     (Returned tt,
      mkWorld (env w) (repeat EvDetach (List.length ids) ++ trace w) (timers w)
        (detached w ++
         map (fun e => Part001.processNode fuel (nodeId e) (hardwareId e) ip) ids))) /\
  (forall s l i fuel n h ip content r1 r2 r3 d1 d2 d3 status,
     nth_error (tasks l) i = Some (Part001.processNode (S fuel) n h ip) ->
     (forall k, file_reply (env (world l)) "user.txt" k = Fulfilled content) ->
     (forall k, fetch_reply (env (world l)) (registerUrl n) k = Fulfilled r1) ->
     (forall k, fetch_reply (env (world l)) (sessionUrl n) k = Fulfilled r2) ->
     (forall k, fetch_reply (env (world l)) (pingUrl n) k = Fulfilled r3) ->
     json r1 = Fulfilled d1 -> json r2 = Fulfilled d2 -> json r3 = Fulfilled d3 ->
     get_prop d3 "status" = Ret status ->
     (17 <= turns i s)%nat ->
     nth_error (tasks (run_schedule s l)) i = Some (Ret tt) /\
     beating n ip (world (run_schedule s l))) /\
  (forall fuel ip e rest w,
     invalid_entry e = false ->
     exec (Part000.forEachId fuel ip (e :: rest)) w =
     match exec (Part000.lifecycle fuel fuel (nodeId e) (show (hardwareId e)) ip) w with
     | (Returned _, w1) => exec (Part000.forEachId fuel ip rest) w1
     | (Raised x, w1) => (Raised x, w1)
     | (Running, w1) => (Running, w1)
     end) /\
  (forall fuel ip e rest w content,
     invalid_entry e = false ->
     file_reply (env w) "user.txt" (reads_of "user.txt" (trace w)) = Fulfilled content ->
     (forall j, failure (fetch_reply (env w) (registerUrl (nodeId e))
                           (fetches_to (registerUrl (nodeId e)) (trace w) + j)) <> None) ->
     exists w',
       exec (Part000.forEachId fuel ip (e :: rest)) w = (Running, w') /\
       forall url o,
         In (EvFetch url o) (trace w') ->
         In (EvFetch url o) (trace w) \/ url = registerUrl (nodeId e)).
Proof.
  split; [| split; [| split]].
  - apply launchAll_launches.
  - intros s l i fuel n h ip content r1 r2 r3 d1 d2 d3 status
      Hi Hfile Hreg Hsess Hping Hd1 Hd2 Hd3 Hstatus Hturns.
    apply (reaches_in_any_schedule (env (world l)) (beating n ip) s (beating_lasts n ip)
             l i 17 (Part001.processNode (S fuel) n h ip) eq_refl Hi); [| exact Hturns].
    eapply processNode_reaches; eauto.
  - apply forEachId_awaits.
  - apply forEachId_held.
Qed.

Lemma lifecycles_side_by_side_or_in_turn_witness :
  (nth_error
     (tasks (run_schedule Scenarios.taking_turns
               (started_by (snd (exec (Part001.launchAll 3 Scenarios.sampleIp
                                         [Scenarios.nodeA; Scenarios.nodeB])
                                   (boot Scenarios.env_A_down)))))) 1
   = Some (Ret tt) /\
   beating "B" Scenarios.sampleIp
     (world (run_schedule Scenarios.taking_turns
               (started_by (snd (exec (Part001.launchAll 3 Scenarios.sampleIp
                                         [Scenarios.nodeA; Scenarios.nodeB])
                                   (boot Scenarios.env_A_down))))))) /\
  (exists w',
     exec (Part000.forEachId 6 Scenarios.sampleIp [Scenarios.nodeA; Scenarios.nodeB])
       (boot Scenarios.env_A_down) = (Running, w') /\
     forall url o,
       In (EvFetch url o) (trace w') ->
       In (EvFetch url o) (trace (boot Scenarios.env_A_down)) \/
       url = registerUrl (nodeId Scenarios.nodeA)).
Proof.
  split.
  - apply (proj1 (proj2 lifecycles_side_by_side_or_in_turn) Scenarios.taking_turns
             (started_by (snd (exec (Part001.launchAll 3 Scenarios.sampleIp
                                       [Scenarios.nodeA; Scenarios.nodeB])
                                 (boot Scenarios.env_A_down))))
             1%nat 2%nat "B" (Some "hwB") Scenarios.sampleIp "secret"
             (Scenarios.okResponse Scenarios.pong) (Scenarios.okResponse Scenarios.pong)
             (Scenarios.okResponse Scenarios.pong)
             Scenarios.pong Scenarios.pong Scenarios.pong (JStr "ok"));
      reflexivity.
  - apply (proj2 (proj2 (proj2 lifecycles_side_by_side_or_in_turn)) 6%nat Scenarios.sampleIp
             Scenarios.nodeA [Scenarios.nodeB] (boot Scenarios.env_A_down) "secret").
    + reflexivity.
    + reflexivity.
    + intros j. cbn. discriminate.
Defined.

(** C2 as stated fails on part_000: with node A's registration refused
    twice before it succeeds, node B's first request is sent 2000 ms later
    than with no refusal; B is held back by A's retries. *)
Lemma later_node_is_delayed :
  fst (exec (Part000.forEachId 5 Scenarios.sampleIp [Scenarios.nodeA; Scenarios.nodeB])
         (boot Scenarios.env_register_refused_twice)) = Returned tt /\
  waited_before (registerUrl "B")
    (history (snd (exec (Part000.forEachId 5 Scenarios.sampleIp
                           [Scenarios.nodeA; Scenarios.nodeB])
                     (boot Scenarios.env_register_refused_twice)))) = 2000 /\
  waited_before (registerUrl "B")
    (history (snd (exec (Part000.forEachId 5 Scenarios.sampleIp
                           [Scenarios.nodeA; Scenarios.nodeB])
                     (boot Scenarios.env_up)))) = 0.
Proof.
  repeat split; reflexivity.
Qed.

End LoopFacts.

(* ================================================================== *)
(** * What tasks and their callbacks are able to do, for good           *)
(* ================================================================== *)

Module ConfinedFacts.
Import RetryFacts.

Section General.

Variable allowed : string -> Settled string -> Prop.
Variable pass : Event -> Prop.

Lemma Confined_bind {A B : Type} (p : Async A) (f : A -> Async B) :
  Confined allowed pass p -> (forall a, Confined allowed pass (f a)) ->
  Confined allowed pass (bind p f).
Proof.
  intros Hp. revert B f.
  induction Hp; intros B f Hf; cbn [bind]; try (constructor; auto); auto.
Qed.

Lemma Confined_try_catch {A : Type} (p : Async A) (h : JsError -> Async A) :
  Confined allowed pass p -> (forall e, Confined allowed pass (h e)) ->
  Confined allowed pass (try_catch p h).
Proof.
  intros Hp. revert h.
  induction Hp; intros h Hh; cbn [try_catch]; try (constructor; auto); auto.
Qed.

Lemma Confined_await {X : Type} (r : Settled X) : Confined allowed pass (await r).
Proof. destruct r; constructor. Qed.

Lemma Confined_get_prop (v : JsVal) (key : string) : Confined allowed pass (get_prop v key).
Proof. destruct v; constructor. Qed.






(** A confined task run to its end. *)
Lemma exec_confined {A : Type} (p : Async A) :
  Confined allowed pass p ->
  forall w,
    (forall path n, allowed path (file_reply (env w) path n)) ->
    forall ev, In ev (trace (snd (exec p w))) -> In ev (trace w) \/ pass ev.
Proof.
  intros Hp.
  induction Hp as [A a | A e | A | A url o k Hok Hk IH | A path k Hok Hk IH
                  | A q k Hok Hk IH | A s t args k Hok Hk IH | A ms k Hok Hk IH
                  | A cb ms k Hok Hcb IHcb Hk IH | A task k Hok Htask IHtask Hk IH
                  | A k Hok Hk IH];
    intros w Hfiles ev Hin; cbn [exec snd] in Hin; auto;
    (apply IH in Hin; [| try apply Hfiles; try exact Hfiles ..]);
    cbn [record trace] in Hin; destruct Hin as [[<- | Hin] | Hpass]; auto.
Qed.

Lemma exec_confined_timers {A : Type} (p : Async A) :
  Confined allowed pass p ->
  (forall ms, ~ pass (EvSetInterval ms)) ->
  forall w,
    (forall path n, allowed path (file_reply (env w) path n)) ->
    timers (snd (exec p w)) = timers w.
Proof.
  intros Hp Hno.
  induction Hp as [A a | A e | A | A url o k Hok Hk IH | A path k Hok Hk IH
                  | A q k Hok Hk IH | A s t args k Hok Hk IH | A ms k Hok Hk IH
                  | A cb ms k Hok Hcb IHcb Hk IH | A task k Hok Htask IHtask Hk IH
                  | A k Hok Hk IH];
    intros w Hfiles; cbn [exec snd]; auto;
    try (exfalso; apply (Hno ms Hok));
    rewrite IH; auto.
Qed.

Lemma exec_confined_detached {A : Type} (p : Async A) :
  Confined allowed pass p ->
  ~ pass EvDetach ->
  forall w,
    (forall path n, allowed path (file_reply (env w) path n)) ->
    detached (snd (exec p w)) = detached w.
Proof.
  intros Hp Hno.
  induction Hp as [A a | A e | A | A url o k Hok Hk IH | A path k Hok Hk IH
                  | A q k Hok Hk IH | A s t args k Hok Hk IH | A ms k Hok Hk IH
                  | A cb ms k Hok Hcb IHcb Hk IH | A task k Hok Htask IHtask Hk IH
                  | A k Hok Hk IH];
    intros w Hfiles; cbn [exec snd]; auto;
    try (exfalso; apply (Hno Hok));
    rewrite IH; auto.
Qed.

(** ** The functions of the sources, where lines and waits pass *)

Hypothesis Hconsole : forall s t args, pass (EvConsole s t args).
Hypothesis Htimeout : forall ms, pass (EvTimeout ms).

Lemma Confined_retryFetch fuel url options inf retries delay :
  pass (EvFetch url (with_timeout options 30000)) ->
  Confined allowed pass (Part000.retryFetch fuel url options inf retries delay).
Proof.
  intros Hfetch. revert retries.
  induction fuel as [| fuel IH]; intros retries; cbn [Part000.retryFetch].
  - constructor.
  - apply Confined_try_catch.
    + unfold fetch. cbn [bind]. constructor; [exact Hfetch |].
      intros r. destruct r as [resp | e]; cbn [await bind]; [| constructor].
      destruct (negb (ok resp)); constructor.
    + intros e. destruct (negb inf && (retries =? 0)); [constructor |].
      cbn [bind console_error sleep]. constructor; [apply Hconsole |].
      constructor; [apply Htimeout |]. apply IH.
Qed.

Lemma Confined_retry_pingNode budget n tok :
  pass (EvFetch (pingUrl n) (with_timeout (authOptions tok) 30000)) ->
  Confined allowed pass (Part000.pingNode budget n tok).
Proof.
  intros Hfetch. unfold Part000.pingNode.
  apply Confined_bind; [apply Confined_retryFetch, Hfetch |].
  intros pingResponse. apply Confined_bind; [apply Confined_await |].
  intros pingData. cbn [bind console_log]. constructor; [apply Hconsole |].
  apply Confined_bind; [apply Confined_get_prop |].
  intros connected. destruct (truthy connected); repeat constructor; apply Hconsole.
Qed.

Hypothesis Hread : pass (EvReadFile "user.txt").

Lemma Confined_readAuthToken {B : Type} (f : string -> Async B) :
  (forall r content, allowed "user.txt" r -> r = Fulfilled content ->
     Confined allowed pass (f (trim content))) ->
  Confined allowed pass (bind Part001.readAuthToken f).
Proof.
  intros Hf. unfold Part001.readAuthToken, readFile. cbn [bind].
  constructor; [exact Hread |].
  intros r Hr. destruct r as [content | e]; cbn [await bind]; [| constructor].
  apply (Hf (Fulfilled content) content Hr eq_refl).
Qed.

Lemma Confined_plain_pingNode n ip :
  (forall r content, allowed "user.txt" r -> r = Fulfilled content ->
     pass (EvFetch (pingUrl n) (authOptions (trim content)))) ->
  Confined allowed pass (Part001.pingNode n ip).
Proof.
  intros Hfetch. unfold Part001.pingNode. apply Confined_readAuthToken.
  intros r content Hr Hc. cbn [bind console_log fetch].
  constructor; [apply Hconsole |]. constructor; [apply (Hfetch r content Hr Hc) |].
  intros reply. destruct reply as [response | e]; cbn [await bind]; [| constructor].
  apply Confined_bind; [apply Confined_await |].
  intros data. apply Confined_bind; [apply Confined_get_prop |].
  intros status. cbn [bind console_log]. constructor; [apply Hconsole | constructor].
Qed.

Lemma Confined_heartbeat n ip :
  (forall r content, allowed "user.txt" r -> r = Fulfilled content ->
     pass (EvFetch (pingUrl n) (authOptions (trim content)))) ->
  Confined allowed pass (Part001.heartbeat n ip).
Proof.
  intros Hfetch. unfold Part001.heartbeat. apply Confined_try_catch.
  - cbn [bind console_log]. constructor; [apply Hconsole |].
    apply Confined_bind; [apply Confined_plain_pingNode, Hfetch | intros _; constructor].
  - intros e. cbn [bind console_error]. constructor; [apply Hconsole | constructor].
Qed.

End General.

(** ** One token and one address *)

Section OneToken.

Variable tok : string.
Variable ip : JsVal.
















End OneToken.



(** part_001: [runAll] calls [fetchIpAddress] once and starts one
    [processNode] for every entry that was read, all with what it
    returned. *)
Lemma plain_runAll_launches fuel w data ip w1 :
  file_reply (env w) "id.txt" (reads_of "id.txt" (trace w)) = Fulfilled data ->
  exec (Part001.fetchIpAddress fuel) (record (EvReadFile "id.txt") w) = (Returned ip, w1) ->
  exec (Part001.runAll fuel) w =
  (Returned tt,
   mkWorld (env w1) (repeat EvDetach (List.length (plain_entries data)) ++ trace w1)
     (timers w1)
     (detached w1 ++
      map (fun e => Part001.processNode fuel (nodeId e) (hardwareId e) ip)
        (plain_entries data))).
Proof.
  intros Hfile Hip. unfold Part001.runAll, Part001.readNodeAndHardwareIds, readFile.
  rewrite exec_try_catch. cbn [bind exec]. rewrite Hfile. cbn [await bind exec].
  rewrite exec_bind, Hip, LoopFacts.launchAll_launches. reflexivity.
Qed.




End ConfinedFacts.

(* ================================================================== *)
(** * Entries without a node id or a hardware id                        *)
(* ================================================================== *)

Module EntryFacts.
Import RetryFacts LifecycleFacts.

(** part_001: what is read from id.txt. *)
Lemma plain_reads_entries w data :
  file_reply (env w) "id.txt" (reads_of "id.txt" (trace w)) = Fulfilled data ->
  exec Part001.readNodeAndHardwareIds w =
  (Returned (plain_entries data), record (EvReadFile "id.txt") w).
Proof.
  intros Hfile. unfold Part001.readNodeAndHardwareIds, readFile. cbn [bind exec].
  rewrite Hfile. reflexivity.
Qed.

(** part_001: the lines that are dropped are the empty ones. *)
Lemma plain_entries_lines data e :
  In e (plain_entries data) <->
  exists line,
    In line (split newline (trim data)) /\ line <> EmptyString /\ e = parse_entry line.
Proof.
  unfold plain_entries. rewrite in_map_iff. split.
  - intros (line & <- & Hin). apply filter_In in Hin. destruct Hin as (Hin & Hne).
    exists line. repeat split; auto. intros ->. discriminate.
  - intros (line & Hin & Hne & ->). exists line. split; [reflexivity |].
    apply filter_In. split; [exact Hin |]. destruct line; [contradiction | reflexivity].
Qed.

(** C8, as the code has it. In part_000 and in bless.js an entry whose
    node id or hardware id is missing (a line without a colon, a line that
    starts with a colon, a line that ends at its colon) gets one
    [console.error] line and nothing else: no file read, no request, no
    lifecycle; the loop goes on with the entries after it as it would have
    without it. part_001 has no such check: [readNodeAndHardwareIds] drops
    the empty lines, without a word, and keeps every other line, and
    [runAll] starts [processNode] for every entry it is given and writes no
    line for any of them. *)
Theorem invalid_entry_is_skipped :
  (forall line, has_char ":" line = false -> invalid_entry (parse_entry line) = true) /\
  (forall rest, invalid_entry (parse_entry (String ":" rest)) = true) /\
  (forall n, has_char ":" n = false -> invalid_entry (parse_entry (n ++ ":")) = true) /\
  (forall fuel ip before e after w w1,
     invalid_entry e = true ->
     exec (Part000.forEachId fuel ip before) w = (Returned tt, w1) ->
     exec (Part000.forEachId fuel ip (before ++ e :: after)) w =
     exec (Part000.forEachId fuel ip after) (flagged e w1)) /\
  (forall ip before e after w w1,
     invalid_entry e = true ->
     exec (Bless.forEachId ip before) w = (Returned tt, w1) ->
     exec (Bless.forEachId ip (before ++ e :: after)) w =
     exec (Bless.forEachId ip after) (flagged e w1)) /\
  (forall w data,
     file_reply (env w) "id.txt" (reads_of "id.txt" (trace w)) = Fulfilled data ->
     exec Part001.readNodeAndHardwareIds w =
     (Returned (plain_entries data), record (EvReadFile "id.txt") w)) /\
  (forall data e,
     In e (plain_entries data) <->
     exists line,
       In line (split newline (trim data)) /\ line <> EmptyString /\ e = parse_entry line) /\
  (forall fuel ip ids w,
     exec (Part001.launchAll fuel ip ids) w =
     (Returned tt,
      mkWorld (env w) (repeat EvDetach (List.length ids) ++ trace w) (timers w)
        (detached w ++
         map (fun e => Part001.processNode fuel (nodeId e) (hardwareId e) ip) ids))).
Proof.
  split; [| split; [| split; [| split; [| split; [| split; [| split]]]]]].
  - intros line H. apply (line_without_colon line H).
  - apply line_without_node.
  - apply line_without_hardware.
  - intros fuel ip before e after w w1 Hbad Hrun.
    rewrite forEachId_app, Hrun. apply forEachId_skips. exact Hbad.
  - intros ip before e after w w1 Hbad Hrun.
    rewrite bless_forEachId_app, Hrun. apply bless_forEachId_skips. exact Hbad.
  - apply plain_reads_entries.
  - apply plain_entries_lines.
  - apply LoopFacts.launchAll_launches.
Qed.

Lemma invalid_entry_is_skipped_witness :
  invalid_entry (parse_entry "nocolon") = true /\
  invalid_entry (parse_entry "node7:") = true /\
  exec (Part000.forEachId 5 Scenarios.sampleIp
          ([Scenarios.nodeA] ++ mkEntry "nocolon" None :: [Scenarios.nodeB]))
    (boot Scenarios.env_up) =
  exec (Part000.forEachId 5 Scenarios.sampleIp [Scenarios.nodeB])
    (flagged (mkEntry "nocolon" None)
       (snd (exec (Part000.forEachId 5 Scenarios.sampleIp [Scenarios.nodeA])
               (boot Scenarios.env_up)))) /\
  exec (Bless.forEachId Scenarios.sampleIp
          ([Scenarios.nodeA] ++ mkEntry "nocolon" None :: [Scenarios.nodeB]))
    (boot Scenarios.env_up) =
  exec (Bless.forEachId Scenarios.sampleIp [Scenarios.nodeB])
    (flagged (mkEntry "nocolon" None)
       (snd (exec (Bless.forEachId Scenarios.sampleIp [Scenarios.nodeA])
               (boot Scenarios.env_up)))) /\
  exec Part001.readNodeAndHardwareIds (boot FiringScenarios.env_one_line_without_colon) =
  (Returned (plain_entries ("A:hwA" ++ String newline ("nocolon" ++ String newline "B:hwB"))),
   record (EvReadFile "id.txt") (boot FiringScenarios.env_one_line_without_colon)).
Proof.
  split; [| split; [| split; [| split]]].
  - apply (proj1 invalid_entry_is_skipped "nocolon"). reflexivity.
  - apply (proj1 (proj2 (proj2 invalid_entry_is_skipped)) "node7"). reflexivity.
  - apply (proj1 (proj2 (proj2 (proj2 invalid_entry_is_skipped))) 5%nat Scenarios.sampleIp
             [Scenarios.nodeA] (mkEntry "nocolon" None) [Scenarios.nodeB]
             (boot Scenarios.env_up)); reflexivity.
  - apply (proj1 (proj2 (proj2 (proj2 (proj2 invalid_entry_is_skipped)))) Scenarios.sampleIp
             [Scenarios.nodeA] (mkEntry "nocolon" None) [Scenarios.nodeB]
             (boot Scenarios.env_up)); reflexivity.
  - apply (proj1 (proj2 (proj2 (proj2 (proj2 (proj2 invalid_entry_is_skipped)))))
             (boot FiringScenarios.env_one_line_without_colon)).
    reflexivity.
Defined.

(** C8 as stated fails on part_001: id.txt holds a line without a colon
    between two good lines; [runAll] starts a lifecycle for it like for the
    others and writes nothing to standard error, and that lifecycle sends a
    registration with no hardware id. *)
Lemma part001_launches_invalid_entry :
  invalid_entry (parse_entry "nocolon") = true /\
  fst (exec (Part001.runAll 3) (boot FiringScenarios.env_one_line_without_colon))
    = Returned tt /\
  detached (snd (exec (Part001.runAll 3) (boot FiringScenarios.env_one_line_without_colon)))
    = [Part001.processNode 3 "A" (Some "hwA") (JStr "127.0.0.1");
       Part001.processNode 3 "nocolon" None (JStr "127.0.0.1");
       Part001.processNode 3 "B" (Some "hwB") (JStr "127.0.0.1")] /\
  error_lines
    (trace (snd (exec (Part001.runAll 3) (boot FiringScenarios.env_one_line_without_colon))))
    = 0%nat /\
  In (EvFetch (registerUrl "nocolon")
        (registerOptions "secret" (JStr "127.0.0.1") JUndefined))
     (trace (snd (exec (Part001.processNode 3 "nocolon" None (JStr "127.0.0.1"))
                    (snd (exec (Part001.runAll 3)
                            (boot FiringScenarios.env_one_line_without_colon)))))).
Proof.
  split; [reflexivity |]. split; [reflexivity |]. split; [reflexivity |].
  split; [reflexivity |]. vm_compute. tauto.
Qed.

End EntryFacts.

(* ================================================================== *)
(** * More about [retryFetch]                                           *)
(* ================================================================== *)

Module RetryMore.
Import Part000 RetryFacts.

Lemma error_lines_after_retry url options delay e w :
  error_lines (trace (after_retry url options delay e w)) = S (error_lines (trace w)).
Proof.
  unfold after_retry, error_lines. cbn [record trace]. rewrite !count_cons. reflexivity.
Qed.

(** X1. Whatever the flag, the counter and the replies: [retryFetch] writes
    one error line per wait, every wait is of [delay] ms, and a call that is
    over (by a response or by an error) has sent exactly one request more
    than it has waited. *)
Theorem retryFetch_logs_every_retry (fuel : nat) :
  forall url options inf retries delay w,
  exists k,
    error_lines (trace (snd (exec (retryFetch fuel url options inf retries delay) w)))
      = (error_lines (trace w) + k)%nat /\
    count any_wait (trace (snd (exec (retryFetch fuel url options inf retries delay) w)))
      = (count any_wait (trace w) + k)%nat /\
    waits delay (trace (snd (exec (retryFetch fuel url options inf retries delay) w)))
      = (waits delay (trace w) + k)%nat /\
    fetches (trace (snd (exec (retryFetch fuel url options inf retries delay) w)))
      = (fetches (trace w) + k +
         if finished (fst (exec (retryFetch fuel url options inf retries delay) w))
         then 1 else 0)%nat.
Proof.
  induction fuel as [| fuel IH]; intros url options inf retries delay w.
  - exists 0%nat. cbn. repeat split; lia.
  - destruct (failure (next_reply url w)) as [e0 |] eqn:He.
    + rewrite (retry_step_fail fuel url options inf retries delay w _ He).
      destruct (negb inf && (retries =? 0)).
      * exists 0%nat. cbn [fst snd finished]. rewrite fetches_record_fetch.
        unfold error_lines, waits. cbn [record trace]. rewrite !count_cons.
        cbn [is_stderr any_wait is_timeout]. repeat split; lia.
      * destruct (IH url options inf (if inf then retries else retries - 1) delay
                    (after_retry url options delay e0 w)) as (k & H1 & H2 & H3 & H4).
        exists (S k).
        rewrite error_lines_after_retry in H1. rewrite any_wait_after_retry in H2.
        rewrite waits_after_retry in H3. rewrite fetches_after_retry in H4.
        rewrite H1, H2, H3, H4. repeat split; lia.
    + destruct (retry_step_ok fuel url options inf retries delay w He)
        as (resp & _ & _ & Hrun).
      rewrite Hrun. exists 0%nat. cbn [fst snd finished]. rewrite fetches_record_fetch.
      unfold error_lines, waits. cbn [record trace]. rewrite !count_cons.
      cbn [is_stderr any_wait is_timeout]. repeat split; lia.
Qed.

(** X2. With [infiniteRetry = false] and a counter of [retries]: when the
    first [k <= retries] attempts fail and the next one succeeds,
    [retryFetch] returns that response, after [k] waits and [k + 1]
    requests. *)
Theorem retryFetch_bounded_recovers
    (k fuel : nat) (url : string) (options : Options) (retries delay : Z) (w : World) :
  (k < fuel)%nat ->
  Z.of_nat k <= retries ->
  (forall j, (j < k)%nat ->
     failure (fetch_reply (env w) url (fetches_to url (trace w) + j)) <> None) ->
  failure (fetch_reply (env w) url (fetches_to url (trace w) + k)) = None ->
  exists response w',
    exec (retryFetch fuel url options false retries delay) w = (Returned response, w') /\
    fetch_reply (env w) url (fetches_to url (trace w) + k) = Fulfilled response /\
    fetches (trace w') = (fetches (trace w) + k + 1)%nat /\
    waits delay (trace w') = (waits delay (trace w) + k)%nat.
Proof.
  intros Hfuel Hk Hfail Hok.
  destruct (returns_first_success k fuel url options false retries delay w Hfuel
              (or_intror Hk) Hfail Hok) as (response & w' & H1 & H2 & H3 & H4 & _).
  exists response, w'. auto.
Qed.

Lemma retryFetch_bounded_recovers_witness :
  exists response w',
    exec (retryFetch 5 "https://x" no_options false default_retries default_delay)
      (boot Scenarios.env_flaky) = (Returned response, w') /\
    fetch_reply Scenarios.env_flaky "https://x" 2 = Fulfilled response /\
    fetches (trace w') = 3%nat /\
    waits default_delay (trace w') = 2%nat.
Proof.
  apply (retryFetch_bounded_recovers 2 5 "https://x" no_options default_retries
           default_delay (boot Scenarios.env_flaky)).
  - lia.
  - unfold default_retries. lia.
  - intros j Hj. destruct j as [| [| j]]; cbn; [discriminate | discriminate | lia].
  - reflexivity.
Defined.

Lemma negative_never_raises fuel :
  forall url options retries delay w e,
    retries < 0 ->
    fst (exec (retryFetch fuel url options false retries delay) w) <> Raised e.
Proof.
  induction fuel as [| fuel IH]; intros url options retries delay w e Hneg.
  - cbn. discriminate.
  - destruct (failure (next_reply url w)) as [e0 |] eqn:He.
    + rewrite (retry_step_fail fuel url options false retries delay w _ He).
      replace (negb false && (retries =? 0)) with false
        by (symmetry; apply andb_false_intro2, Z.eqb_neq; lia).
      apply IH. lia.
    + destruct (retry_step_ok fuel url options false retries delay w He)
        as (resp & _ & _ & Hrun).
      rewrite Hrun. cbn. discriminate.
Qed.

Lemma negative_keeps_trying fuel :
  forall url options retries delay w,
    retries < 0 ->
    (forall j, failure (fetch_reply (env w) url (fetches_to url (trace w) + j)) <> None) ->
    exists w',
      exec (retryFetch fuel url options false retries delay) w = (Running, w') /\
      fetches (trace w') = (fetches (trace w) + fuel)%nat.
Proof.
  induction fuel as [| fuel IH]; intros url options retries delay w Hneg Hfail.
  - exists w. cbn. split; [reflexivity | lia].
  - pose proof (Hfail 0%nat) as H0. rewrite Nat.add_0_r in H0.
    destruct (failure (fetch_reply (env w) url (fetches_to url (trace w)))) as [e0 |] eqn:He;
      [| congruence].
    rewrite (retry_step_fail fuel url options false retries delay w _ He).
    replace (negb false && (retries =? 0)) with false
      by (symmetry; apply andb_false_intro2, Z.eqb_neq; lia).
    destruct (IH url options (retries - 1) delay (after_retry url options delay e0 w))
      as (w' & Hrun & Hfetches).
    + lia.
    + intros j. rewrite fetches_to_after_retry, env_after_retry.
      replace (S (fetches_to url (trace w)) + j)%nat
        with (fetches_to url (trace w) + S j)%nat by lia.
      apply Hfail.
    + exists w'. rewrite Hrun. split; [reflexivity |].
      rewrite fetches_after_retry in Hfetches. lia.
Qed.

(** X3. A counter below zero never meets the [retries === 0] test: with
    [infiniteRetry = false] and [retries < 0], [retryFetch] never throws,
    and when every attempt fails it is still retrying after any number of
    rounds, as if [infiniteRetry] were set. *)
Theorem retryFetch_negative_counter_never_gives_up
    (url : string) (options : Options) (retries delay : Z) (w : World) :
  retries < 0 ->
  (forall fuel e,
     fst (exec (retryFetch fuel url options false retries delay) w) <> Raised e) /\
  ((forall j, failure (fetch_reply (env w) url (fetches_to url (trace w) + j)) <> None) ->
   forall fuel, exists w',
     exec (retryFetch fuel url options false retries delay) w = (Running, w') /\
     fetches (trace w') = (fetches (trace w) + fuel)%nat).
Proof.
  intros Hneg. split.
  - intros fuel e. apply negative_never_raises. exact Hneg.
  - intros Hfail fuel. apply negative_keeps_trying; assumption.
Qed.

Lemma retryFetch_negative_counter_never_gives_up_witness :
  exists w',
    exec (retryFetch 9 "https://x" no_options false (-1) default_delay)
      (boot Scenarios.env_down) = (Running, w') /\
    fetches (trace w') = 9%nat.
Proof.
  apply (proj2 (retryFetch_negative_counter_never_gives_up "https://x" no_options (-1)
                  default_delay (boot Scenarios.env_down) ltac:(lia))).
  intros j. cbn. discriminate.
Defined.

(** X4. Every request that [retryFetch] sends goes to the given URL with
    the given options and a timeout of 30000 ms; method, headers and body
    are passed on untouched, and no other URL is ever contacted. *)
Theorem retryFetch_sends_one_request_shape
    (fuel : nat) (url : string) (options : Options) (inf : bool) (retries delay : Z)
    (w : World) (u : string) (o : Options) :
  In (EvFetch u o) (trace (snd (exec (retryFetch fuel url options inf retries delay) w))) ->
  In (EvFetch u o) (trace w) \/
  (u = url /\ timeout o = Some 30000 /\ method o = method options /\
   headers o = headers options /\ body o = body options).
Proof.
  intros Hin.
  assert (Hs : Sends (fun _ _ => True)
                 (fun u' o' => u' = url /\ o' = with_timeout options 30000)
                 (retryFetch fuel url options inf retries delay))
    by (apply SharedFacts.Sends_retryFetch; split; reflexivity).
  destruct (@SharedFacts.Sends_sound _ _ _ _ Hs w (fun _ _ => I) u o Hin)
    as [Hold | [-> ->]]; [left; exact Hold | right].
  repeat split; reflexivity.
Qed.

Lemma retryFetch_sends_one_request_shape_witness :
  In (EvFetch "https://x" (with_timeout (authOptions "secret") 30000)) [] \/
  ("https://x" = "https://x" /\
   timeout (with_timeout (authOptions "secret") 30000) = Some 30000 /\
   method (with_timeout (authOptions "secret") 30000) = method (authOptions "secret") /\
   headers (with_timeout (authOptions "secret") 30000) = headers (authOptions "secret") /\
   body (with_timeout (authOptions "secret") 30000) = body (authOptions "secret")).
Proof.
  apply (retryFetch_sends_one_request_shape 5 "https://x" (authOptions "secret") true
           default_retries default_delay (boot Scenarios.env_flaky)).
  vm_compute. tauto.
Defined.

End RetryMore.

(* ================================================================== *)
(** * More about the choice of the address                              *)
(* ================================================================== *)

Module IpMore.
Import RetryFacts.

Lemma find_first {X : Type} (f : X -> bool) (l : list X) (d : X) :
  find f l = Some d ->
  exists l1 l2, l = (l1 ++ d :: l2)%list /\ f d = true /\ forall x, In x l1 -> f x = false.
Proof.
  induction l as [| a l IH]; cbn [find]; [discriminate |].
  destruct (f a) eqn:Ha.
  - intros H. injection H as <-. exists [], l. repeat split; auto. intros x [].
  - intros H. destruct (IH H) as (l1 & l2 & -> & Hd & Hl1).
    exists (a :: l1), l2. repeat split; auto.
    intros x [<- | Hx]; auto.
Qed.

Lemma firstUsable_none (ifs : list (string * list Iface)) :
  firstUsable ifs = None ->
  forall name details d, In (name, details) ifs -> In d details -> usable d = false.
Proof.
  induction ifs as [| [n ds] ifs IH]; cbn [firstUsable]; intros H name details d Hin Hd.
  - destruct Hin.
  - destruct (find usable ds) as [x |] eqn:Hfind; [discriminate |].
    destruct Hin as [Heq | Hin].
    + injection Heq as Hn Hds. subst ds. apply (find_none usable details Hfind d Hd).
    + apply (IH H name details d Hin Hd).
Qed.

Lemma firstUsable_some (ifs : list (string * list Iface)) (a : string) :
  firstUsable ifs = Some a ->
  exists before name dbefore d dafter after,
    ifs = (before ++ (name, dbefore ++ d :: dafter) :: after)%list /\
    (forall n ds x, In (n, ds) before -> In x ds -> usable x = false) /\
    (forall x, In x dbefore -> usable x = false) /\
    usable d = true /\ a = address d.
Proof.
  induction ifs as [| [n ds] ifs IH]; cbn [firstUsable]; [discriminate |].
  destruct (find usable ds) as [x |] eqn:Hfind.
  - intros H. injection H as <-.
    destruct (find_first usable ds x Hfind) as (l1 & l2 & -> & Hx & Hl1).
    exists [], n, l1, x, l2, ifs. repeat split; auto. intros n0 ds0 x0 [].
  - intros H. destruct (IH H) as (before & name & dbefore & d & dafter & after &
                                  -> & Hb & Hdb & Hd & Ha).
    exists ((n, ds) :: before), name, dbefore, d, dafter, after.
    repeat split; auto.
    intros n0 ds0 x0 [Heq | Hin] Hx0.
    + injection Heq as Hn Hds. subst ds0. apply (find_none usable ds Hfind x0 Hx0).
    + apply (Hb n0 ds0 x0 Hin Hx0).
Qed.

(** X5. [getLocalIpAddress] never fails and contacts nothing. It returns
    the address of the first entry, in the order of the two nested loops,
    that is not internal and of family IPv4; every entry before it is
    internal or not IPv4; and it returns 127.0.0.1 exactly when no entry at
    all qualifies. *)
Theorem getLocalIpAddress_picks_first_usable (w : World) :
  exists a,
    exec getLocalIpAddress w = (Returned a, record EvNetworkInterfaces w) /\
    (((forall name details d,
         In (name, details) (networkInterfaces (env w)) -> In d details ->
         usable d = false) /\ a = "127.0.0.1")
     \/
     exists before name dbefore d dafter after,
       networkInterfaces (env w) =
         (before ++ (name, dbefore ++ d :: dafter) :: after)%list /\
       (forall n ds x, In (n, ds) before -> In x ds -> usable x = false) /\
       (forall x, In x dbefore -> usable x = false) /\
       internal d = false /\ family d = "IPv4" /\ a = address d).
Proof.
  unfold getLocalIpAddress. cbn [exec].
  destruct (firstUsable (networkInterfaces (env w))) as [a |] eqn:Hfirst.
  - exists a. split; [reflexivity |]. right.
    destruct (firstUsable_some _ a Hfirst)
      as (before & name & dbefore & d & dafter & after & Heq & Hb & Hdb & Hd & Ha).
    exists before, name, dbefore, d, dafter, after.
    unfold usable in Hd. apply andb_true_iff in Hd. destruct Hd as [Hint Hfam].
    apply negb_true_iff in Hint. apply String.eqb_eq in Hfam.
    repeat split; auto.
  - exists "127.0.0.1". split; [reflexivity |]. left.
    split; [| reflexivity]. apply firstUsable_none. exact Hfirst.
Qed.

Lemma fetches_to_record_other url ev w :
  is_fetch_to url ev = false ->
  fetches_to url (trace (record ev w)) = fetches_to url (trace w).
Proof.
  intros H. unfold fetches_to. cbn [record trace]. rewrite count_cons, H. reflexivity.
Qed.

(** What the service branch of part_000's [fetchIpAddress] does once the
    choice is read: [k] failed requests, then the [ip] of the object that
    the service sent. *)
Lemma lookupIp_returns_field (k fuel : nat) (w : World) (resp : Response)
    (fields : list (string * JsVal)) :
  (k < fuel)%nat ->
  (forall j, (j < k)%nat ->
     failure (fetch_reply (env w) ipServiceUrl (fetches_to ipServiceUrl (trace w) + j))
     <> None) ->
  fetch_reply (env w) ipServiceUrl (fetches_to ipServiceUrl (trace w) + k) = Fulfilled resp ->
  ok resp = true ->
  json resp = Fulfilled (JObj fields) ->
  exists w',
    exec (bind (Part000.lookupIp fuel) Part000.useIp) w = (Returned (lookup "ip" fields), w') /\
    fetches (trace w') = (fetches (trace w) + k + 1)%nat /\
    waits 1000 (trace w') = (waits 1000 (trace w) + k)%nat.
Proof.
  intros Hfuel Hfail Hreply Hok Hjson.
  destruct (returns_first_success k fuel ipServiceUrl no_options true
              Part000.default_retries Part000.default_delay w Hfuel (or_introl eq_refl) Hfail)
    as (response & w1 & Hrun & Hreply' & Hfetches & Hwaits & _).
  { rewrite Hreply. cbn [failure]. rewrite Hok. reflexivity. }
  rewrite Hreply in Hreply'. injection Hreply' as <-.
  eexists. split.
  - rewrite exec_bind. unfold Part000.lookupIp. rewrite exec_bind, Hrun.
    unfold response_json. rewrite Hjson.
    cbn [await bind get_prop exec Part000.useIp console_log]. reflexivity.
  - cbn [record trace]. unfold fetches, waits in *. rewrite !count_cons.
    cbn [is_fetch is_timeout]. split; [lia | exact Hwaits].
Qed.

(** X6. In part_000, any choice other than 1 and 3 asks the address
    service, through [retryFetch] without limit: after [k] failed requests
    and one reply with a JSON object, [fetchIpAddress] returns the [ip] field
    of that object as it is, [undefined] when there is none. The value is
    not checked with [isValidIP]. *)
Theorem service_address_is_returned_unchecked
    (k fuel : nat) (w : World) (resp : Response) (fields : list (string * JsVal)) :
  trim (answer (env w) (questions (trace w))) <> "1" ->
  trim (answer (env w) (questions (trace w))) <> "3" ->
  (k <= fuel)%nat ->
  (forall j, (j < k)%nat ->
     failure (fetch_reply (env w) ipServiceUrl (fetches_to ipServiceUrl (trace w) + j))
     <> None) ->
  fetch_reply (env w) ipServiceUrl (fetches_to ipServiceUrl (trace w) + k) = Fulfilled resp ->
  ok resp = true ->
  json resp = Fulfilled (JObj fields) ->
  exists w',
    exec (Part000.fetchIpAddress (S fuel)) w = (Returned (lookup "ip" fields), w') /\
    fetches (trace w') = (fetches (trace w) + k + 1)%nat /\
    waits 1000 (trace w') = (waits 1000 (trace w) + k)%nat.
Proof.
  intros H1 H3 Hfuel Hfail Hreply Hok Hjson.
  apply String.eqb_neq in H1, H3.
  cbn [Part000.fetchIpAddress promptInput bind exec]. rewrite H1, H3.
  set (w1 := record (EvQuestion Part000.choicePrompt) w).
  destruct (String.eqb (trim (answer (env w) (questions (trace w)))) "2").
  - destruct (lookupIp_returns_field k (S fuel) w1 resp fields) as (w' & Hrun & Hf & Hw);
      auto; try lia.
    exists w'. split; [exact Hrun |]. split; [exact Hf | exact Hw].
  - cbn [bind console_error exec].
    set (w2 := record (EvConsole Stderr "Invalid choice. Defaulting to external IP service." [])
                 w1).
    destruct (lookupIp_returns_field k (S fuel) w2 resp fields) as (w' & Hrun & Hf & Hw);
      auto; try lia.
    exists w'. split; [exact Hrun |]. split; [exact Hf | exact Hw].
Qed.

Lemma service_address_is_returned_unchecked_witness :
  isValidIP "not-an-ip" = false /\
  exists w',
    exec (Part000.fetchIpAddress 3) (boot MoreScenarios.env_odd_service) =
    (Returned (lookup "ip" [("ip", JStr "not-an-ip")]), w') /\
    fetches (trace w') = 2%nat /\
    waits 1000 (trace w') = 1%nat.
Proof.
  split; [reflexivity |].
  apply (service_address_is_returned_unchecked 1 2 (boot MoreScenarios.env_odd_service)
           (Scenarios.okResponse (JObj [("ip", JStr "not-an-ip")]))
           [("ip", JStr "not-an-ip")]).
  - cbn. discriminate.
  - cbn. discriminate.
  - lia.
  - intros j Hj. destruct j; [cbn; discriminate | lia].
  - reflexivity.
  - reflexivity.
  - reflexivity.
Defined.

End IpMore.

Module ManualEntry.
Import RetryFacts.

Ltac tally :=
  unfold questions, lines, error_lines, fetches; cbn [record trace];
  rewrite ?count_cons;
  cbn [is_question is_line is_stderr is_fetch same_stream andb String.eqb Ascii.eqb
       Bool.eqb].

Lemma questions_asked (q : string) (w : World) :
  questions (trace (record (EvQuestion q) w)) = S (questions (trace w)).
Proof.
  unfold questions; cbn [record trace]; rewrite count_cons; reflexivity.
Qed.

Lemma plain_invalid_reprompts (fuel : nat) (w : World) :
  trim (answer (env w) (questions (trace w))) = "1" ->
  isValidIP (trim (answer (env w) (S (questions (trace w))))) = false ->
  exec (Part001.fetchIpAddress (S fuel)) w =
  exec (Part001.fetchIpAddress fuel) (plain_reprompted w).
Proof.
  intros Hchoice Hbad.
  cbn [Part001.fetchIpAddress promptInput bind exec]. rewrite Hchoice.
  cbn [String.eqb Ascii.eqb Bool.eqb bind exec].
  rewrite questions_asked. cbn [env record]. rewrite Hbad.
  cbn [negb bind console_log exec]. reflexivity.
Qed.

Lemma plain_valid_returns (fuel : nat) (w : World) :
  trim (answer (env w) (questions (trace w))) = "1" ->
  isValidIP (trim (answer (env w) (S (questions (trace w))))) = true ->
  exec (Part001.fetchIpAddress (S fuel)) w =
  (Returned (JStr (trim (answer (env w) (S (questions (trace w)))))),
   record (EvQuestion "Please enter your IP address: ")
     (record (EvQuestion
        "Would you like to (1) Enter your IP address manually, (2) Fetch IP from service, or (3) Use local network IP? (1/2/3): ")
        w)).
Proof.
  intros Hchoice Hgood.
  cbn [Part001.fetchIpAddress promptInput bind exec]. rewrite Hchoice.
  cbn [String.eqb Ascii.eqb Bool.eqb bind exec].
  rewrite questions_asked. cbn [env record]. rewrite Hgood.
  cbn [negb exec]. reflexivity.
Qed.

(** X7. Manual entry in part_001: when the user keeps choosing option 1,
    types [k] strings that [isValidIP] turns down and then one it accepts,
    [fetchIpAddress] returns that trimmed string after 2k+2 questions. Each
    refusal is one line on standard output, none on standard error, and no
    request is sent. *)
Theorem plain_manual_entry_settles (k : nat) : forall (fuel : nat) (w : World),
  (k < fuel)%nat ->
  (forall j, (j <= k)%nat ->
     trim (answer (env w) (questions (trace w) + 2 * j)) = "1") ->
  (forall j, (j < k)%nat ->
     isValidIP (trim (answer (env w) (questions (trace w) + 2 * j + 1))) = false) ->
  isValidIP (trim (answer (env w) (questions (trace w) + 2 * k + 1))) = true ->
  exists w',
    exec (Part001.fetchIpAddress fuel) w =
      (Returned (JStr (trim (answer (env w) (questions (trace w) + 2 * k + 1)))), w') /\
    questions (trace w') = (questions (trace w) + 2 * k + 2)%nat /\
    lines Stdout "Invalid IP address format. Please enter a valid IPv4 address." (trace w') =
      (lines Stdout "Invalid IP address format. Please enter a valid IPv4 address." (trace w)
       + k)%nat /\
    error_lines (trace w') = error_lines (trace w) /\
    fetches (trace w') = fetches (trace w).
Proof.
  induction k as [| k IH]; intros fuel w Hfuel Hchoice Hbad Hgood;
    (destruct fuel as [| fuel]; [lia |]);
    pose proof (Hchoice 0%nat ltac:(lia)) as H0;
    rewrite Nat.mul_0_r, Nat.add_0_r in H0.
  - rewrite Nat.mul_0_r, Nat.add_0_r, Nat.add_1_r in Hgood |- *.
    rewrite (plain_valid_returns fuel w H0 Hgood).
    eexists. split; [reflexivity |]. tally. repeat split; lia.
  - pose proof (Hbad 0%nat ltac:(lia)) as Hb0.
    rewrite Nat.mul_0_r, Nat.add_0_r, Nat.add_1_r in Hb0.
    rewrite (plain_invalid_reprompts fuel w H0 Hb0).
    assert (Hq : questions (trace (plain_reprompted w)) = S (S (questions (trace w))))
      by (unfold plain_reprompted; tally; lia).
    assert (Hshift : forall j d,
              (questions (trace (plain_reprompted w)) + 2 * j + d =
               questions (trace w) + 2 * S j + d)%nat) by (intros; lia).
    destruct (IH fuel (plain_reprompted w)) as (w' & Hrun & Hq' & Hl & He & Hf).
    + lia.
    + intros j Hj. pose proof (Hshift j 0%nat) as E. rewrite !Nat.add_0_r in E.
      rewrite E. apply Hchoice. lia.
    + intros j Hj. rewrite Hshift. apply Hbad. lia.
    + rewrite Hshift. exact Hgood.
    + exists w'. rewrite Hshift in Hrun. split; [exact Hrun |].
      rewrite Hq', Hl, He, Hf. unfold plain_reprompted. tally. repeat split; lia.
Qed.

Lemma plain_manual_entry_settles_witness :
  exists w',
    exec (Part001.fetchIpAddress 5) (boot MoreScenarios.env_two_typos) =
      (Returned (JStr (trim (answer (env (boot MoreScenarios.env_two_typos))
                               (questions (trace (boot MoreScenarios.env_two_typos))
                                + 2 * 2 + 1)))), w') /\
    questions (trace w') = (questions (trace (boot MoreScenarios.env_two_typos)) + 2 * 2 + 2)%nat /\
    lines Stdout "Invalid IP address format. Please enter a valid IPv4 address." (trace w') =
      (lines Stdout "Invalid IP address format. Please enter a valid IPv4 address."
         (trace (boot MoreScenarios.env_two_typos)) + 2)%nat /\
    error_lines (trace w') = error_lines (trace (boot MoreScenarios.env_two_typos)) /\
    fetches (trace w') = fetches (trace (boot MoreScenarios.env_two_typos)).
Proof.
  apply (plain_manual_entry_settles 2 5 (boot MoreScenarios.env_two_typos)).
  - lia.
  - intros j Hj. destruct j as [| [| [| j]]]; [reflexivity | reflexivity | reflexivity | lia].
  - intros j Hj. destruct j as [| [| j]]; [reflexivity | reflexivity | lia].
  - reflexivity.
Defined.

End ManualEntry.

(* ================================================================== *)
(** * What a task is able to do                                         *)
(* ================================================================== *)

Module OnlyFacts.

Create HintDb only.
#[export] Hint Constructors Only : only.

Section OnlyFacts.
Context {A : Type} (loops : bool) (ok : Event -> bool).

Lemma Only_bind {B : Type} (p : Async A) (f : A -> Async B) :
  Only loops ok p -> (forall a, Only loops ok (f a)) -> Only loops ok (bind p f).
Proof.
  intros Hp Hf. induction Hp; cbn [bind]; auto with only.
Qed.

Lemma Only_try_catch (p : Async A) (h : JsError -> Async A) :
  Only loops ok p -> (forall e, Only loops ok (h e)) -> Only loops ok (try_catch p h).
Proof.
  intros Hp Hh. induction Hp; cbn [try_catch]; auto with only.
Qed.

(** The events of a task that can only do what [ok] admits. *)
Lemma Only_trace (p : Async A) :
  Only loops ok p ->
  forall w, exists new,
    trace (snd (exec p w)) = (new ++ trace w)%list /\
    Forall (fun ev => ok ev = true) new.
Proof.
  intros Hp. induction Hp; intros w; cbn [exec];
    try (exists []; split; [reflexivity | constructor]).
  - destruct (H1 (fetch_reply (env w) url (fetches_to url (trace w)))
                 (record (EvFetch url o) w)) as (new & Ht & Hnew).
    exists (new ++ [EvFetch url o])%list. rewrite Ht, <- app_assoc. split; [reflexivity |].
    apply Forall_app; split; auto.
  - destruct (H1 (file_reply (env w) path (reads_of path (trace w)))
                 (record (EvReadFile path) w)) as (new & Ht & Hnew).
    exists (new ++ [EvReadFile path])%list. rewrite Ht, <- app_assoc. split; [reflexivity |].
    apply Forall_app; split; auto.
  - destruct (H1 (answer (env w) (questions (trace w)))
                 (record (EvQuestion q) w)) as (new & Ht & Hnew).
    exists (new ++ [EvQuestion q])%list. rewrite Ht, <- app_assoc. split; [reflexivity |].
    apply Forall_app; split; auto.
  - destruct (IHHp (record (EvConsole s t args) w)) as (new & Ht & Hnew).
    exists (new ++ [EvConsole s t args])%list. rewrite Ht, <- app_assoc.
    split; [reflexivity |]. apply Forall_app; split; auto.
  - destruct (IHHp (record (EvTimeout ms) w)) as (new & Ht & Hnew).
    exists (new ++ [EvTimeout ms])%list. rewrite Ht, <- app_assoc.
    split; [reflexivity |]. apply Forall_app; split; auto.
  - destruct (IHHp (mkWorld (env w) (EvSetInterval ms :: trace w)
                      ((ms, cb) :: timers w) (detached w))) as (new & Ht & Hnew).
    exists (new ++ [EvSetInterval ms])%list. rewrite Ht, <- app_assoc.
    split; [reflexivity |]. apply Forall_app; split; auto.
  - destruct (IHHp (mkWorld (env w) (EvDetach :: trace w) (timers w)
                      (detached w ++ [t]))) as (new & Ht & Hnew).
    exists (new ++ [EvDetach])%list. rewrite Ht, <- app_assoc.
    split; [reflexivity |]. apply Forall_app; split; auto.
  - destruct (H1 (networkInterfaces (env w)) (record EvNetworkInterfaces w))
      as (new & Ht & Hnew).
    exists (new ++ [EvNetworkInterfaces])%list. rewrite Ht, <- app_assoc.
    split; [reflexivity |]. apply Forall_app; split; auto.
Qed.

(** Events of a kind that [ok] rules out are not added. *)
Lemma Only_count (p : Async A) (f : Event -> bool) :
  Only loops ok p ->
  (forall ev, ok ev = true -> f ev = false) ->
  forall w, count f (trace (snd (exec p w))) = count f (trace w).
Proof.
  intros Hp Hf w. destruct (Only_trace p Hp w) as (new & -> & Hnew).
  rewrite count_app.
  assert (H0 : count f new = 0%nat).
  { induction Hnew as [| ev new Hev _ IH]; [reflexivity |].
    rewrite count_cons, (Hf ev Hev), IH. reflexivity. }
  rewrite H0. reflexivity.
Qed.

Lemma Only_timers (p : Async A) :
  Only loops ok p ->
  (forall ms, ok (EvSetInterval ms) = false) ->
  forall w, timers (snd (exec p w)) = timers w.
Proof.
  intros Hp Hno. induction Hp; intros w; cbn [exec snd]; auto;
    try (rewrite H1; reflexivity); try (rewrite IHHp; reflexivity).
  rewrite Hno in H; discriminate.
Qed.

Lemma Only_detached (p : Async A) :
  Only loops ok p ->
  ok EvDetach = false ->
  forall w, detached (snd (exec p w)) = detached w.
Proof.
  intros Hp Hno. induction Hp; intros w; cbn [exec snd]; auto;
    try (rewrite H1; reflexivity); try (rewrite IHHp; reflexivity).
  rewrite Hno in H; discriminate.
Qed.

(** Another admission that is at least as wide. *)
Lemma Only_wider (ok' : Event -> bool) (p : Async A) :
  (forall ev, ok ev = true -> ok' ev = true) ->
  Only loops ok p -> Only true ok' p.
Proof.
  intros Hw Hp. induction Hp; auto with only.
Qed.

End OnlyFacts.

(** A task without loops comes to an end. *)
Lemma Only_settles {A : Type} (ok : Event -> bool) (p : Async A) :
  Only false ok p -> forall w, fst (exec p w) <> Running.
Proof.
  intros Hp. induction Hp; intros w; cbn [exec fst]; auto; try discriminate.
Qed.

Lemma Only_await {A : Type} loops ok (r : Settled A) : Only loops ok (await r).
Proof. destruct r; constructor. Qed.

Lemma Only_get_prop loops ok (v : JsVal) (key : string) : Only loops ok (get_prop v key).
Proof. destruct v; constructor. Qed.

#[export] Hint Resolve Only_await Only_get_prop : only.

End OnlyFacts.

(* ================================================================== *)
(** * More about the lifecycle of a node                                *)
(* ================================================================== *)

Module LifecycleMore.
Import RetryFacts OnlyFacts.

Ltac only_step :=
  first
    [ apply Only_await
    | apply Only_get_prop
    | apply Only_bind
    | apply Only_try_catch
    | apply Only_Ret | apply Only_Throw
    | apply Only_Fetch | apply Only_ReadFile | apply Only_Question
    | apply Only_Console | apply Only_Timeout | apply Only_NetworkInterfaces
    | reflexivity
    | match goal with |- Only _ _ (if ?b then _ else _) => destruct b end
    | intro ].

Ltac only_all := repeat only_step.

(** If the text of a line is [t1], it is not the different text [t2]. *)
Lemma other_text (t t1 t2 : string) :
  String.eqb t t1 = true -> String.eqb t1 t2 = false -> String.eqb t t2 = false.
Proof.
  intros H1 H2. apply String.eqb_eq in H1. subst t. exact H2.
Qed.

(* ------------------------------------------------------------------ *)
(** ** part_001                                                         *)
(* ------------------------------------------------------------------ *)

Lemma Only_readAuthToken : Only false plain_attempt_event Part001.readAuthToken.
Proof. unfold Part001.readAuthToken, readFile. only_all. Qed.

Lemma Only_registerNode n h ip :
  Only false plain_attempt_event (Part001.registerNode n h ip).
Proof.
  unfold Part001.registerNode, fetch, response_json, console_log, console_error.
  apply Only_bind; [apply Only_readAuthToken |]. only_all.
Qed.

Lemma Only_startSession n : Only false plain_attempt_event (Part001.startSession n).
Proof.
  unfold Part001.startSession, fetch, response_json, console_log.
  apply Only_bind; [apply Only_readAuthToken |]. only_all.
Qed.

Lemma Only_plain_pingNode n ip : Only false plain_attempt_event (Part001.pingNode n ip).
Proof.
  unfold Part001.pingNode, fetch, response_json, console_log.
  apply Only_bind; [apply Only_readAuthToken |]. only_all.
Qed.

(** The outcome of a stage that cannot loop and sets no interval. *)
Ltac stage HOnly :=
  rewrite exec_bind;
  match goal with
  | |- context [exec ?p ?w0] =>
      let Ht := fresh "Ht" in
      let Hs := fresh "Hs" in
      let Hd := fresh "Hd" in
      pose proof (Only_timers _ _ p HOnly ltac:(reflexivity) w0) as Ht;
      pose proof (Only_detached _ _ p HOnly ltac:(reflexivity) w0) as Hd;
      pose proof (Only_settles _ p HOnly w0) as Hs;
      destruct (exec p w0) as [[? | ? | ] ?];
      cbn [fst snd record timers detached] in Ht, Hs, Hd;
      [ | right; eexists; cbn [fst snd]; split; [reflexivity | split; congruence]
        | exfalso; apply Hs; reflexivity ]
  end.

(** An attempt of [processNode] either returns, with its interval set, or
    raises, with none set; it does not loop, and it starts no task. *)
Lemma plain_attempt_timer n h ip w :
  (fst (exec (Part001.attempt n h ip) w) = Returned tt /\
   timers (snd (exec (Part001.attempt n h ip) w)) =
     (60000, Part001.heartbeat n ip) :: timers w /\
   detached (snd (exec (Part001.attempt n h ip) w)) = detached w)
  \/
  (exists e,
     fst (exec (Part001.attempt n h ip) w) = Raised e /\
     timers (snd (exec (Part001.attempt n h ip) w)) = timers w /\
     detached (snd (exec (Part001.attempt n h ip) w)) = detached w).
Proof.
  unfold Part001.attempt. cbn [console_log bind exec].
  stage (Only_registerNode n h ip).
  cbn [console_log bind exec].
  stage (Only_startSession n).
  cbn [console_log bind exec].
  stage (Only_plain_pingNode n ip).
  left. cbn [setInterval exec fst snd timers detached].
  repeat split; congruence.
Qed.

Lemma Only_plain_attempt n h ip :
  Only false (fun ev => plain_attempt_event ev || is_interval ev)
    (Part001.attempt n h ip).
Proof.
  assert (Hw : forall (X : Type) (p : Async X),
             Only false plain_attempt_event p ->
             Only false (fun ev => plain_attempt_event ev || is_interval ev) p).
  { intros X p Hp. induction Hp; constructor; auto;
      try (rewrite H; reflexivity); discriminate. }
  unfold Part001.attempt, console_log, setInterval.
  repeat first
    [ apply Only_Console; [reflexivity |]
    | apply Only_Ret
    | apply Only_SetInterval; [reflexivity |]
    | apply Only_bind; [apply Hw; first [ apply Only_registerNode
                                        | apply Only_startSession
                                        | apply Only_plain_pingNode ] | intros ]
    | apply Only_bind; [| intros ] ].
Qed.

Lemma plain_attempt_keeps (f : Event -> bool) n h ip w :
  (forall ev, plain_attempt_event ev || is_interval ev = true -> f ev = false) ->
  count f (trace (snd (exec (Part001.attempt n h ip) w))) = count f (trace w).
Proof.
  intros Hf. apply (Only_count _ _ _ f (Only_plain_attempt n h ip) Hf).
Qed.

Lemma plain_attempt_no_restart_line ev :
  plain_attempt_event ev || is_interval ev = true ->
  is_line Stderr "Error occurred for nodeId: ${nodeId}, restarting process: ${error.message}"
    ev = false.
Proof.
  destruct ev as [| | | s t args | | | |]; cbn; try reflexivity.
  destruct s; cbn; [reflexivity |].
  rewrite orb_false_r. intros H.
  apply (other_text _ _ _ H). reflexivity.
Qed.

Lemma plain_attempt_no_wait ev :
  plain_attempt_event ev || is_interval ev = true -> any_wait ev = false.
Proof.
  destruct ev; cbn; try reflexivity. discriminate.
Qed.

(** X8. [processNode] of part_001 never ends with an error. Each failed
    attempt is answered by one line on standard error and an immediate new
    attempt, with no wait in between; the function returns only after an
    attempt that went through, which sets the one interval of the node; and
    it starts no other task. *)
Theorem processNode_never_raises (fuel : nat) :
  forall (n : string) (h : option string) (ip : JsVal) (w : World),
  exists k,
    (k <= fuel)%nat /\
    lines Stderr "Error occurred for nodeId: ${nodeId}, restarting process: ${error.message}"
      (trace (snd (exec (Part001.processNode fuel n h ip) w))) =
    (lines Stderr "Error occurred for nodeId: ${nodeId}, restarting process: ${error.message}"
       (trace w) + k)%nat /\
    count any_wait (trace (snd (exec (Part001.processNode fuel n h ip) w))) =
      count any_wait (trace w) /\
    detached (snd (exec (Part001.processNode fuel n h ip) w)) = detached w /\
    ((fst (exec (Part001.processNode fuel n h ip) w) = Returned tt /\
      timers (snd (exec (Part001.processNode fuel n h ip) w)) =
        (60000, Part001.heartbeat n ip) :: timers w)
     \/
     (fst (exec (Part001.processNode fuel n h ip) w) = Running /\
      k = fuel /\
      timers (snd (exec (Part001.processNode fuel n h ip) w)) = timers w)).
Proof.
  induction fuel as [| fuel IH]; intros n h ip w.
  - exists 0%nat. cbn [Part001.processNode exec fst snd].
    split; [lia |]. split; [lia |]. split; [reflexivity |]. split; [reflexivity |].
    right. auto.
  - pose proof (plain_attempt_keeps _ n h ip w plain_attempt_no_restart_line) as Hl.
    pose proof (plain_attempt_keeps _ n h ip w plain_attempt_no_wait) as Hw.
    destruct (plain_attempt_timer n h ip w) as [(Ho & Ht & Hd) | (e & Ho & Ht & Hd)];
      destruct (exec (Part001.attempt n h ip) w) as [o w1] eqn:Hrun;
      cbn [fst snd] in Ho, Ht, Hd, Hl, Hw; subst o.
    + exists 0%nat. rewrite (LifecycleFacts.processNode_breaks fuel n h ip w w1 Hrun).
      cbn [fst snd]. unfold lines. rewrite Hl, Hw, Nat.add_0_r.
      split; [lia |]. split; [reflexivity |]. split; [reflexivity |].
      split; [exact Hd |]. left. auto.
    + rewrite (LifecycleFacts.processNode_restarts fuel n h ip w e w1 Hrun).
      destruct (IH n h ip (reported n e w1)) as (k & Hk & Hlines & Hwaits & Hdet & Hout).
      assert (Hrl : lines Stderr
                "Error occurred for nodeId: ${nodeId}, restarting process: ${error.message}"
                (trace (reported n e w1)) =
              S (lines Stderr
                "Error occurred for nodeId: ${nodeId}, restarting process: ${error.message}"
                (trace w))).
      { unfold reported, lines. cbn [record trace]. rewrite count_cons, Hl. reflexivity. }
      assert (Hrw : count any_wait (trace (reported n e w1)) = count any_wait (trace w)).
      { unfold reported. cbn [record trace]. rewrite count_cons, Hw. reflexivity. }
      assert (Hrt : timers (reported n e w1) = timers w) by exact Ht.
      assert (Hrd : detached (reported n e w1) = detached w) by exact Hd.
      exists (S k). split; [lia |].
      rewrite Hlines, Hwaits, Hdet, Hrl, Hrw, Hrd.
      split; [lia |]. split; [reflexivity |]. split; [reflexivity |].
      destruct Hout as [(Ho & Ht') | (Ho & Hk' & Ht')]; [left | right];
        rewrite Ho, Ht', Hrt.
      * split; reflexivity.
      * split; [reflexivity |]. split; [lia | reflexivity].
Qed.

(* ------------------------------------------------------------------ *)
(** ** bless.js                                                         *)
(* ------------------------------------------------------------------ *)



Ltac reply :=
  match goal with
  | |- context [await ?r] => destruct r; cbn [await bind exec]
  end.







(* ------------------------------------------------------------------ *)
(** ** part_000                                                         *)
(* ------------------------------------------------------------------ *)

Lemma Only_retryFetch (fuel : nat) :
  forall url options inf retries,
    Only true retry_attempt_event
      (Part000.retryFetch fuel url options inf retries Part000.default_delay).
Proof.
  induction fuel as [| fuel IH]; intros url options inf retries; cbn [Part000.retryFetch].
  - constructor. reflexivity.
  - unfold fetch, console_error, sleep. apply Only_try_catch.
    + only_all.
    + intros error. destruct (negb inf && (retries =? 0)); [constructor |].
      cbn [bind]. apply Only_Console; [reflexivity |].
      apply Only_Timeout; [reflexivity |]. apply IH.
Qed.

Lemma Only_retry_pingNode fuel n tok :
  Only true retry_attempt_event (Part000.pingNode fuel n tok).
Proof.
  unfold Part000.pingNode, response_json, console_log.
  apply Only_bind; [apply Only_retryFetch |]. only_all.
Qed.

Lemma Only_retry_attempt fuel n h ip :
  Only true (fun ev => retry_attempt_event ev || is_interval ev)
    (Part000.attempt fuel n h ip).
Proof.
  assert (Hw : forall (X : Type) (p : Async X),
             Only true retry_attempt_event p ->
             Only true (fun ev => retry_attempt_event ev || is_interval ev) p).
  { intros X p Hp. induction Hp; constructor; auto; rewrite H; reflexivity. }
  unfold Part000.attempt, readFile, response_json, console_log, setInterval.
  apply Only_ReadFile; [reflexivity |]. intros r. destruct r; cbn [await bind]; [| constructor].
  apply Only_bind; [apply Hw, Only_retryFetch |]. intros regResponse.
  apply Only_bind; [apply Only_await |]. intros regData. cbn [bind].
  apply Only_Console; [reflexivity |].
  apply Only_bind; [apply Hw, Only_retryFetch |]. intros sessionResponse.
  apply Only_bind; [apply Only_await |]. intros sessionData. cbn [bind].
  apply Only_Console; [reflexivity |].
  apply Only_bind; [apply Hw, Only_retry_pingNode |]. intros _.
  apply Only_SetInterval; [reflexivity |]. constructor.
Qed.

(** The outcome of a stage that sets no interval and starts no task. *)
Ltac retry_stage :=
  rewrite exec_bind;
  match goal with
  | |- context [exec ?p ?w0] =>
      let Ht := fresh "Ht" in
      let Hd := fresh "Hd" in
      let HOnly := fresh "HOnly" in
      assert (HOnly : Only true retry_attempt_event p)
        by first [apply Only_retryFetch | apply Only_retry_pingNode];
      pose proof (Only_timers _ _ p HOnly ltac:(reflexivity) w0) as Ht;
      pose proof (Only_detached _ _ p HOnly ltac:(reflexivity) w0) as Hd;
      destruct (exec p w0) as [[? | ? | ] ?];
      cbn [fst snd record timers detached] in Ht, Hd;
      [ | split; congruence | split; congruence ]
  end.

(** An attempt of part_000 returns with its interval set; when it raises
    or is still retrying, none is set. *)
Lemma retry_attempt_timer fuel n h ip w :
  match exec (Part000.attempt fuel n h ip) w with
  | (Returned _, w1) =>
      length (timers w1) = S (length (timers w)) /\ detached w1 = detached w
  | (_, w1) => timers w1 = timers w /\ detached w1 = detached w
  end.
Proof.
  unfold Part000.attempt, readFile, response_json, console_log.
  cbn [bind exec].
  reply; [| split; reflexivity].
  retry_stage.
  reply; [| split; congruence].
  retry_stage.
  reply; [| split; congruence].
  retry_stage.
  cbn [setInterval exec timers detached length]. split; congruence.
Qed.

Lemma retry_attempt_keeps (f : Event -> bool) fuel n h ip w :
  (forall ev, retry_attempt_event ev || is_interval ev = true -> f ev = false) ->
  count f (trace (snd (exec (Part000.attempt fuel n h ip) w))) = count f (trace w).
Proof.
  intros Hf. apply (Only_count _ _ _ f (Only_retry_attempt fuel n h ip) Hf).
Qed.

Lemma retry_attempt_no_recovery_line ev :
  retry_attempt_event ev || is_interval ev = true ->
  is_line Stderr "Error processing node ${nodeId}. Retrying: ${error.message}" ev = false.
Proof.
  destruct ev as [| | | s t args | | | |]; cbn; try reflexivity.
  destruct s; cbn; [reflexivity |].
  rewrite orb_false_r. intros H.
  apply (other_text _ _ _ H). reflexivity.
Qed.

Lemma retry_attempt_no_long_wait ev :
  retry_attempt_event ev || is_interval ev = true -> is_timeout 5000 ev = false.
Proof.
  destruct ev as [| | | | ms | | |]; cbn; try reflexivity.
  rewrite orb_false_r. intros H. apply Z.eqb_eq in H. subst ms. reflexivity.
Qed.

Lemma retry_attempt_no_entry_line ev :
  retry_attempt_event ev || is_interval ev = true ->
  is_line Stderr "Invalid ID entry: nodeId=${nodeId}, hardwareId=${hardwareId}" ev = false.
Proof.
  destruct ev as [| | | s t args | | | |]; cbn; try reflexivity.
  destruct s; cbn; [reflexivity |].
  rewrite orb_false_r. intros H.
  apply (other_text _ _ _ H). reflexivity.
Qed.

(** What the inner loop of part_000 comes to. *)
Lemma lifecycle_outcome (fuel : nat) :
  forall (budget : nat) (n h : string) (ip : JsVal) (w : World),
  exists k,
    (k <= fuel)%nat /\
    lines Stderr "Error processing node ${nodeId}. Retrying: ${error.message}"
      (trace (snd (exec (Part000.lifecycle fuel budget n h ip) w))) =
    (lines Stderr "Error processing node ${nodeId}. Retrying: ${error.message}" (trace w)
     + k)%nat /\
    waits 5000 (trace (snd (exec (Part000.lifecycle fuel budget n h ip) w))) =
      (waits 5000 (trace w) + k)%nat /\
    detached (snd (exec (Part000.lifecycle fuel budget n h ip) w)) = detached w /\
    ((fst (exec (Part000.lifecycle fuel budget n h ip) w) = Returned tt /\
      length (timers (snd (exec (Part000.lifecycle fuel budget n h ip) w))) =
        S (length (timers w)))
     \/
     (fst (exec (Part000.lifecycle fuel budget n h ip) w) = Running /\
      timers (snd (exec (Part000.lifecycle fuel budget n h ip) w)) = timers w)).
Proof.
  induction fuel as [| fuel IH]; intros budget n h ip w.
  - exists 0%nat. cbn [Part000.lifecycle exec fst snd].
    split; [lia |]. split; [lia |]. split; [lia |]. split; [reflexivity |].
    right. auto.
  - pose proof (retry_attempt_keeps _ budget n h ip w retry_attempt_no_recovery_line) as Hl.
    pose proof (retry_attempt_keeps _ budget n h ip w retry_attempt_no_long_wait) as Hw.
    pose proof (retry_attempt_timer budget n h ip w) as Ht.
    destruct (exec (Part000.attempt budget n h ip) w) as [[[] | e | ] w1] eqn:Hrun;
      cbn [fst snd] in Ht, Hl, Hw; destruct Ht as (Ht & Hd).
    + exists 0%nat. rewrite (LifecycleFacts.lifecycle_breaks fuel budget n h ip w w1 Hrun).
      cbn [fst snd]. unfold lines, waits. rewrite Hl, Hw, !Nat.add_0_r.
      split; [lia |]. split; [reflexivity |]. split; [reflexivity |].
      split; [exact Hd |]. left. auto.
    + rewrite (LifecycleFacts.lifecycle_restarts fuel budget n h ip w e w1 Hrun).
      destruct (IH budget n h ip (recovered n e w1))
        as (k & Hk & Hlines & Hwaits & Hdet & Hout).
      assert (Hrl : lines Stderr "Error processing node ${nodeId}. Retrying: ${error.message}"
                (trace (recovered n e w1)) =
              S (lines Stderr "Error processing node ${nodeId}. Retrying: ${error.message}"
                (trace w))).
      { unfold recovered, lines. cbn [record trace]. rewrite !count_cons, Hl. reflexivity. }
      assert (Hrw : waits 5000 (trace (recovered n e w1)) = S (waits 5000 (trace w))).
      { unfold recovered, waits. cbn [record trace]. rewrite !count_cons, Hw. reflexivity. }
      assert (Hrt : timers (recovered n e w1) = timers w) by exact Ht.
      assert (Hrd : detached (recovered n e w1) = detached w) by exact Hd.
      exists (S k). split; [lia |].
      rewrite Hlines, Hwaits, Hdet, Hrl, Hrw, Hrd.
      split; [lia |]. split; [lia |]. split; [reflexivity |].
      destruct Hout as [(Ho & Ht') | (Ho & Ht')]; [left | right];
        rewrite Ho, Ht', Hrt; split; reflexivity.
    + exists 0%nat. cbn [Part000.lifecycle]. rewrite exec_try_catch, Hrun.
      cbn [fst snd]. unfold lines, waits. rewrite Hl, Hw, !Nat.add_0_r.
      split; [lia |]. split; [reflexivity |]. split; [reflexivity |].
      split; [exact Hd |]. right. auto.
Qed.



Lemma Only_lifecycle (fuel : nat) :
  forall budget n h ip,
    Only true lifecycle_event (Part000.lifecycle fuel budget n h ip).
Proof.
  induction fuel as [| fuel IH]; intros budget n h ip; cbn [Part000.lifecycle].
  - constructor. reflexivity.
  - apply Only_try_catch.
    + apply (Only_wider _ _ lifecycle_event _) with (2 := Only_retry_attempt budget n h ip).
      intros ev Hev. unfold lifecycle_event. rewrite Hev. reflexivity.
    + intros error. unfold console_error, sleep. cbn [bind].
      apply Only_Console; [reflexivity |]. apply Only_Timeout; [reflexivity |]. apply IH.
Qed.

Lemma lifecycle_no_entry_line ev :
  lifecycle_event ev = true ->
  is_line Stderr "Invalid ID entry: nodeId=${nodeId}, hardwareId=${hardwareId}" ev = false.
Proof.
  unfold lifecycle_event.
  destruct ev as [| | | s t args | | | |]; cbn; try reflexivity.
  destruct s; cbn; [reflexivity |].
  rewrite !orb_false_r. intros H. apply orb_true_iff in H. destruct H as [H | H].
  - apply (other_text _ _ _ H). reflexivity.
  - apply (other_text _ _ _ H). reflexivity.
Qed.

(** X11. The loop of part_000 over the entries never ends with an error:
    a failure for one node never stops the run. An entry ends with its
    interval set or, when it is invalid, with one line on standard error;
    once the loop has returned, every entry ended in one of the two ways. *)
Theorem retry_loop_never_raises (fuel : nat) (ip : JsVal) (ids : list Entry) :
  forall w : World,
    (forall e, fst (exec (Part000.forEachId fuel ip ids) w) <> Raised e) /\
    (length (timers (snd (exec (Part000.forEachId fuel ip ids) w))) +
     lines Stderr "Invalid ID entry: nodeId=${nodeId}, hardwareId=${hardwareId}"
       (trace (snd (exec (Part000.forEachId fuel ip ids) w))) <=
     length (timers w) +
     lines Stderr "Invalid ID entry: nodeId=${nodeId}, hardwareId=${hardwareId}" (trace w) +
     length ids)%nat /\
    (fst (exec (Part000.forEachId fuel ip ids) w) = Returned tt ->
     (length (timers (snd (exec (Part000.forEachId fuel ip ids) w))) +
      lines Stderr "Invalid ID entry: nodeId=${nodeId}, hardwareId=${hardwareId}"
        (trace (snd (exec (Part000.forEachId fuel ip ids) w))) =
      length (timers w) +
      lines Stderr "Invalid ID entry: nodeId=${nodeId}, hardwareId=${hardwareId}" (trace w) +
      length ids)%nat) /\
    detached (snd (exec (Part000.forEachId fuel ip ids) w)) = detached w.
Proof.
  induction ids as [| e rest IH]; intros w.
  - cbn [Part000.forEachId exec fst snd length].
    split; [discriminate |]. split; [lia |]. split; [intros _; lia | reflexivity].
  - destruct (invalid_entry e) eqn:Hinv.
    + rewrite (LifecycleFacts.forEachId_skips fuel ip e rest w Hinv).
      destruct (IH (flagged e w)) as (Ho & Hle & Heq & Hd).
      assert (Hfl : lines Stderr "Invalid ID entry: nodeId=${nodeId}, hardwareId=${hardwareId}"
                      (trace (flagged e w)) =
                    S (lines Stderr
                         "Invalid ID entry: nodeId=${nodeId}, hardwareId=${hardwareId}"
                         (trace w))).
      { unfold flagged, lines. cbn [record trace]. rewrite count_cons. reflexivity. }
      assert (Hft : timers (flagged e w) = timers w) by reflexivity.
      rewrite Hfl, Hft in Hle, Heq. cbn [length].
      split; [exact Ho |]. split; [lia |]. split; [| exact Hd].
      intros Hret. specialize (Heq Hret). lia.
    + rewrite (LoopFacts.forEachId_awaits fuel ip e rest w Hinv).
      destruct (lifecycle_outcome fuel fuel (nodeId e) (show (hardwareId e)) ip w)
        as (k & _ & _ & _ & Hdet & Hout).
      pose proof (Only_count _ _ _ _ (Only_lifecycle fuel fuel (nodeId e)
                    (show (hardwareId e)) ip) lifecycle_no_entry_line w) as Hl.
      destruct (exec (Part000.lifecycle fuel fuel (nodeId e) (show (hardwareId e)) ip) w)
        as [o w1]; cbn [fst snd] in Hdet, Hout, Hl.
      destruct Hout as [(-> & Ht) | (-> & Ht)].
      * destruct (IH w1) as (Ho & Hle & Heq & Hd).
        unfold lines in *. rewrite Hl, Ht in Hle, Heq. cbn [length].
        split; [exact Ho |]. split; [lia |]. split; [| congruence].
        intros Hret. specialize (Heq Hret). lia.
      * cbn [fst snd length]. unfold lines. rewrite Hl, Ht.
        split; [discriminate |]. split; [lia |]. split; [discriminate | exact Hdet].
Qed.

Lemma retry_loop_never_raises_witness :
  fst (exec (Part000.forEachId 3 Scenarios.sampleIp
               [Scenarios.nodeA; mkEntry "nocolon" None; Scenarios.nodeB])
         (boot Scenarios.env_up)) = Returned tt /\
  (length (timers (snd (exec (Part000.forEachId 3 Scenarios.sampleIp
                              [Scenarios.nodeA; mkEntry "nocolon" None; Scenarios.nodeB])
                        (boot Scenarios.env_up)))) +
   lines Stderr "Invalid ID entry: nodeId=${nodeId}, hardwareId=${hardwareId}"
     (trace (snd (exec (Part000.forEachId 3 Scenarios.sampleIp
                          [Scenarios.nodeA; mkEntry "nocolon" None; Scenarios.nodeB])
                    (boot Scenarios.env_up)))) =
   length (timers (boot Scenarios.env_up)) +
   lines Stderr "Invalid ID entry: nodeId=${nodeId}, hardwareId=${hardwareId}"
     (trace (boot Scenarios.env_up)) +
   length [Scenarios.nodeA; mkEntry "nocolon" None; Scenarios.nodeB])%nat.
Proof.
  split; [reflexivity |].
  apply (proj1 (proj2 (proj2 (retry_loop_never_raises 3 Scenarios.sampleIp
                                [Scenarios.nodeA; mkEntry "nocolon" None; Scenarios.nodeB]
                                (boot Scenarios.env_up))))).
  reflexivity.
Defined.

(* ------------------------------------------------------------------ *)
(** ** [runAll] of part_001                                             *)
(* ------------------------------------------------------------------ *)

Lemma Only_plain_lookupIp announce : Only true asking_event (Part001.lookupIp announce).
Proof.
  unfold Part001.lookupIp, fetch, response_json, console_log. only_all.
Qed.

Lemma Only_plain_fetchIpAddress (fuel : nat) :
  Only true asking_event (Part001.fetchIpAddress fuel).
Proof.
  induction fuel as [| fuel IH]; cbn [Part001.fetchIpAddress].
  - constructor. reflexivity.
  - unfold promptInput, getLocalIpAddress, console_log. cbn [bind].
    apply Only_Question; [reflexivity |]. intros choice.
    destruct (String.eqb (trim choice) "1").
    + apply Only_Question; [reflexivity |]. intros typed.
      destruct (negb (isValidIP (trim typed))); cbn [bind].
      * apply Only_Console; [reflexivity |]. exact IH.
      * constructor.
    + destruct (String.eqb (trim choice) "2"); [apply Only_plain_lookupIp |].
      destruct (String.eqb (trim choice) "3").
      * apply Only_NetworkInterfaces; [reflexivity |]. intros interfaces.
        destruct (firstUsable interfaces); cbn [bind];
          (apply Only_Console; [reflexivity |]; constructor).
      * apply Only_Console; [reflexivity |]. apply Only_plain_lookupIp.
Qed.

Lemma asking_no_stderr ev : asking_event ev = true -> is_stderr ev = false.
Proof.
  destruct ev as [| | | s t args | | | |]; cbn; try reflexivity.
  destruct s; [reflexivity | discriminate].
Qed.

(** X12. [runAll] of part_001 never ends with an error and sets no
    interval itself. Either it starts one [processNode] per entry of id.txt,
    in order and with one address, and writes nothing to standard error; or
    the read of id.txt or the choice of the address failed, and then it
    starts nothing and writes one line to standard error; or the question
    for the address is still open, and nothing was started. *)
Theorem plain_runAll_starts_all_or_nothing (fuel : nat) (w : World) :
  (forall e, fst (exec (Part001.runAll fuel) w) <> Raised e) /\
  timers (snd (exec (Part001.runAll fuel) w)) = timers w /\
  ((fst (exec (Part001.runAll fuel) w) = Returned tt /\
    error_lines (trace (snd (exec (Part001.runAll fuel) w))) = error_lines (trace w) /\
    exists data ip,
      file_reply (env w) "id.txt" (reads_of "id.txt" (trace w)) = Fulfilled data /\
      detached (snd (exec (Part001.runAll fuel) w)) =
        (detached w ++
         map (fun e => Part001.processNode fuel (nodeId e) (hardwareId e) ip)
           (plain_entries data))%list)
   \/
   (fst (exec (Part001.runAll fuel) w) = Returned tt /\
    error_lines (trace (snd (exec (Part001.runAll fuel) w))) = S (error_lines (trace w)) /\
    detached (snd (exec (Part001.runAll fuel) w)) = detached w)
   \/
   (fst (exec (Part001.runAll fuel) w) = Running /\
    error_lines (trace (snd (exec (Part001.runAll fuel) w))) = error_lines (trace w) /\
    detached (snd (exec (Part001.runAll fuel) w)) = detached w)).
Proof.
  unfold Part001.runAll, Part001.readNodeAndHardwareIds, readFile.
  rewrite exec_try_catch. cbn [bind exec].
  destruct (file_reply (env w) "id.txt" (reads_of "id.txt" (trace w))) as [data | x];
    cbn [await bind exec].
  - rewrite exec_bind.
    match goal with
    | |- context [exec (Part001.fetchIpAddress fuel) ?w0] =>
        pose proof (Only_timers _ _ _ (Only_plain_fetchIpAddress fuel)
                      ltac:(reflexivity) w0) as Ht;
        pose proof (Only_detached _ _ _ (Only_plain_fetchIpAddress fuel)
                      ltac:(reflexivity) w0) as Hd;
        pose proof (Only_count _ _ _ _ (Only_plain_fetchIpAddress fuel)
                      asking_no_stderr w0) as He;
        destruct (exec (Part001.fetchIpAddress fuel) w0) as [[ip | x | ] w1]
    end; cbn [fst snd record trace timers detached] in Ht, Hd, He;
      rewrite count_cons in He; cbn [is_stderr Nat.add] in He.
    + rewrite LoopFacts.launchAll_launches. cbn [fst snd timers detached trace].
      split; [discriminate |]. split; [exact Ht |]. left.
      split; [reflexivity |]. split.
      * unfold error_lines. rewrite count_app.
        assert (H0 : forall k, count is_stderr (repeat EvDetach k) = 0%nat)
          by (induction k as [| k IHk]; [reflexivity | exact IHk]).
        rewrite H0, He. reflexivity.
      * exists data, ip. split; [reflexivity |]. rewrite Hd. reflexivity.
    + cbn [console_error exec fst snd record trace timers detached].
      split; [discriminate |]. split; [exact Ht |]. right. left.
      split; [reflexivity |]. split; [| exact Hd].
      unfold error_lines. rewrite count_cons, He. reflexivity.
    + cbn [fst snd]. split; [discriminate |]. split; [exact Ht |]. right. right.
      split; [reflexivity |]. split; [exact He | exact Hd].
  - cbn [console_error exec fst snd record trace timers detached].
    split; [discriminate |]. split; [reflexivity |]. right. left.
    split; [reflexivity |]. split; [| reflexivity].
    unfold error_lines. rewrite !count_cons. reflexivity.
Qed.

(* ------------------------------------------------------------------ *)
(** ** The callback of the interval in part_001                         *)
(* ------------------------------------------------------------------ *)


Lemma before_ping_file n w :
  file_reply (env (before_ping n w)) "user.txt" (reads_of "user.txt" (trace (before_ping n w)))
  = file_reply (env w) "user.txt" (reads_of "user.txt" (trace w)).
Proof. reflexivity. Qed.

Lemma before_ping_reply n w :
  next_reply (pingUrl n) (before_ping n w) = next_reply (pingUrl n) w.
Proof. reflexivity. Qed.

(** The heartbeat is its line and then [pingNode], whose error, if any, is
    reported and thrown again. *)
Lemma heartbeat_after_ping n ip w :
  exec (Part001.heartbeat n ip) w =
  match exec (Part001.pingNode n ip) (before_ping n w) with
  | (Returned _, w1) => (Returned tt, w1)
  | (Raised e, w1) => (Raised e, ping_reported e w1)
  | (Running, w1) => (Running, w1)
  end.
Proof.
  unfold Part001.heartbeat. rewrite exec_try_catch. cbn [console_log bind exec].
  rewrite exec_bind. fold (before_ping n w).
  destruct (exec (Part001.pingNode n ip) (before_ping n w)) as [[v | e | ] w1];
    reflexivity.
Qed.



End LifecycleMore.

(* ================================================================== *)
(** * The replies that part_001 accepts                                 *)
(* ================================================================== *)

Module ReplyFacts.
Import RetryFacts.

Section Replies.

Variable w : World.
Variable n : string.
Variable h : option string.
Variable ip : JsVal.
Variable content : string.

Hypothesis Hfile : forall k, file_reply (env w) "user.txt" k = Fulfilled content.

Lemma reads_token (X : Type) (f : string -> Async X) (w0 : World) :
  env w0 = env w ->
  exec (bind Part001.readAuthToken f) w0 =
  exec (f (trim content)) (record (EvReadFile "user.txt") w0).
Proof.
  intros He. unfold Part001.readAuthToken, readFile. cbn [bind exec].
  rewrite He, Hfile. cbn [await bind exec]. reflexivity.
Qed.

Section Accepted.

Variables r1 r2 r3 : Response.
Variables d1 d2 : JsVal.
Variable fields : list (string * JsVal).

Hypothesis Hreg : forall k, fetch_reply (env w) (registerUrl n) k = Fulfilled r1.
Hypothesis Hsess : forall k, fetch_reply (env w) (sessionUrl n) k = Fulfilled r2.
Hypothesis Hping : forall k, fetch_reply (env w) (pingUrl n) k = Fulfilled r3.
Hypothesis Hd1 : json r1 = Fulfilled d1.
Hypothesis Hd2 : json r2 = Fulfilled d2.
Hypothesis Hd3 : json r3 = Fulfilled (JObj fields).

Lemma attempt_accepts_any_status :
  fst (exec (Part001.attempt n h ip) w) = Returned tt /\
  timers (snd (exec (Part001.attempt n h ip) w)) =
    (60000, Part001.heartbeat n ip) :: timers w /\
  error_lines (trace (snd (exec (Part001.attempt n h ip) w))) = error_lines (trace w) /\
  fetches (trace (snd (exec (Part001.attempt n h ip) w))) = (fetches (trace w) + 3)%nat.
Proof.
  unfold Part001.attempt, Part001.registerNode, Part001.startSession, Part001.pingNode.
  cbn [console_log bind exec].
  rewrite exec_bind, reads_token by reflexivity.
  unfold fetch, response_json. cbn [console_log bind exec env record].
  rewrite Hreg. cbn [await bind exec try_catch]. rewrite Hd1.
  cbn [await bind exec try_catch].
  rewrite exec_bind, reads_token by reflexivity.
  cbn [console_log bind exec env record].
  rewrite Hsess. cbn [await bind exec]. rewrite Hd2. cbn [await bind exec].
  rewrite exec_bind, reads_token by reflexivity.
  cbn [console_log bind exec env record].
  rewrite Hping. cbn [await bind exec]. rewrite Hd3.
  cbn [await bind exec get_prop setInterval fst snd timers trace record].
  split; [reflexivity |]. split; [reflexivity |].
  unfold error_lines, fetches. rewrite !count_cons. cbn [is_stderr is_fetch].
  split; lia.
Qed.

End Accepted.

Section Unparsed.

Variable response : Response.
Variable parseError : JsError.

Hypothesis Hreg : fetch_reply (env w) (registerUrl n)
                    (fetches_to (registerUrl n) (trace w)) = Fulfilled response.
Hypothesis Hjson : json response = Rejected parseError.

Lemma registerNode_reaches_parse :
  exec (Part001.registerNode n h ip) w =
  exec (bind (await (text response)) (fun body =>
          bind (console_error "Failed to parse JSON. Response text:" [JStr body])
            (fun _ => Throw parseError)))
    (record (EvFetch (registerUrl n)
               (registerOptions (trim content) ip (opt_val h)))
       (record (EvConsole Stdout
                  "Registering node with IP: ${ipAddress}, Hardware ID: ${hardwareId}"
                  [ip; opt_val h])
          (record (EvReadFile "user.txt") w))).
Proof.
  unfold Part001.registerNode. rewrite reads_token by reflexivity.
  unfold fetch, response_json. cbn [console_log bind exec env record].
  unfold fetches_to at 1. cbn [record trace]. rewrite !count_cons. cbn [is_fetch_to Nat.add].
  fold (fetches_to (registerUrl n) (trace w)). rewrite Hreg.
  cbn [await bind]. rewrite exec_bind, exec_try_catch, Hjson. cbn [await exec].
  destruct (text response) as [body | e2]; cbn [await bind console_error exec]; reflexivity.
Qed.

End Unparsed.

End Replies.

(** X13. part_001 never looks at the HTTP status of a reply. When the
    three replies of an attempt carry JSON (an object, for the ping), the
    attempt goes through, the interval of the node is set and nothing is
    written to standard error, whether the replies are [ok] or not. *)
Theorem plain_attempt_ignores_http_status
    (w : World) (n : string) (h : option string) (ip : JsVal) (content : string)
    (r1 r2 r3 : Response) (d1 d2 : JsVal) (fields : list (string * JsVal)) :
  (forall k, file_reply (env w) "user.txt" k = Fulfilled content) ->
  (forall k, fetch_reply (env w) (registerUrl n) k = Fulfilled r1) ->
  (forall k, fetch_reply (env w) (sessionUrl n) k = Fulfilled r2) ->
  (forall k, fetch_reply (env w) (pingUrl n) k = Fulfilled r3) ->
  json r1 = Fulfilled d1 ->
  json r2 = Fulfilled d2 ->
  json r3 = Fulfilled (JObj fields) ->
  fst (exec (Part001.attempt n h ip) w) = Returned tt /\
  timers (snd (exec (Part001.attempt n h ip) w)) =
    (60000, Part001.heartbeat n ip) :: timers w /\
  error_lines (trace (snd (exec (Part001.attempt n h ip) w))) = error_lines (trace w) /\
  fetches (trace (snd (exec (Part001.attempt n h ip) w))) = (fetches (trace w) + 3)%nat.
Proof.
  intros. eapply attempt_accepts_any_status; eauto.
Qed.

Lemma plain_attempt_ignores_http_status_witness :
  ok MoreScenarios.serverError = false /\
  fst (exec (Part001.attempt "A" (Some "hwA") Scenarios.sampleIp)
         (boot MoreScenarios.env_server_errors)) = Returned tt /\
  timers (snd (exec (Part001.attempt "A" (Some "hwA") Scenarios.sampleIp)
                 (boot MoreScenarios.env_server_errors))) =
    (60000, Part001.heartbeat "A" Scenarios.sampleIp)
      :: timers (boot MoreScenarios.env_server_errors) /\
  error_lines (trace (snd (exec (Part001.attempt "A" (Some "hwA") Scenarios.sampleIp)
                             (boot MoreScenarios.env_server_errors)))) =
    error_lines (trace (boot MoreScenarios.env_server_errors)) /\
  fetches (trace (snd (exec (Part001.attempt "A" (Some "hwA") Scenarios.sampleIp)
                         (boot MoreScenarios.env_server_errors)))) =
    (fetches (trace (boot MoreScenarios.env_server_errors)) + 3)%nat.
Proof.
  split; [reflexivity |].
  apply (plain_attempt_ignores_http_status (boot MoreScenarios.env_server_errors)
           "A" (Some "hwA") Scenarios.sampleIp "secret"
           MoreScenarios.serverError MoreScenarios.serverError MoreScenarios.serverError
           (JObj [("error", JStr "boom")]) (JObj [("error", JStr "boom")])
           [("error", JStr "boom")]); intros; reflexivity.
Defined.

(** X14. [registerNode] of part_001 when the body of the reply is no
    JSON. The body of a reply is read once: when [json()] has failed on it,
    the [text()] of the [catch] block is rejected as well. The error of
    [text()] is then the one that [registerNode] throws, the parse error is
    lost, the line "Failed to parse JSON" is not written, and nothing else
    goes to standard error; one request has been sent. *)
Theorem registerNode_unparsed_reply
    (w : World) (n : string) (h : option string) (ip : JsVal) (content : string)
    (response : Response) (parseError readError : JsError) :
  (forall k, file_reply (env w) "user.txt" k = Fulfilled content) ->
  fetch_reply (env w) (registerUrl n) (fetches_to (registerUrl n) (trace w))
    = Fulfilled response ->
  json response = Rejected parseError ->
  text response = Rejected readError ->
  fst (exec (Part001.registerNode n h ip) w) = Raised readError /\
  error_lines (trace (snd (exec (Part001.registerNode n h ip) w))) = error_lines (trace w) /\
  fetches (trace (snd (exec (Part001.registerNode n h ip) w))) = S (fetches (trace w)) /\
  (forall body,
     In (EvConsole Stderr "Failed to parse JSON. Response text:" [JStr body])
        (trace (snd (exec (Part001.registerNode n h ip) w))) ->
     In (EvConsole Stderr "Failed to parse JSON. Response text:" [JStr body]) (trace w)).
Proof.
  intros Hfile Hreg Hjson Hread.
  rewrite (registerNode_reaches_parse w n h ip content Hfile response parseError Hreg Hjson).
  rewrite Hread. cbn [await bind exec fst snd].
  split; [reflexivity |].
  split; [unfold error_lines; cbn [record trace]; rewrite !count_cons; reflexivity |].
  split; [unfold fetches; cbn [record trace]; rewrite !count_cons; reflexivity |].
  intros body Hin. cbn [record trace] in Hin.
  destruct Hin as [Heq | [Heq | [Heq | Hin]]]; try discriminate. exact Hin.
Qed.

Lemma registerNode_unparsed_reply_witness :
  fst (exec (Part001.registerNode "A" (Some "hwA") Scenarios.sampleIp)
         (boot MoreScenarios.env_spent)) =
    Raised (mkError "TypeError" "body used already") /\
  error_lines (trace (snd (exec (Part001.registerNode "A" (Some "hwA") Scenarios.sampleIp)
                             (boot MoreScenarios.env_spent)))) =
    error_lines (trace (boot MoreScenarios.env_spent)) /\
  fetches (trace (snd (exec (Part001.registerNode "A" (Some "hwA") Scenarios.sampleIp)
                         (boot MoreScenarios.env_spent)))) =
    S (fetches (trace (boot MoreScenarios.env_spent))).
Proof.
  destruct (registerNode_unparsed_reply (boot MoreScenarios.env_spent) "A" (Some "hwA")
              Scenarios.sampleIp "secret" MoreScenarios.spent
              (mkError "SyntaxError" "Unexpected token < in JSON")
              (mkError "TypeError" "body used already")
              (fun _ => eq_refl) eq_refl eq_refl eq_refl) as (H1 & H2 & H3 & _).
  repeat split; assumption.
Defined.

End ReplyFacts.

(* ================================================================== *)
(** * Facts about [trim], [split] and [join]                            *)
(* ================================================================== *)

Module TextFacts.

Lemma trimEnd_idem (s : string) : trimEnd (trimEnd s) = trimEnd s.
Proof.
  induction s as [| a s IH]; [reflexivity |].
  cbn [trimEnd]. destruct (trimEnd s) as [| b r] eqn:E.
  - destruct (is_space a) eqn:Ha; cbn [trimEnd]; [reflexivity |]. rewrite Ha. reflexivity.
  - cbn [trimEnd] in IH |- *.
    change (match trimEnd r with
            | EmptyString => if is_space b then EmptyString else String b EmptyString
            | String c r0 => String b (String c r0)
            end) with (trimEnd (String b r)) in *.
    rewrite IH. reflexivity.
Qed.

Lemma trimEnd_keeps_head (c : ascii) (s : string) :
  is_space c = false -> exists r, trimEnd (String c s) = String c r.
Proof.
  intros Hc. cbn [trimEnd]. destruct (trimEnd s).
  - rewrite Hc. eexists; reflexivity.
  - eexists; reflexivity.
Qed.

Lemma trimStart_trim (s : string) : trimStart (trim s) = trim s.
Proof.
  unfold trim. induction s as [| c s IH]; [reflexivity |].
  cbn [trimStart]. destruct (is_space c) eqn:Hc; [exact IH |].
  destruct (trimEnd_keeps_head c s Hc) as (r & ->). cbn [trimStart]. rewrite Hc. reflexivity.
Qed.

Lemma trimEnd_trim (s : string) : trimEnd (trim s) = trim s.
Proof. unfold trim. apply trimEnd_idem. Qed.

(** Trimming twice is trimming once. *)
Lemma trim_idem (s : string) : trim (trim s) = trim s.
Proof.
  unfold trim at 1. rewrite trimStart_trim. apply trimEnd_trim.
Qed.

Lemma trimStart_shorter (s : string) :
  (String.length (trimStart s) <= String.length s)%nat.
Proof.
  induction s as [| c s IH]; cbn [trimStart String.length]; [lia |].
  destruct (is_space c); cbn [String.length]; lia.
Qed.

(** A string that trimming leaves alone does not start with white space. *)
Lemma trimmed_head (c : ascii) (r : string) :
  trim (String c r) = String c r -> is_space c = false.
Proof.
  intros H. pose proof (trimStart_trim (String c r)) as Hs. rewrite H in Hs.
  cbn [trimStart] in Hs. destruct (is_space c); [| reflexivity].
  pose proof (trimStart_shorter r) as Hl. rewrite Hs in Hl. cbn [String.length] in Hl. lia.
Qed.

Lemma has_char_trimStart (c : ascii) (s : string) :
  has_char c s = false -> has_char c (trimStart s) = false.
Proof.
  induction s as [| a s IH]; cbn [has_char trimStart]; [auto |].
  intros H. apply orb_false_iff in H. destruct H as [Ha Hs].
  destruct (is_space a); [auto |]. cbn [has_char]. rewrite Ha, Hs. reflexivity.
Qed.

Lemma has_char_trimEnd (c : ascii) (s : string) :
  has_char c s = false -> has_char c (trimEnd s) = false.
Proof.
  induction s as [| a s IH]; cbn [has_char trimEnd]; [auto |].
  intros H. apply orb_false_iff in H. destruct H as [Ha Hs].
  specialize (IH Hs). destruct (trimEnd s) as [| b r].
  - destruct (is_space a); [reflexivity |]. cbn [has_char]. rewrite Ha. reflexivity.
  - cbn [has_char] in IH |- *. rewrite Ha, IH. reflexivity.
Qed.

(** Trimming adds no character. *)
Lemma has_char_trim (c : ascii) (s : string) :
  has_char c s = false -> has_char c (trim s) = false.
Proof.
  intros H. unfold trim. apply has_char_trimEnd, has_char_trimStart, H.
Qed.

Lemma trimEnd_app_keep (x t : string) :
  trimEnd t <> EmptyString -> trimEnd (x ++ t) = x ++ trimEnd t.
Proof.
  intros Ht. induction x as [| a x IH]; [reflexivity |].
  cbn [append trimEnd]. rewrite IH.
  destruct (x ++ trimEnd t) as [| b r] eqn:E; [| reflexivity].
  destruct x; cbn [append] in E; [contradiction | discriminate].
Qed.

Lemma has_colon_nonempty (x : string) : has_char ":" x = true -> x <> EmptyString.
Proof. destruct x; cbn; [discriminate | discriminate]. Qed.

Lemma join_nonempty (x : string) (rest : list string) :
  x <> EmptyString -> Setup.join newline (x :: rest) <> EmptyString.
Proof.
  intros Hx. destruct rest; cbn [Setup.join]; [exact Hx |].
  destruct x; [contradiction | discriminate].
Qed.

Lemma trimEnd_join (l : list string) :
  (forall x, In x l -> x <> EmptyString /\ trim x = x) ->
  trimEnd (Setup.join newline l) = Setup.join newline l.
Proof.
  induction l as [| x rest IH]; intros Hl; [reflexivity |].
  destruct (Hl x (or_introl eq_refl)) as (Hx & Htx).
  destruct rest as [| y rest].
  - cbn [Setup.join]. pose proof (trimEnd_trim x) as H. rewrite Htx in H. exact H.
  - assert (Hrest : forall z, In z (y :: rest) -> z <> EmptyString /\ trim z = z)
      by (intros z Hz; apply Hl; right; exact Hz).
    specialize (IH Hrest).
    assert (Hne : Setup.join newline (y :: rest) <> EmptyString)
      by (apply join_nonempty, (proj1 (Hrest y (or_introl eq_refl)))).
    change (Setup.join newline (x :: y :: rest))
      with (x ++ String newline (Setup.join newline (y :: rest))).
    assert (Hnl : trimEnd (String newline (Setup.join newline (y :: rest))) =
                  String newline (Setup.join newline (y :: rest))).
    { cbn [trimEnd]. rewrite IH.
      destruct (Setup.join newline (y :: rest)); [contradiction | reflexivity]. }
    rewrite trimEnd_app_keep; rewrite Hnl; [reflexivity | discriminate].
Qed.

Lemma trimStart_join (l : list string) :
  (forall x, In x l -> x <> EmptyString /\ trim x = x) ->
  trimStart (Setup.join newline l) = Setup.join newline l.
Proof.
  destruct l as [| x rest]; intros Hl; [reflexivity |].
  destruct (Hl x (or_introl eq_refl)) as (Hx & Htx).
  destruct x as [| c r]; [contradiction |].
  pose proof (trimmed_head c r Htx) as Hc.
  destruct rest; cbn [Setup.join append trimStart]; rewrite Hc; reflexivity.
Qed.

Lemma trim_join (l : list string) :
  (forall x, In x l -> x <> EmptyString /\ trim x = x) ->
  trim (Setup.join newline l) = Setup.join newline l.
Proof.
  intros Hl. unfold trim. rewrite (trimStart_join l Hl). apply trimEnd_join, Hl.
Qed.

Lemma split_join (l : list string) :
  l <> [] ->
  (forall x, In x l -> has_char newline x = false) ->
  split newline (Setup.join newline l) = l.
Proof.
  induction l as [| x rest IH]; intros Hne Hl; [contradiction |].
  destruct rest as [| y rest].
  - cbn [Setup.join]. apply LifecycleFacts.split_without_sep. apply Hl. left. reflexivity.
  - change (Setup.join newline (x :: y :: rest))
      with (x ++ String newline (Setup.join newline (y :: rest))).
    rewrite LifecycleFacts.split_at_sep by (apply Hl; left; reflexivity).
    rewrite IH; [reflexivity | discriminate |].
    intros z Hz. apply Hl. right. exact Hz.
Qed.

(** The lines that were joined are the entries that are read back. *)
Lemma entries_of_joined (l : list string) :
  (forall x, In x l ->
     has_char ":" x = true /\ has_char newline x = false /\ trim x = x) ->
  plain_entries (Setup.join newline l) = map parse_entry l.
Proof.
  intros Hl. unfold plain_entries.
  rewrite trim_join
    by (intros x Hx; destruct (Hl x Hx) as (Hc & _ & Ht);
        split; [apply has_colon_nonempty, Hc | exact Ht]).
  destruct l as [| x rest]; [reflexivity |].
  rewrite split_join; [| discriminate | intros z Hz; apply (Hl z Hz)].
  f_equal. apply forallb_filter_id. apply forallb_forall. intros z Hz.
  destruct (Hl z Hz) as (Hc & _). destruct z; [discriminate | reflexivity].
Qed.

End TextFacts.

(* ================================================================== *)
(** * The interactive file setup                                        *)
(* ================================================================== *)

Module SetupFacts.
Import TextFacts.

Ltac run_script :=
  cbv beta iota delta
    [Setup.setupFiles Setup.createUserFile Setup.createIdFile
     Setup.try_catch Setup.bind Setup.or_null Setup.readFile Setup.writeFile
     Setup.promptInput Setup.console_log Setup.console_error Setup.ret Setup.throw
     Setup.show_on_screen];
  cbn [Setup.files Setup.write_error Setup.typed Setup.screen fst snd].

Lemma questions_shown_question (q : string) (t : list Event) :
  questions (EvQuestion q :: t) = S (questions t).
Proof. unfold questions. rewrite count_cons. reflexivity. Qed.

Lemma questions_shown_line (s : Stream) (text : string) (args : list JsVal)
    (t : list Event) :
  questions (EvConsole s text args :: t) = questions t.
Proof. unfold questions. rewrite count_cons. reflexivity. Qed.

Lemma error_lines_shown_question (q : string) (t : list Event) :
  error_lines (EvQuestion q :: t) = error_lines t.
Proof. unfold error_lines. rewrite count_cons. reflexivity. Qed.

Lemma error_lines_shown_log (text : string) (args : list JsVal) (t : list Event) :
  error_lines (EvConsole Stdout text args :: t) = error_lines t.
Proof. unfold error_lines. rewrite count_cons. reflexivity. Qed.

Ltac shown :=
  repeat first
    [ rewrite questions_shown_question | rewrite questions_shown_line
    | rewrite error_lines_shown_question | rewrite error_lines_shown_log ].

(** What [setupFiles] leaves behind when both files can be written. *)
Lemma setupFiles_fills_what_is_missing_aux (d : Setup.Desk) :
  Setup.write_error d "user.txt" = None ->
  Setup.write_error d "id.txt" = None ->
  exists d',
    Setup.setupFiles d = (Returned tt, d') /\
    Setup.files d' "user.txt" =
      (if Setup.wanting d "user.txt"
       then Some (trim (Setup.typed d (questions (Setup.screen d))))
       else Setup.files d "user.txt") /\
    Setup.files d' "id.txt" =
      (if Setup.wanting d "id.txt"
       then Some (trim (Setup.typed d (questions (Setup.screen d) +
                                       (if Setup.wanting d "user.txt" then 1 else 0))))
       else Setup.files d "id.txt") /\
    (forall p, p <> "user.txt" -> p <> "id.txt" -> Setup.files d' p = Setup.files d p) /\
    questions (Setup.screen d') =
      (questions (Setup.screen d) + (if Setup.wanting d "user.txt" then 1 else 0)
       + (if Setup.wanting d "id.txt" then 1 else 0))%nat /\
    error_lines (Setup.screen d') = error_lines (Setup.screen d).
Proof.
  intros Hwu Hwi. unfold Setup.wanting. run_script.
  destruct (Setup.files d "user.txt") as [u |] eqn:Hu;
    [destruct u as [| c u] |];
    (destruct (Setup.files d "id.txt") as [i |] eqn:Hi;
     [destruct i as [| c' i] |]);
    do 3 (cbn [opt_falsy str_falsy Setup.files Setup.write_error Setup.typed Setup.screen
               String.eqb Ascii.eqb Bool.eqb];
          rewrite ?Hwu, ?Hwi, ?Hu, ?Hi);
    eexists; (split; [reflexivity |]);
    cbn [Setup.files Setup.write_error Setup.typed Setup.screen String.eqb Ascii.eqb Bool.eqb];
    shown; rewrite ?trim_idem, ?Nat.add_0_r, ?Nat.add_1_r;
    (split; [first [reflexivity | assumption] |]);
    (split; [first [reflexivity | assumption] |]);
    (split; [| split; [lia | reflexivity]]);
    intros p Hp1 Hp2; apply String.eqb_neq in Hp1, Hp2; rewrite ?Hp1, ?Hp2; reflexivity.
Qed.

(** X15. [setupFiles], when both files can be written: it returns; a
    file that is there and not empty is left as it is, and nothing is asked
    for it; a file that is missing or empty is asked for with one question
    and then holds the trimmed answer, whatever that is; no other file is
    touched and nothing is written to standard error. *)
Theorem setupFiles_fills_what_is_missing (d : Setup.Desk) :
  Setup.write_error d "user.txt" = None ->
  Setup.write_error d "id.txt" = None ->
  exists d',
    Setup.setupFiles d = (Returned tt, d') /\
    Setup.files d' "user.txt" =
      (if Setup.wanting d "user.txt"
       then Some (trim (Setup.typed d (questions (Setup.screen d))))
       else Setup.files d "user.txt") /\
    Setup.files d' "id.txt" =
      (if Setup.wanting d "id.txt"
       then Some (trim (Setup.typed d (questions (Setup.screen d) +
                                       (if Setup.wanting d "user.txt" then 1 else 0))))
       else Setup.files d "id.txt") /\
    (forall p, p <> "user.txt" -> p <> "id.txt" -> Setup.files d' p = Setup.files d p) /\
    questions (Setup.screen d') =
      (questions (Setup.screen d) + (if Setup.wanting d "user.txt" then 1 else 0)
       + (if Setup.wanting d "id.txt" then 1 else 0))%nat /\
    error_lines (Setup.screen d') = error_lines (Setup.screen d).
Proof.
  exact (setupFiles_fills_what_is_missing_aux d).
Qed.


Lemma setupFiles_fills_what_is_missing_witness :
  exists d',
    Setup.setupFiles SetupScenarios.fresh = (Returned tt, d') /\
    Setup.files d' "user.txt" =
      (if Setup.wanting SetupScenarios.fresh "user.txt"
       then Some (trim (Setup.typed SetupScenarios.fresh
                          (questions (Setup.screen SetupScenarios.fresh))))
       else Setup.files SetupScenarios.fresh "user.txt") /\
    Setup.files d' "id.txt" =
      (if Setup.wanting SetupScenarios.fresh "id.txt"
       then Some (trim (Setup.typed SetupScenarios.fresh
                          (questions (Setup.screen SetupScenarios.fresh) +
                           (if Setup.wanting SetupScenarios.fresh "user.txt" then 1 else 0))))
       else Setup.files SetupScenarios.fresh "id.txt") /\
    (forall p, p <> "user.txt" -> p <> "id.txt" ->
       Setup.files d' p = Setup.files SetupScenarios.fresh p) /\
    questions (Setup.screen d') =
      (questions (Setup.screen SetupScenarios.fresh)
       + (if Setup.wanting SetupScenarios.fresh "user.txt" then 1 else 0)
       + (if Setup.wanting SetupScenarios.fresh "id.txt" then 1 else 0))%nat /\
    error_lines (Setup.screen d') = error_lines (Setup.screen SetupScenarios.fresh).
Proof.
  apply (setupFiles_fills_what_is_missing SetupScenarios.fresh); reflexivity.
Defined.

(** X16. [setupFiles] fails only when a write fails: the error it throws
    is the error of writing user.txt or id.txt, and the last thing it did
    was to report that error on standard error. A file that cannot be read
    never makes it fail. *)
Theorem setupFiles_fails_only_on_write (d d' : Setup.Desk) (e : JsError) :
  Setup.setupFiles d = (Raised e, d') ->
  (Setup.write_error d "user.txt" = Some e \/ Setup.write_error d "id.txt" = Some e) /\
  hd_error (Setup.screen d') =
    Some (EvConsole Stderr "Error during file setup: ${error.message}" [JStr (message e)]).
Proof.
  run_script.
  destruct (Setup.files d "user.txt") as [u |] eqn:Hu;
    [destruct u as [| c u] |];
    (destruct (Setup.files d "id.txt") as [i |] eqn:Hi;
     [destruct i as [| c' i] |]);
    destruct (Setup.write_error d "user.txt") as [x |] eqn:Hwu;
    destruct (Setup.write_error d "id.txt") as [y |] eqn:Hwi;
    do 3 (cbn [opt_falsy str_falsy Setup.files Setup.write_error Setup.typed Setup.screen
               String.eqb Ascii.eqb Bool.eqb];
          rewrite ?Hwu, ?Hwi, ?Hu, ?Hi);
    intros H; try discriminate H;
    injection H as <- <-; cbn [Setup.screen hd_error];
    (split; [first [left; reflexivity | right; reflexivity] | reflexivity]).
Qed.

Lemma setupFiles_fails_only_on_write_witness :
  (Setup.write_error SetupScenarios.readonly "user.txt"
     = Some (mkError "Error" "EACCES: permission denied") \/
   Setup.write_error SetupScenarios.readonly "id.txt"
     = Some (mkError "Error" "EACCES: permission denied")) /\
  hd_error (Setup.screen (snd (Setup.setupFiles SetupScenarios.readonly))) =
    Some (EvConsole Stderr "Error during file setup: ${error.message}"
            [JStr (message (mkError "Error" "EACCES: permission denied"))]).
Proof.
  apply (setupFiles_fails_only_on_write SetupScenarios.readonly
           (snd (Setup.setupFiles SetupScenarios.readonly))
           (mkError "Error" "EACCES: permission denied")).
  reflexivity.
Defined.

(** X17. The id.txt that [setupFiles] creates holds one entry. The answer
    to its question is a single line, so the text that is written has no
    line break, and [runAll] reads exactly one entry from it, although the
    prompt asks for one entry per line. *)
Theorem setupFiles_takes_one_entry (d : Setup.Desk) :
  Setup.wanting d "id.txt" = true ->
  Setup.write_error d "user.txt" = None ->
  Setup.write_error d "id.txt" = None ->
  has_char newline
    (Setup.typed d (questions (Setup.screen d) +
                    (if Setup.wanting d "user.txt" then 1 else 0))) = false ->
  exists d' content,
    Setup.setupFiles d = (Returned tt, d') /\
    Setup.files d' "id.txt" = Some content /\
    Part000.parseIds content =
      [parse_entry (trim (Setup.typed d (questions (Setup.screen d) +
                                         (if Setup.wanting d "user.txt" then 1 else 0))))] /\
    Bless.parseIds content = Part000.parseIds content.
Proof.
  intros Hwant Hwu Hwi Hline.
  destruct (setupFiles_fills_what_is_missing_aux d Hwu Hwi)
    as (d' & Hrun & _ & Hid & _).
  rewrite Hwant in Hid.
  exists d'. eexists. split; [exact Hrun |]. split; [exact Hid |].
  split; [| reflexivity].
  unfold Part000.parseIds. rewrite trim_idem.
  rewrite (LifecycleFacts.split_without_sep newline _ (has_char_trim _ _ Hline)).
  reflexivity.
Qed.

Lemma setupFiles_takes_one_entry_witness :
  exists d' content,
    Setup.setupFiles SetupScenarios.fresh = (Returned tt, d') /\
    Setup.files d' "id.txt" = Some content /\
    Part000.parseIds content =
      [parse_entry
         (trim (Setup.typed SetupScenarios.fresh
                  (questions (Setup.screen SetupScenarios.fresh) +
                   (if Setup.wanting SetupScenarios.fresh "user.txt" then 1 else 0))))] /\
    Bless.parseIds content = Part000.parseIds content.
Proof.
  apply (setupFiles_takes_one_entry SetupScenarios.fresh); reflexivity.
Defined.

(* ------------------------------------------------------------------ *)
(** ** [createIdFile] and [createUserFile]                              *)
(* ------------------------------------------------------------------ *)

Lemma kept_cons (x : string) (rest : list string) :
  Setup.kept (x :: rest) =
  if has_char ":" (trim x) then trim x :: Setup.kept rest else Setup.kept rest.
Proof. reflexivity. Qed.

(** The loop of [createIdFile]: it reads until the word that ends the
    entry and keeps the lines with a colon, in order. *)
Lemma collectIds_collects (k : nat) :
  forall (fuel : nat) (ids : list string) (d : Setup.Desk),
    (k < fuel)%nat ->
    (forall j, (j < k)%nat ->
       Setup.toLowerCase (trim (Setup.typed d (questions (Setup.screen d) + j))) <> "done") ->
    Setup.toLowerCase (trim (Setup.typed d (questions (Setup.screen d) + k))) = "done" ->
    exists d',
      Setup.collectIds fuel ids d =
        (Returned (ids ++ Setup.kept (map (Setup.typed d)
                                        (seq (questions (Setup.screen d)) k)))%list, d') /\
      Setup.files d' = Setup.files d /\
      Setup.write_error d' = Setup.write_error d /\
      Setup.typed d' = Setup.typed d /\
      questions (Setup.screen d') = (questions (Setup.screen d) + k + 1)%nat /\
      error_lines (Setup.screen d') = error_lines (Setup.screen d).
Proof.
  induction k as [| k IH]; intros fuel ids d Hfuel Hgo Hdone;
    (destruct fuel as [| fuel]; [lia |]); cbn [Setup.collectIds];
    cbv beta iota delta [Setup.bind Setup.promptInput Setup.ret Setup.console_log
                         Setup.show_on_screen].
  - rewrite Nat.add_0_r in Hdone. rewrite Hdone. cbn [String.eqb Ascii.eqb Bool.eqb].
    eexists. split; [cbn [seq map]; unfold Setup.kept; cbn [map filter];
                     rewrite app_nil_r; reflexivity |].
    cbn [Setup.files Setup.write_error Setup.typed Setup.screen]. shown.
    repeat split; lia.
  - pose proof (Hgo 0%nat ltac:(lia)) as H0. rewrite Nat.add_0_r in H0.
    apply String.eqb_neq in H0. rewrite H0.
    cbn [seq map]. rewrite kept_cons.
    destruct (has_char ":" (trim (Setup.typed d (questions (Setup.screen d))))) eqn:Hcolon.
    + match goal with
      | |- context [Setup.collectIds fuel ?ids1 ?d1] =>
          destruct (IH fuel ids1 d1) as (d' & Hrun & Hf & Hw & Ht & Hq & He)
      end.
      * lia.
      * intros j Hj. cbn [Setup.typed Setup.screen]. shown.
        replace (S (questions (Setup.screen d)) + j)%nat
          with (questions (Setup.screen d) + S j)%nat by lia.
        apply Hgo. lia.
      * cbn [Setup.typed Setup.screen]. shown.
        replace (S (questions (Setup.screen d)) + k)%nat
          with (questions (Setup.screen d) + S k)%nat by lia.
        exact Hdone.
      * exists d'. cbn [Setup.files Setup.write_error Setup.typed Setup.screen] in *.
        revert Hq He. shown. intros Hq He.
        rewrite Hrun, <- app_assoc. split; [reflexivity |].
        repeat split; auto; lia.
    + match goal with
      | |- context [Setup.collectIds fuel ?ids1 ?d1] =>
          destruct (IH fuel ids1 d1) as (d' & Hrun & Hf & Hw & Ht & Hq & He)
      end.
      * lia.
      * intros j Hj. cbn [Setup.typed Setup.screen]. shown.
        replace (S (questions (Setup.screen d)) + j)%nat
          with (questions (Setup.screen d) + S j)%nat by lia.
        apply Hgo. lia.
      * cbn [Setup.typed Setup.screen]. shown.
        replace (S (questions (Setup.screen d)) + k)%nat
          with (questions (Setup.screen d) + S k)%nat by lia.
        exact Hdone.
      * exists d'. cbn [Setup.files Setup.write_error Setup.typed Setup.screen] in *.
        revert Hq He. shown. intros Hq He.
        rewrite Hrun. split; [reflexivity |].
        repeat split; auto; lia.
Qed.

Lemma kept_lines (inputs : list string) :
  (forall x, In x inputs -> has_char newline x = false) ->
  forall x, In x (Setup.kept inputs) ->
    has_char ":" x = true /\ has_char newline x = false /\ trim x = x.
Proof.
  intros Hin x Hx. unfold Setup.kept in Hx. apply filter_In in Hx.
  destruct Hx as (Hx & Hcolon). apply in_map_iff in Hx. destruct Hx as (raw & <- & Hraw).
  split; [exact Hcolon |]. split; [apply has_char_trim, Hin, Hraw | apply trim_idem].
Qed.

(** X18. [createIdFile] and [readNodeAndHardwareIds] of part_001 fit
    together. When the user types [k] lines and then the word done, in any
    mix of upper and lower case, the lines that hold a colon are written to
    id.txt, trimmed and in the order typed; and when id.txt is then read
    back, [readNodeAndHardwareIds] returns exactly one entry for each of
    those lines. *)
Theorem createIdFile_round_trip (k fuel : nat) (d : Setup.Desk) :
  (k < fuel)%nat ->
  (forall j, (j < k)%nat ->
     Setup.toLowerCase (trim (Setup.typed d (questions (Setup.screen d) + j))) <> "done") ->
  Setup.toLowerCase (trim (Setup.typed d (questions (Setup.screen d) + k))) = "done" ->
  (forall j, (j < k)%nat ->
     has_char newline (Setup.typed d (questions (Setup.screen d) + j)) = false) ->
  Setup.write_error d "id.txt" = None ->
  exists d',
    Setup.createIdFile fuel d = (Returned tt, d') /\
    Setup.files d' "id.txt" =
      Some (Setup.join newline
              (Setup.kept (map (Setup.typed d) (seq (questions (Setup.screen d)) k)))) /\
    forall w,
      file_reply (env w) "id.txt" (reads_of "id.txt" (trace w)) =
        Fulfilled (Setup.join newline
                     (Setup.kept (map (Setup.typed d) (seq (questions (Setup.screen d)) k)))) ->
      fst (exec Part001.readNodeAndHardwareIds w) =
        Returned (map parse_entry
                    (Setup.kept (map (Setup.typed d) (seq (questions (Setup.screen d)) k)))).
Proof.
  intros Hfuel Hgo Hdone Hlines Hwrite.
  unfold Setup.createIdFile.
  cbv beta iota delta [Setup.bind Setup.console_log Setup.show_on_screen].
  match goal with
  | |- context [Setup.collectIds fuel [] ?d1] =>
      destruct (collectIds_collects k fuel [] d1) as (d1' & Hrun & Hf & Hw & Ht & Hq & He)
  end.
  - exact Hfuel.
  - intros j Hj. cbn [Setup.typed Setup.screen]. shown. apply Hgo, Hj.
  - cbn [Setup.typed Setup.screen]. shown. exact Hdone.
  - cbn [Setup.files Setup.write_error Setup.typed Setup.screen] in *.
    revert Hrun. shown. intros Hrun. rewrite Hrun. cbn [app].
    unfold Setup.writeFile. rewrite Hw, Hwrite.
    eexists. split; [reflexivity |].
    cbn [Setup.files String.eqb Ascii.eqb Bool.eqb]. split; [reflexivity |].
    intros w Hfile. unfold Part001.readNodeAndHardwareIds, readFile.
    cbn [bind exec]. rewrite Hfile. cbn [await bind exec fst].
    f_equal. apply (entries_of_joined _).
    apply kept_lines. intros x Hx. apply in_map_iff in Hx.
    destruct Hx as (j & <- & Hj). apply in_seq in Hj.
    replace j with (questions (Setup.screen d) + (j - questions (Setup.screen d)))%nat by lia.
    apply Hlines. lia.
Qed.

Lemma createIdFile_round_trip_witness :
  exists d',
    Setup.createIdFile 9 SetupScenarios.entering = (Returned tt, d') /\
    Setup.files d' "id.txt" =
      Some (Setup.join newline
              (Setup.kept (map (Setup.typed SetupScenarios.entering)
                             (seq (questions (Setup.screen SetupScenarios.entering)) 3)))) /\
    forall w,
      file_reply (env w) "id.txt" (reads_of "id.txt" (trace w)) =
        Fulfilled (Setup.join newline
                     (Setup.kept (map (Setup.typed SetupScenarios.entering)
                                    (seq (questions (Setup.screen SetupScenarios.entering))
                                       3)))) ->
      fst (exec Part001.readNodeAndHardwareIds w) =
        Returned (map parse_entry
                    (Setup.kept (map (Setup.typed SetupScenarios.entering)
                                   (seq (questions (Setup.screen SetupScenarios.entering))
                                      3)))).
Proof.
  apply (createIdFile_round_trip 3 9 SetupScenarios.entering).
  - lia.
  - intros j Hj. destruct j as [| [| [| j]]]; [cbn; discriminate .. | lia].
  - reflexivity.
  - intros j Hj. destruct j as [| [| [| j]]]; [reflexivity .. | lia].
  - reflexivity.
Defined.

(** X19. [createUserFile] and [readAuthToken] of part_001 fit together:
    the token that is written is the trimmed answer, and reading user.txt
    back returns that same token. *)
Theorem createUserFile_round_trip (d : Setup.Desk) :
  Setup.write_error d "user.txt" = None ->
  exists d',
    Setup.createUserFile d = (Returned tt, d') /\
    Setup.files d' "user.txt" = Some (trim (Setup.typed d (questions (Setup.screen d)))) /\
    (forall p, p <> "user.txt" -> Setup.files d' p = Setup.files d p) /\
    forall w,
      file_reply (env w) "user.txt" (reads_of "user.txt" (trace w)) =
        Fulfilled (trim (Setup.typed d (questions (Setup.screen d)))) ->
      fst (exec Part001.readAuthToken w) =
        Returned (trim (Setup.typed d (questions (Setup.screen d)))).
Proof.
  intros Hwrite. run_script. rewrite Hwrite.
  eexists. split; [reflexivity |].
  cbn [Setup.files String.eqb Ascii.eqb Bool.eqb]. split; [reflexivity |]. split.
  - intros p Hp. apply String.eqb_neq in Hp. rewrite Hp. reflexivity.
  - intros w Hfile. unfold Part001.readAuthToken, readFile. cbn [bind exec].
    rewrite Hfile. cbn [await bind exec fst]. rewrite trim_idem. reflexivity.
Qed.

Lemma createUserFile_round_trip_witness :
  exists d',
    Setup.createUserFile SetupScenarios.fresh = (Returned tt, d') /\
    Setup.files d' "user.txt" =
      Some (trim (Setup.typed SetupScenarios.fresh
                    (questions (Setup.screen SetupScenarios.fresh)))) /\
    (forall p, p <> "user.txt" -> Setup.files d' p = Setup.files SetupScenarios.fresh p) /\
    forall w,
      file_reply (env w) "user.txt" (reads_of "user.txt" (trace w)) =
        Fulfilled (trim (Setup.typed SetupScenarios.fresh
                           (questions (Setup.screen SetupScenarios.fresh)))) ->
      fst (exec Part001.readAuthToken w) =
        Returned (trim (Setup.typed SetupScenarios.fresh
                          (questions (Setup.screen SetupScenarios.fresh)))).
Proof.
  apply (createUserFile_round_trip SetupScenarios.fresh). reflexivity.
Defined.

End SetupFacts.

(* ================================================================== *)
(** * The address service in bless.js, and the lines of id.txt          *)
(* ================================================================== *)

Module MoreFacts.
Import RetryFacts.

(** X20. bless.js has no second try for the address service. When the
    user picks the service (any choice but 1 and 3) and the request to it
    fails, [runAll] ends with that error after this one request: no node is
    registered and no interval is set. *)
Theorem bless_runAll_stops_without_address
    (fuel : nat) (w : World) (idsContent : string) (e : JsError) :
  file_reply (env w) "id.txt" (reads_of "id.txt" (trace w)) = Fulfilled idsContent ->
  trim (answer (env w) (questions (trace w))) <> "1" ->
  trim (answer (env w) (questions (trace w))) <> "3" ->
  fetch_reply (env w) ipServiceUrl (fetches_to ipServiceUrl (trace w)) = Rejected e ->
  fst (exec (Bless.runAll (S fuel)) w) = Raised e /\
  fetches (trace (snd (exec (Bless.runAll (S fuel)) w))) = S (fetches (trace w)) /\
  fetches_to ipServiceUrl (trace (snd (exec (Bless.runAll (S fuel)) w))) =
    S (fetches_to ipServiceUrl (trace w)) /\
  timers (snd (exec (Bless.runAll (S fuel)) w)) = timers w.
Proof.
  intros Hfile H1 H3 Hreply. apply String.eqb_neq in H1, H3.
  assert (Hrun : exists pre,
            exec (Bless.runAll (S fuel)) w =
              (Raised e,
               mkWorld (env w) (EvFetch ipServiceUrl no_options :: pre ++ trace w)%list
                 (timers w) (detached w)) /\
            count is_fetch pre = 0%nat /\
            count (is_fetch_to ipServiceUrl) pre = 0%nat).
  { unfold Bless.runAll, readFile. cbn [bind exec]. rewrite Hfile.
    cbn [await bind exec Bless.fetchIpAddress promptInput].
    replace (questions (trace (record (EvReadFile "id.txt") w))) with (questions (trace w))
      by (unfold questions; cbn [record trace]; rewrite count_cons; reflexivity).
    cbn [env record]. rewrite H1, H3.
    destruct (String.eqb (trim (answer (env w) (questions (trace w)))) "2");
      [ exists [EvQuestion
                  "Choose IP option: (1) Manual, (2) Fetch from Service, (3) Local network IP (1/2/3): ";
                EvReadFile "id.txt"]
      | exists [EvConsole Stderr "Invalid choice. Defaulting to external IP service." [];
                EvQuestion
                  "Choose IP option: (1) Manual, (2) Fetch from Service, (3) Local network IP (1/2/3): ";
                EvReadFile "id.txt"] ];
      unfold Bless.lookupIp, fetch; cbn [bind console_error exec env record trace];
      unfold fetches_to; rewrite !count_cons; cbn [is_fetch_to Nat.add];
      fold (fetches_to ipServiceUrl (trace w)); rewrite Hreply;
      cbn [await bind exec]; (split; [reflexivity | split; reflexivity]). }
  destruct Hrun as (pre & -> & Hpre1 & Hpre2).
  cbn [fst snd trace timers]. unfold fetches, fetches_to.
  rewrite !count_cons, !count_app, Hpre1, Hpre2. cbn [is_fetch is_fetch_to].
  rewrite String.eqb_refl. repeat split; reflexivity.
Qed.

Lemma bless_runAll_stops_without_address_witness :
  fst (exec (Bless.runAll 1) (boot MoreScenarios.env_odd_service)) = Raised Scenarios.refused /\
  fetches (trace (snd (exec (Bless.runAll 1) (boot MoreScenarios.env_odd_service)))) =
    S (fetches (trace (boot MoreScenarios.env_odd_service))) /\
  fetches_to ipServiceUrl
    (trace (snd (exec (Bless.runAll 1) (boot MoreScenarios.env_odd_service)))) =
    S (fetches_to ipServiceUrl (trace (boot MoreScenarios.env_odd_service))) /\
  timers (snd (exec (Bless.runAll 1) (boot MoreScenarios.env_odd_service))) =
    timers (boot MoreScenarios.env_odd_service).
Proof.
  apply (bless_runAll_stops_without_address 0 (boot MoreScenarios.env_odd_service)
           "secret" Scenarios.refused).
  - reflexivity.
  - cbn. discriminate.
  - cbn. discriminate.
  - reflexivity.
Defined.

(** X21. How a line of id.txt is taken apart. A line [n:h] gives the
    node id [n] and the hardware id [h]; what follows a second colon is
    dropped without a word; and the two ids that come out never hold a
    colon. *)
Theorem parse_entry_takes_two_fields (n h : string) :
  has_char ":" n = false ->
  has_char ":" h = false ->
  parse_entry (n ++ String ":" h) = mkEntry n (Some h) /\
  (forall rest, parse_entry (n ++ String ":" (h ++ String ":" rest)) = mkEntry n (Some h)) /\
  invalid_entry (mkEntry n (Some h)) = str_falsy n || str_falsy h.
Proof.
  intros Hn Hh. split; [| split].
  - unfold parse_entry. rewrite (LifecycleFacts.split_at_sep ":" n h Hn).
    rewrite (LifecycleFacts.split_without_sep ":" h Hh). reflexivity.
  - intros rest. unfold parse_entry.
    rewrite (LifecycleFacts.split_at_sep ":" n _ Hn).
    rewrite (LifecycleFacts.split_at_sep ":" h rest Hh).
    reflexivity.
  - reflexivity.
Qed.

Lemma parse_entry_takes_two_fields_witness :
  parse_entry ("node1" ++ String ":" "hw1") = mkEntry "node1" (Some "hw1") /\
  (forall rest, parse_entry ("node1" ++ String ":" ("hw1" ++ String ":" rest))
                = mkEntry "node1" (Some "hw1")) /\
  invalid_entry (mkEntry "node1" (Some "hw1")) = str_falsy "node1" || str_falsy "hw1".
Proof.
  apply (parse_entry_takes_two_fields "node1" "hw1"); reflexivity.
Defined.

End MoreFacts.

(* ================================================================== *)
(** * A firing of the scheduled heartbeat that fails                    *)
(* ================================================================== *)

Module FiringFacts.
Import RetryFacts OnlyFacts.

(* ------------------------------------------------------------------ *)
(** ** What is scheduled                                                *)
(* ------------------------------------------------------------------ *)

(** A stage of part_000's attempt that sets no interval. *)
Ltac quiet_stage :=
  rewrite exec_bind;
  match goal with
  | |- context [exec ?p ?w0] =>
      let Ht := fresh "Ht" in
      let HOnly := fresh "HOnly" in
      assert (HOnly : Only true retry_attempt_event p)
        by first [apply LifecycleMore.Only_retryFetch
                 | apply LifecycleMore.Only_retry_pingNode];
      pose proof (Only_timers _ _ p HOnly ltac:(reflexivity) w0) as Ht;
      destruct (exec p w0) as [[? | ? | ] ?];
      cbn [fst snd record timers] in Ht;
      [ | congruence | congruence ]
  end.

Ltac parsed :=
  match goal with
  | |- context [await ?r] => destruct r; cbn [await bind exec]; [| congruence]
  end.

(** part_000: the callback of the interval is [pingNode] itself, closed
    over the token that the attempt has read. *)
Lemma retry_attempt_schedules fuel n h ip w content :
  file_reply (env w) "user.txt" (reads_of "user.txt" (trace w)) = Fulfilled content ->
  match exec (Part000.attempt fuel n h ip) w with
  | (Returned _, w1) =>
      timers w1 = (60000, Part000.pingNode fuel n (trim content)) :: timers w
  | (_, w1) => timers w1 = timers w
  end.
Proof.
  intros Hfile.
  unfold Part000.attempt, readFile, response_json, console_log.
  cbn [bind exec]. rewrite Hfile. cbn [await bind exec].
  quiet_stage. parsed. quiet_stage. parsed. quiet_stage.
  cbn [setInterval exec timers]. congruence.
Qed.

(* ------------------------------------------------------------------ *)
(** ** Intervals are never removed                                      *)
(* ------------------------------------------------------------------ *)

Lemma step_keeps_timers {A : Type} (p : Async A) (w : World) :
  exists new, timers (snd (step p w)) = (new ++ timers w)%list.
Proof.
  destruct p; cbn [step snd record timers];
    try (exists []; reflexivity).
  eexists [_]. reflexivity.
Qed.

Lemma resume_keeps_timers i l :
  exists new, timers (world (resume i l)) = (new ++ timers (world l))%list.
Proof.
  unfold resume. destruct (nth_error (tasks l) i) as [p |]; [| exists []; reflexivity].
  destruct (step_keeps_timers p (world l)) as (new & Hnew).
  destruct (step p (world l)) as [p' w']. cbn [snd] in Hnew.
  exists new. cbn [world timers]. exact Hnew.
Qed.

Lemma fire_keeps_world i l : world (fire i l) = world l.
Proof.
  unfold fire. destruct (nth_error (timers (world l)) i) as [[ms callback] |]; reflexivity.
Qed.

Lemma run_turns_keeps_timers (s : list Turn) :
  forall l, exists new, timers (world (run_turns s l)) = (new ++ timers (world l))%list.
Proof.
  induction s as [| [i | i] s IH]; intros l; cbn [run_turns].
  - exists []. reflexivity.
  - destruct (IH (resume i l)) as (new & Hnew).
    destruct (resume_keeps_timers i l) as (new' & Hnew').
    exists (new ++ new')%list. rewrite Hnew, Hnew', app_assoc. reflexivity.
  - destruct (IH (fire i l)) as (new & Hnew).
    exists new. rewrite Hnew, fire_keeps_world. reflexivity.
Qed.

(* ------------------------------------------------------------------ *)
(** ** A firing does nothing but ping                                   *)
(* ------------------------------------------------------------------ *)

Lemma pings_console n s t args : only_pings n (EvConsole s t args).
Proof. exact I. Qed.

Lemma pings_timeout n ms : only_pings n (EvTimeout ms).
Proof. exact I. Qed.

Lemma heartbeat_only_pings n ip :
  Confined any_file (only_pings n) (Part001.heartbeat n ip).
Proof.
  apply ConfinedFacts.Confined_heartbeat;
    [apply pings_console | exact I | intros; reflexivity].
Qed.

Lemma retry_ping_only_pings budget n tok :
  Confined any_file (only_pings n) (Part000.pingNode budget n tok).
Proof.
  apply ConfinedFacts.Confined_retry_pingNode;
    [apply pings_console | apply pings_timeout | reflexivity].
Qed.

(** What a callback that only pings leaves behind. *)
Lemma only_pings_run n (callback : Async unit) w :
  Confined any_file (only_pings n) callback ->
  (forall ev, In ev (trace (snd (exec callback w))) -> In ev (trace w) \/ only_pings n ev) /\
  timers (snd (exec callback w)) = timers w /\
  detached (snd (exec callback w)) = detached w.
Proof.
  intros Hc. split; [| split].
  - apply (ConfinedFacts.exec_confined any_file (only_pings n) callback Hc w).
    intros path k. exact I.
  - apply (ConfinedFacts.exec_confined_timers any_file (only_pings n) callback Hc).
    + intros ms H. exact H.
    + intros path k. exact I.
  - apply (ConfinedFacts.exec_confined_detached any_file (only_pings n) callback Hc).
    + intros H. exact H.
    + intros path k. exact I.
Qed.

(* ------------------------------------------------------------------ *)
(** ** part_000: a firing that fails                                    *)
(* ------------------------------------------------------------------ *)

(** The first reply is ok and its body cannot be read: the callback fails
    at once, and not a line is written to standard error. *)
Lemma retry_ping_fails_unlogged budget n tok w response e :
  next_reply (pingUrl n) w = Fulfilled response ->
  ok response = true ->
  body_failure "isB7SConnected" response = Some e ->
  fst (exec (Part000.pingNode (S budget) n tok) w) = Raised e /\
  error_lines (trace (snd (exec (Part000.pingNode (S budget) n tok) w)))
    = error_lines (trace w) /\
  fetches (trace (snd (exec (Part000.pingNode (S budget) n tok) w)))
    = S (fetches (trace w)).
Proof.
  intros Hreply Hok Hbody. unfold next_reply in Hreply.
  rewrite LifecycleFacts.pingNode_through_retryFetch, exec_bind.
  cbn [Part000.retryFetch]. rewrite exec_try_catch. unfold fetch. cbn [bind exec].
  rewrite Hreply. cbn [await bind]. rewrite Hok. cbn [negb exec].
  destruct (LifecycleFacts.reportPing_fails n response e
              (record (EvFetch (pingUrl n) (with_timeout (authOptions tok) 30000)) w) Hbody)
    as (w' & Hrun & Hf & _ & He & _).
  rewrite Hrun. cbn [fst snd]. split; [reflexivity |]. split.
  - rewrite He. unfold error_lines. cbn [record trace]. rewrite count_cons. reflexivity.
  - rewrite Hf. unfold fetches. cbn [record trace]. rewrite count_cons. reflexivity.
Qed.

(* ------------------------------------------------------------------ *)
(** ** part_001: the hook of uncaught exceptions                        *)
(* ------------------------------------------------------------------ *)

Lemma hook_runs_all fuel e w :
  exec (Part001.onUncaughtException fuel e) w =
  (Returned tt,
   mkWorld (env w)
     (EvDetach
        :: EvConsole Stderr "Uncaught exception: ${error.message}" [JStr (message e)]
        :: trace w)
     (timers w)
     (detached w ++ [Part001.runAll fuel])).
Proof. reflexivity. Qed.

(** C6, as the code has it. A firing of the heartbeat that fails is not
    contained by the program: the error leaves the callback, whose promise
    is rejected.

    part_001 schedules [heartbeat], which pings once. When user.txt cannot
    be read, when the request is rejected or when the body of the reply
    cannot be read, it writes one line to standard error and throws the
    same error again; otherwise it returns.

    part_000 schedules [pingNode] itself, with no [catch] around it. Four
    failed requests in a row make it raise; a reply that is ok with a body
    that cannot be read makes it raise at the first request with nothing
    written to standard error.

    In both variants the callback sends requests to the ping address of its
    node only, sets no interval and starts no task, so that it never
    registers the node or starts a session again by itself; and no turn of
    any task and no firing removes an interval, so that the schedule stays.

    What becomes of the rejected promise is up to the runtime. part_001
    installs a hook for uncaught exceptions: handed an error, it writes
    one line to standard error and starts [runAll(false)], which starts a
    new lifecycle for every entry of id.txt. part_000 has no such hook. *)
Theorem failed_firing_leaves_callback :
  (forall n h ip w,
     fst (exec (Part001.attempt n h ip) w) = Returned tt ->
     timers (snd (exec (Part001.attempt n h ip) w)) =
       (60000, Part001.heartbeat n ip) :: timers w) /\
  (forall budget n h ip w content,
     file_reply (env w) "user.txt" (reads_of "user.txt" (trace w)) = Fulfilled content ->
     fst (exec (Part000.attempt budget n h ip) w) = Returned tt ->
     timers (snd (exec (Part000.attempt budget n h ip) w)) =
       (60000, Part000.pingNode budget n (trim content)) :: timers w) /\
  (forall n ip w e,
     file_reply (env w) "user.txt" (reads_of "user.txt" (trace w)) = Rejected e ->
     exec (Part001.heartbeat n ip) w =
     (Raised e, ping_reported e (record (EvReadFile "user.txt") (before_ping n w)))) /\
  (forall n ip w content e,
     file_reply (env w) "user.txt" (reads_of "user.txt" (trace w)) = Fulfilled content ->
     plain_ping_failure (next_reply (pingUrl n) w) = Some e ->
     exec (Part001.heartbeat n ip) w =
     (Raised e, ping_reported e (pinged n ip content (before_ping n w)))) /\
  (forall n ip w content,
     file_reply (env w) "user.txt" (reads_of "user.txt" (trace w)) = Fulfilled content ->
     plain_ping_failure (next_reply (pingUrl n) w) = None ->
     fst (exec (Part001.heartbeat n ip) w) = Returned tt /\
     error_lines (trace (snd (exec (Part001.heartbeat n ip) w))) = error_lines (trace w)) /\
  (forall budget n tok w,
     (3 < budget)%nat ->
     (forall k, (k <= 3)%nat ->
        failure (fetch_reply (env w) (pingUrl n) (fetches_to (pingUrl n) (trace w) + k))
        <> None) ->
     exists e w',
       exec (Part000.pingNode budget n tok) w = (Raised e, w') /\
       failure (fetch_reply (env w) (pingUrl n) (fetches_to (pingUrl n) (trace w) + 3))
         = Some e /\
       fetches (trace w') = (fetches (trace w) + 4)%nat /\
       waits 1000 (trace w') = (waits 1000 (trace w) + 3)%nat) /\
  (forall budget n tok w response e,
     next_reply (pingUrl n) w = Fulfilled response ->
     ok response = true ->
     body_failure "isB7SConnected" response = Some e ->
     fst (exec (Part000.pingNode (S budget) n tok) w) = Raised e /\
     error_lines (trace (snd (exec (Part000.pingNode (S budget) n tok) w)))
       = error_lines (trace w) /\
     fetches (trace (snd (exec (Part000.pingNode (S budget) n tok) w)))
       = S (fetches (trace w))) /\
  (forall n ip w,
     (forall ev, In ev (trace (snd (exec (Part001.heartbeat n ip) w))) ->
                 In ev (trace w) \/ only_pings n ev) /\
     timers (snd (exec (Part001.heartbeat n ip) w)) = timers w /\
     detached (snd (exec (Part001.heartbeat n ip) w)) = detached w) /\
  (forall budget n tok w,
     (forall ev, In ev (trace (snd (exec (Part000.pingNode budget n tok) w))) ->
                 In ev (trace w) \/ only_pings n ev) /\
     timers (snd (exec (Part000.pingNode budget n tok) w)) = timers w /\
     detached (snd (exec (Part000.pingNode budget n tok) w)) = detached w) /\
  (forall s l, exists new,
     timers (world (run_turns s l)) = (new ++ timers (world l))%list) /\
  (forall fuel e w,
     exec (Part001.onUncaughtException fuel e) w =
     (Returned tt,
      mkWorld (env w)
        (EvDetach
           :: EvConsole Stderr "Uncaught exception: ${error.message}" [JStr (message e)]
           :: trace w)
        (timers w)
        (detached w ++ [Part001.runAll fuel]))) /\
  (forall fuel w data ip w1,
     file_reply (env w) "id.txt" (reads_of "id.txt" (trace w)) = Fulfilled data ->
     exec (Part001.fetchIpAddress fuel) (record (EvReadFile "id.txt") w) = (Returned ip, w1) ->
     exec (Part001.runAll fuel) w =
     (Returned tt,
      mkWorld (env w1) (repeat EvDetach (List.length (plain_entries data)) ++ trace w1)
        (timers w1)
        (detached w1 ++
         map (fun e => Part001.processNode fuel (nodeId e) (hardwareId e) ip)
           (plain_entries data)))).
Proof.
  split; [| split; [| split; [| split; [| split; [| split; [| split; [| split;
    [| split; [| split; [| split]]]]]]]]]].
  - intros n h ip w Hret.
    destruct (LifecycleMore.plain_attempt_timer n h ip w) as [(_ & Ht & _) | (e & He & _)];
      [exact Ht | congruence].
  - intros budget n h ip w content Hfile Hret.
    pose proof (retry_attempt_schedules budget n h ip w content Hfile) as H.
    destruct (exec (Part000.attempt budget n h ip) w) as [[[] | e | ] w1];
      cbn [fst snd] in *; [exact H | discriminate | discriminate].
  - intros n ip w e Hfile. rewrite LifecycleMore.heartbeat_after_ping.
    rewrite (LifecycleFacts.plain_ping_without_token n ip (before_ping n w) e); auto.
  - intros n ip w content e Hfile Hfail. rewrite LifecycleMore.heartbeat_after_ping.
    rewrite (LifecycleFacts.plain_ping_fails n ip (before_ping n w) content e); auto.
  - intros n ip w content Hfile Hfail. rewrite LifecycleMore.heartbeat_after_ping.
    destruct (LifecycleFacts.plain_ping_succeeds n ip (before_ping n w) content)
      as (response & data & status & _ & _ & _ & Hrun); auto.
    rewrite Hrun. split; reflexivity.
  - intros budget n tok w. apply LifecycleFacts.ping_raises_after_four.
  - intros budget n tok w response e. apply retry_ping_fails_unlogged.
  - intros n ip w. apply only_pings_run, heartbeat_only_pings.
  - intros budget n tok w. apply only_pings_run, retry_ping_only_pings.
  - intros s l. apply run_turns_keeps_timers.
  - intros fuel e w. apply hook_runs_all.
  - intros fuel w data ip w1. apply ConfinedFacts.plain_runAll_launches.
Qed.

(** The second ping of node A gets a reply that is no JSON: in part_001 the
    firing reports the error and throws it; in part_000, where every ping
    after the first gets such a reply, the firing raises with no line
    written. *)
Lemma failed_firing_leaves_callback_witness :
  exec (Part001.heartbeat "A" Restart.localIp) Restart.scheduled =
  (Raised Restart.parseError,
   ping_reported Restart.parseError
     (pinged "A" Restart.localIp "secret" (before_ping "A" Restart.scheduled))) /\
  (let w := snd (exec (Part000.lifecycle 1 5 "A" "hwA" Scenarios.sampleIp)
                   (boot FiringScenarios.env_later_pings_garbled)) in
   fst (exec (Part000.pingNode 5 "A" "secret") w) = Raised Restart.parseError /\
   error_lines (trace (snd (exec (Part000.pingNode 5 "A" "secret") w)))
     = error_lines (trace w) /\
   fetches (trace (snd (exec (Part000.pingNode 5 "A" "secret") w)))
     = S (fetches (trace w))) /\
  timers (snd (exec (Part000.attempt 5 "A" "hwA" Scenarios.sampleIp)
                 (boot FiringScenarios.env_later_pings_garbled))) =
    [(60000, Part000.pingNode 5 "A" "secret")].
Proof.
  split; [| split].
  - apply (proj1 (proj2 (proj2 (proj2 failed_firing_leaves_callback)))
             "A" Restart.localIp Restart.scheduled "secret" Restart.parseError);
      reflexivity.
  - cbv zeta.
    apply (proj1 (proj2 (proj2 (proj2 (proj2 (proj2 (proj2 failed_firing_leaves_callback))))))
             4%nat "A" "secret"
             (snd (exec (Part000.lifecycle 1 5 "A" "hwA" Scenarios.sampleIp)
                     (boot FiringScenarios.env_later_pings_garbled)))
             MoreScenarios.spent Restart.parseError); reflexivity.
  - apply (proj1 (proj2 failed_firing_leaves_callback) 5%nat "A" "hwA" Scenarios.sampleIp
             (boot FiringScenarios.env_later_pings_garbled) "secret"); reflexivity.
Defined.

(** C6 as stated fails on both variants.

    part_000, node A, every ping after the first answered with a body that
    is no JSON: the lifecycle returns with [pingNode] scheduled; the firing
    raises, and nothing is written to standard error: the failure is not
    logged, and it leaves the callback.

    part_001, node A alone, the second ping answered with such a body: the
    firing writes its line and raises. Handed that error, the hook of
    uncaught exceptions starts [runAll(false)], which asks for the address
    again and starts a second lifecycle for node A; that lifecycle registers
    the node a second time and sets a second interval beside the first. *)
Lemma failed_firing_is_not_contained :
  (let w := snd (exec (Part000.lifecycle 1 5 "A" "hwA" Scenarios.sampleIp)
                   (boot FiringScenarios.env_later_pings_garbled)) in
   fst (exec (Part000.lifecycle 1 5 "A" "hwA" Scenarios.sampleIp)
          (boot FiringScenarios.env_later_pings_garbled)) = Returned tt /\
   timers w = [(60000, Part000.pingNode 5 "A" "secret")] /\
   fst (exec (Part000.pingNode 5 "A" "secret") w) = Raised Restart.parseError /\
   error_lines (trace (snd (exec (Part000.pingNode 5 "A" "secret") w))) = 0%nat) /\
  detached Restart.launched = [Part001.processNode 3 "A" (Some "hwA") Restart.localIp] /\
  fst (exec (Part001.processNode 3 "A" (Some "hwA") Restart.localIp) Restart.launched)
    = Returned tt /\
  timers Restart.scheduled = [(60000, Part001.heartbeat "A" Restart.localIp)] /\
  fst (exec (Part001.heartbeat "A" Restart.localIp) Restart.scheduled)
    = Raised Restart.parseError /\
  hd_error (trace Restart.fired) =
    Some (EvConsole Stderr "Error during ping: ${error.message}"
            [JStr (message Restart.parseError)]) /\
  detached Restart.hooked = (detached Restart.fired ++ [Part001.runAll 3])%list /\
  detached Restart.relaunched =
    (detached Restart.hooked
       ++ [Part001.processNode 3 "A" (Some "hwA") Restart.localIp])%list /\
  questions (trace Restart.relaunched) = 2%nat /\
  fst (exec (Part001.processNode 3 "A" (Some "hwA") Restart.localIp) Restart.relaunched)
    = Returned tt /\
  fetches_to (registerUrl "A") (trace Restart.rescheduled) = 2%nat /\
  fetches_to (sessionUrl "A") (trace Restart.rescheduled) = 2%nat /\
  timers Restart.rescheduled =
    [(60000, Part001.heartbeat "A" Restart.localIp);
     (60000, Part001.heartbeat "A" Restart.localIp)].
Proof.
  cbv zeta. repeat split; reflexivity.
Qed.

End FiringFacts.
